(** * Value objects of DomainDrivenJS: a shallow embedding of [valueObject]
    (the factory of [valueObjects/Base.js]) and of the schema adapters of
    [valueObjects/schema.js], and the properties of the specification that
    concern them.

    JavaScript objects live in a heap and are compared by reference, so the
    embedding threads a heap through a small state-and-exception monad.
    Functions are heap objects too; the closures the library creates are
    kept in defunctionalised form ([code]), the functions of the library's
    user (schemas, method factories, custom methods) are semantic functions
    on the heap. *)

From Stdlib Require Import ZArith String List Bool Lia.
From stdpp Require Import base list strings pretty.

Local Open Scope string_scope.
Local Open Scope list_scope.

(** ** Values *)

(** Objects are named by their index in the heap. *)
Abbreviation loc := nat.

(** The three inherited methods the library relies on. They are function
    values that are not allocated by the program. *)
Inductive builtin : Type :=
| BValueOf              (* the inherited [valueOf]: returns [this] *)
| BHasOwnProperty       (* [Object.prototype.hasOwnProperty] *)
| BBind.                (* [Function.prototype.bind] *)

#[global] Instance builtin_eq_dec : EqDecision builtin.
Proof. solve_decision. Defined.

(** Numbers: the finite numbers are represented by integers, [VNaN] is the
    one number that is not [===] to itself. A string is the sequence of
    its code units, each of them below 256 here: the strings of the model
    are those of Latin-1 text, for which one character of [string] is one
    code unit of JavaScript. *)
Inductive value : Type :=
| VUndefined
| VNull
| VBool (b : bool)
| VNumber (n : Z)
| VNaN
| VString (s : string)
| VRef (l : loc)
| VBuiltin (b : builtin).

#[global] Instance value_eq_dec : EqDecision value.
Proof. solve_decision. Defined.

(** [a === b] *)
Definition strict_eq (a b : value) : bool :=
  match a, b with
  | VNaN, _ | _, VNaN => false
  | _, _ => bool_decide (a = b)
  end.

(** ToBoolean on everything but objects, which are all truthy. *)
Definition truthy (v : value) : bool :=
  match v with
  | VUndefined | VNull | VNaN => false
  | VBool b => b
  | VNumber n => negb (n =? 0)%Z
  | VString s => negb (String.eqb s "")
  | VRef _ | VBuiltin _ => true
  end.

(** ** Closures and objects *)

(** What the three standard methods close over: [name], [isPrimitive],
    [validatedData]; [primitiveValue] is computed from the last two. *)
Record env : Type := Env {
  env_name : string;
  env_isPrimitive : bool;
  env_validatedData : value;
}.

Definition primitiveValue (e : env) : value :=
  if env_isPrimitive e then env_validatedData e else VUndefined.

Inductive code : Type :=
| CValueOf (e : env)                 (* the [valueOf() {...}] of a prototype *)
| CEquals (e : env)                  (* the [equals(other) {...}] of a prototype *)
| CToString (e : env)                (* the [toString() {...}] of a prototype *)
| CBound (target : value) (this : value)       (* [target.bind(this)] *)
| CCombined (parentMF extendedMF : value)      (* [combinedMethodsFactory] of [extend] *)
| CBuiltin (b : builtin)
| CHandle (member : string)          (* [create] or [extend], as a member of a handle *)
| CNative (id : nat).                (* a function of the library's user *)

(** An object: its own properties in creation order (all of them
    enumerable, string-keyed data properties), whether it was frozen, and
    its code when it is a function. The objects of the model are the
    ordinary ones, which inherit from [Object.prototype]; an object made
    with [Object.create(null)] is not among them. The [length] and [name]
    of a function, which are not enumerable, are not kept: where the own
    property names of a function matter, the model does not apply. *)
Record obj : Type := Obj {
  props : list (string * value);
  frozen : bool;
  callable : option code;
}.

Abbreviation heap := (list obj).

(** ** Errors and the monad *)

(** An issue of a [ZodError]. *)
Record issue : Type := Issue { message : string; path : list string }.

(** What is thrown: the [ZodError] of zod with its issues; the
    [ValidationError] of [errors/index.js], built from a message, the error
    that caused it and the context [{objectType, input}]; a plain [new
    Error(message)]; the [TypeError] of the language; any other value. *)
Inductive exn : Type :=
| ZodError (errors : list issue)
| ValidationError (msg : string) (cause : exn) (objectType : string) (input : value)
| Error (msg : string)
| TypeError
| Thrown (v : value).

Inductive result (A : Type) : Type :=
| Ok (a : A)
| Throw (e : exn)
| Timeout.                           (* [call] ran out of fuel, or did not follow the call *)
Arguments Ok {A} a.
Arguments Throw {A} e.
Arguments Timeout {A}.

Definition is_ZodError (e : exn) : bool :=
  match e with ZodError _ => true | _ => false end.

Definition M (A : Type) : Type := heap -> result A * heap.

Definition ret {A} (a : A) : M A := fun h => (Ok a, h).
Definition throw {A} (e : exn) : M A := fun h => (Throw e, h).
Definition timeout {A} : M A := fun h => (Timeout, h).
Definition bind {A B} (m : M A) (k : A -> M B) : M B :=
  fun h => match m h with
           | (Ok a, h') => k a h'
           | (Throw e, h') => (Throw e, h')
           | (Timeout, h') => (Timeout, h')
           end.
(** [try { m } catch (error) { handler error }]; running out of fuel is
    not an exception and is not caught. *)
Definition try_catch {A} (m : M A) (handler : exn -> M A) : M A :=
  fun h => match m h with
           | (Throw e, h') => handler e h'
           | r => r
           end.

Notation "'let*' x ':=' m 'in' k" := (bind m (fun x => k))
  (at level 10, x name, m at level 100, k at level 200).

(** ** Heap primitives *)

Definition alloc (o : obj) : M value :=
  fun h => (Ok (VRef (List.length h)), h ++ [o]).

Fixpoint assoc (k : string) (ps : list (string * value)) : option value :=
  match ps with
  | [] => None
  | (k', v) :: ps' => if String.eqb k k' then Some v else assoc k ps'
  end.

(** Writing key [k]: an existing key keeps its place, a new one goes last. *)
Fixpoint assoc_set (k : string) (v : value) (ps : list (string * value))
  : list (string * value) :=
  match ps with
  | [] => [(k, v)]
  | (k', v') :: ps' =>
      if String.eqb k k' then (k, v) :: ps' else (k', v') :: assoc_set k v ps'
  end.

(** [{...a, ...b}] on property lists *)
Definition merge (a b : list (string * value)) : list (string * value) :=
  fold_left (fun acc kv => assoc_set (fst kv) (snd kv) acc) b a.

(** The characters of a primitive string as index properties, one for
    each code unit. *)
Fixpoint string_props (i : nat) (s : string) : list (string * value) :=
  match s with
  | EmptyString => []
  | String c s' => (pretty i, VString (String c EmptyString)) :: string_props (S i) s'
  end.

(** The own enumerable properties of a value, as [{...v}] and
    [Object.keys(v)] see them. *)
Definition own_props (h : heap) (v : value) : list (string * value) :=
  match v with
  | VRef l => match h !! l with Some o => props o | None => [] end
  | VString s => string_props 0 s
  | _ => []
  end.

Definition keys (h : heap) (v : value) : list string := map fst (own_props h v).

(** [Object.getOwnPropertyNames(v)]: a primitive string also owns [length]. *)
Definition getOwnPropertyNames (v : value) : M (list string) :=
  fun h =>
    match v with
    | VUndefined | VNull => (Throw TypeError, h)
    | VString s => (Ok (keys h v ++ ["length"]), h)
    | _ => (Ok (keys h v), h)
    end.

Definition code_of (h : heap) (v : value) : option code :=
  match v with
  | VRef l => match h !! l with Some o => callable o | None => None end
  | VBuiltin b => Some (CBuiltin b)
  | _ => None
  end.

Inductive type_tag : Type :=
| TUndefined | TObject | TBoolean | TNumber | TString | TFunction.

#[global] Instance type_tag_eq_dec : EqDecision type_tag.
Proof. solve_decision. Defined.

(** [typeof v] *)
Definition typeof (h : heap) (v : value) : type_tag :=
  match v with
  | VUndefined => TUndefined
  | VNull => TObject
  | VBool _ => TBoolean
  | VNumber _ | VNaN => TNumber
  | VString _ => TString
  | VRef _ | VBuiltin _ =>
      match code_of h v with Some _ => TFunction | None => TObject end
  end.

Definition is_function (h : heap) (v : value) : bool :=
  bool_decide (typeof h v = TFunction).

(** The own properties of [v] under key [k]; a primitive string also owns
    [length]. *)
Definition get_own (h : heap) (v : value) (k : string) : option value :=
  match v with
  | VString s =>
      if String.eqb k "length" then Some (VNumber (Z.of_nat (String.length s)))
      else assoc k (own_props h v)
  | _ => assoc k (own_props h v)
  end.

(** [v[k]]: own properties first, then the inherited methods: [valueOf]
    and [hasOwnProperty], and for a function [bind]. Reading a property of
    [undefined] or [null] throws. *)
Definition get (v : value) (k : string) : M value :=
  fun h =>
    match v with
    | VUndefined | VNull => (Throw TypeError, h)
    | _ =>
        match get_own h v k with
        | Some x => (Ok x, h)
        | None =>
            if String.eqb k "valueOf" then (Ok (VBuiltin BValueOf), h)
            else if String.eqb k "hasOwnProperty" then (Ok (VBuiltin BHasOwnProperty), h)
            else if String.eqb k "bind" && is_function h v then (Ok (VBuiltin BBind), h)
            else (Ok VUndefined, h)
        end
    end.

(** [Object.keys(v)] and [Object.entries(v)] *)
Definition Object_entries (v : value) : M (list (string * value)) :=
  fun h =>
    match v with
    | VUndefined | VNull => (Throw TypeError, h)
    | _ => (Ok (own_props h v), h)
    end.

Definition Object_keys (v : value) : M (list string) :=
  let* es := Object_entries v in ret (map fst es).

(** The properties [{...v}] copies; spreading [undefined] or [null] copies
    nothing. *)
Definition spread (v : value) : M (list (string * value)) :=
  fun h => (Ok (own_props h v), h).

Definition typeof_m (v : value) : M type_tag := fun h => (Ok (typeof h v), h).

(** A fresh function object. *)
Definition new_function (c : code) : M value :=
  alloc {| props := []; frozen := false; callable := Some c |}.

(** A fresh plain object [{...}] and [Object.freeze({...})]. *)
Definition new_object (ps : list (string * value)) : M value :=
  alloc {| props := ps; frozen := false; callable := None |}.

Definition new_frozen_object (ps : list (string * value)) : M value :=
  alloc {| props := ps; frozen := true; callable := None |}.

(** [Function.prototype.bind.call(f, thisArg)]: the bound function, or a
    [TypeError] when [f] is not callable. *)
Definition Function_prototype_bind (f thisArg : value) : M value :=
  fun h =>
    if is_function h f then new_function (CBound f thisArg) h
    else (Throw TypeError, h).

(** ** The value-object factory *)

(** A zod schema, as far as the factory uses it: the name of its
    constructor and its [parse], which returns the validated data or throws
    (a [ZodError] when the data is rejected). *)
Record schema_t : Type := Schema {
  constructor_name : option string;
  parse : value -> M value;
}.

(** The arguments of [valueObject]. A missing [name] or [schema] is [None];
    [methodsFactory] is whatever value the caller passed. *)
Record options : Type := Options {
  opt_name : option string;
  opt_schema : option schema_t;
  opt_methodsFactory : value;
  opt_overrideIsPrimitive : option bool;
}.

(** The arguments of [extend]: [schema] is the optional transformer of the
    parent's schema. *)
Record extend_options : Type := ExtendOptions {
  ext_name : option string;
  ext_schema : option (schema_t -> M (option schema_t));
  ext_methodsFactory : value;
}.

(** What [create] and [extend] close over. The factory object
    [{create, schema, extend}] is this record together with the functions
    [create] and [extend] below. *)
Record factory : Type := Factory {
  name : string;
  schema : schema_t;
  methodsFactory : value;
  overrideIsPrimitive : option bool;
  isPrimitive : bool;
}.

(** [!name] for an optional string *)
Definition name_missing (n : option string) : bool :=
  match n with
  | None => true
  | Some s => String.eqb s ""
  end.

Definition is_primitive_schema (s : schema_t) (override : option bool) : bool :=
  bool_decide (constructor_name s = Some "ZodString")
  || bool_decide (constructor_name s = Some "ZodNumber")
  || bool_decide (constructor_name s = Some "ZodBoolean")
  || match override with Some b => b | None => false end.

Fixpoint join (sep : string) (l : list string) : string :=
  match l with
  | [] => ""
  | [x] => x
  | x :: l' => x +:+ sep +:+ join sep l'
  end.

Section ValueObject.

(** The functions of the library's user, by number, and the two
    conversions to text that only [toString] uses. *)
Variable native : nat -> value -> list value -> M value.
Variable JSON_stringify : value -> M string.
Variable to_String : value -> M string.

(** *** The three standard methods. [invoke o k args] is the method call
    [o.k(args)]. *)
Section Methods.
Variable invoke : value -> string -> list value -> M value.

Definition valueOf (e : env) (this : value) : M value :=
  if env_isPrimitive e then ret (primitiveValue e)
  else
    let validatedData := env_validatedData e in
    let* keys := Object_keys validatedData in
    match keys with
    | [k] =>
        let* x := get validatedData k in
        let* t := typeof_m x in
        if bool_decide (t <> TObject) then ret x else ret this
    | _ => ret this
    end.

(** The loop [for (const prop of thisDataProps)] of [equals] *)
Fixpoint equals_loop (this other : value) (thisDataProps : list string)
  : M value :=
  match thisDataProps with
  | [] => ret (VBool true)
  | prop :: rest =>
      let* own := invoke other "hasOwnProperty" [VString prop] in
      if negb (truthy own) then ret (VBool false)
      else
        let* a := get this prop in
        let* b := get other prop in
        if negb (strict_eq a b) then ret (VBool false)
        else equals_loop this other rest
  end.

(** [props.filter(prop => typeof o[prop] !== "function")] *)
Fixpoint data_props (o : value) (props : list string) : M (list string) :=
  match props with
  | [] => ret []
  | prop :: rest =>
      let* x := get o prop in
      let* t := typeof_m x in
      let* rest' := data_props o rest in
      if bool_decide (t <> TFunction) then ret (prop :: rest') else ret rest'
  end.

Definition equals (e : env) (this other : value) : M value :=
  match other with
  | VNull | VUndefined => ret (VBool false)
  | _ =>
      if strict_eq this other then ret (VBool true)
      else if env_isPrimitive e then
        let* a := invoke this "valueOf" [] in
        let* other_valueOf := get other "valueOf" in
        let* b := if truthy other_valueOf
                  then invoke other "valueOf" []
                  else ret other in
        ret (VBool (strict_eq a b))
      else
        let* thisProps := getOwnPropertyNames this in
        let* otherProps := getOwnPropertyNames other in
        let* thisDataProps := data_props this thisProps in
        let* otherDataProps := data_props other otherProps in
        if negb (length thisDataProps =? length otherDataProps)%nat
        then ret (VBool false)
        else equals_loop this other thisDataProps
  end.

Definition toString (e : env) : M value :=
  if env_isPrimitive e then
    let* s := to_String (primitiveValue e) in ret (VString s)
  else
    let* json := JSON_stringify (env_validatedData e) in
    ret (VString (env_name e +:+ "(" +:+ json +:+ ")")).
End Methods.

(** The handle [{create, schema, extend}] a method factory receives:
    an object with these three properties, [create] and [extend] functions
    and [schema] an object. The functions of the user are semantic
    functions, which reach [create], [extend] and the schema directly; to
    them, and to [create] when the handle or its members come back as
    methods, the handle is a piece of data. The own properties of the
    schema object are not modelled, and the members are made anew for each
    handle. *)
Definition factory_handle : M value :=
  let* create_fn := new_function (CHandle "create") in
  let* schema_obj := new_object [] in
  let* extend_fn := new_function (CHandle "extend") in
  new_object [("create", create_fn); ("schema", schema_obj); ("extend", extend_fn)].

(** *** Calling a function value: [f.call(this, ...args)]. The keys
    [hasOwnProperty] is asked about are strings. A call of [create] or
    [extend] through a member of a handle is not followed. *)
Fixpoint call (fuel : nat) (f this : value) (args : list value) : M value :=
  match fuel with
  | O => timeout
  | S fuel' =>
      let invoke o k args' := (let* m := get o k in call fuel' m o args') in
      fun h =>
        match code_of h f with
        | None => (Throw TypeError, h)
        | Some (CValueOf e) => valueOf e this h
        | Some (CEquals e) => equals invoke e this (nth 0 args VUndefined) h
        | Some (CToString e) => toString e h
        | Some (CBound target this') => call fuel' target this' args h
        | Some (CCombined parentMF extendedMF) =>
            (let* parentFactoryTemp := factory_handle in
             let* parentMethods := call fuel' parentMF VUndefined [parentFactoryTemp] in
             let* extendedMethods := call fuel' extendedMF VUndefined [nth 0 args VUndefined] in
             let* ps := spread parentMethods in
             let* es := spread extendedMethods in
             new_object (merge ps es)) h
        | Some (CBuiltin BValueOf) =>
            match this with
            | VUndefined | VNull => (Throw TypeError, h)
            | _ => (Ok this, h)
            end
        | Some (CBuiltin BHasOwnProperty) =>
            match this, nth 0 args VUndefined with
            | (VUndefined | VNull), _ => (Throw TypeError, h)
            | _, VString k => (Ok (VBool (bool_decide (is_Some (get_own h this k)))), h)
            | _, _ => (Ok (VBool false), h)
            end
        | Some (CBuiltin BBind) =>
            Function_prototype_bind this (nth 0 args VUndefined) h
        | Some (CHandle _) => (Timeout, h)
        | Some (CNative id) => native id this args h
        end
  end.

Definition invoke (fuel : nat) (o : value) (k : string) (args : list value)
  : M value :=
  let* m := get o k in call fuel m o args.

(** [boundMethods[methodName] = methodFn.bind(prototype)] for every entry
    of [methods]: whatever [bind] the entry has is called, and what it
    answers is kept. The object [boundMethods] never leaves [create]: it
    is kept as the list of its properties. *)
Fixpoint bind_methods (fuel : nat) (entries : list (string * value))
  (prototype : value) (boundMethods : list (string * value))
  : M (list (string * value)) :=
  match entries with
  | [] => ret boundMethods
  | (methodName, methodFn) :: rest =>
      let* b := invoke fuel methodFn "bind" [prototype] in
      bind_methods fuel rest prototype (assoc_set methodName b boundMethods)
  end.

(** [`Invalid ${name}: ${error.errors.map((e) => e.message).join(", ")}`] *)
Definition invalid_message (name : string) (errors : list issue) : string :=
  "Invalid " +:+ name +:+ ": " +:+ join ", " (map message errors).

(** *** [create(data)] *)

(** [const prototype = {...validatedData, valueOf() {...}, equals(other)
    {...}, toString() {...}}]. The three methods are objects of their own;
    in which order they and the prototype get their places in the heap
    cannot be observed. *)
Definition new_prototype (e : env) : M value :=
  let* fields := spread (env_validatedData e) in
  let* valueOf_fn := new_function (CValueOf e) in
  let* equals_fn := new_function (CEquals e) in
  let* toString_fn := new_function (CToString e) in
  new_object (merge fields [("valueOf", valueOf_fn);
                            ("equals", equals_fn);
                            ("toString", toString_fn)]).

Definition closure_of (F : factory) (validatedData : value) : env :=
  {| env_name := name F;
     env_isPrimitive := isPrimitive F;
     env_validatedData := validatedData |}.

(** [return Object.freeze({...validatedData, valueOf: ..., equals: ...,
    toString: ..., ...boundMethods})] *)
Definition new_instance (fuel : nat) (validatedData prototype : value)
  (boundMethods : list (string * value)) : M value :=
  let* fields := spread validatedData in
  let* v := get prototype "valueOf" in
  let* valueOf_bound := invoke fuel v "bind" [prototype] in
  let* q := get prototype "equals" in
  let* equals_bound := invoke fuel q "bind" [prototype] in
  let* s := get prototype "toString" in
  let* toString_bound := invoke fuel s "bind" [prototype] in
  new_frozen_object
    (merge (merge fields [("valueOf", valueOf_bound);
                          ("equals", equals_bound);
                          ("toString", toString_bound)])
           boundMethods).

Definition create_body (fuel : nat) (F : factory) (data : value) : M value :=
  let* validatedData := parse (schema F) data in
  let* prototype := new_prototype (closure_of F validatedData) in
  let* tempFactory := factory_handle in
  let* methods := call fuel (methodsFactory F) VUndefined [tempFactory] in
  let* entries := Object_entries methods in
  let* boundMethods := bind_methods fuel entries prototype [] in
  new_instance fuel validatedData prototype boundMethods.

Definition create (fuel : nat) (F : factory) (data : value) : M value :=
  try_catch (create_body fuel F data)
    (fun error =>
       match error with
       | ZodError errors =>
           throw (ValidationError (invalid_message (name F) errors)
                                  error (name F) data)
       | _ => throw error
       end).

(** *** [valueObject({name, schema, methodsFactory, overrideIsPrimitive})] *)
Definition valueObject (o : options) : M factory :=
  if name_missing (opt_name o) then throw (Error "Value object name is required")
  else
    match opt_schema o with
    | None => throw (Error "Value object schema is required")
    | Some schema =>
        let* t := typeof_m (opt_methodsFactory o) in
        if bool_decide (t <> TFunction) then throw (Error "Method factory is required")
        else
          ret {| name := default "" (opt_name o);
                 schema := schema;
                 methodsFactory := opt_methodsFactory o;
                 overrideIsPrimitive := opt_overrideIsPrimitive o;
                 isPrimitive :=
                   is_primitive_schema schema (opt_overrideIsPrimitive o) |}
    end.

(** *** [extend({name, schema, methodsFactory})] of factory [F] *)
Definition extend (F : factory) (x : extend_options) : M factory :=
  if name_missing (ext_name x)
  then throw (Error "Extended value object name is required")
  else
    let* t := typeof_m (ext_methodsFactory x) in
    if bool_decide (t <> TFunction)
    then throw (Error "Method factory is required for extension")
    else
      let* extendedSchema :=
        match ext_schema x with
        | Some schemaTransformer => schemaTransformer (schema F)
        | None => ret (Some (schema F))
        end in
      let* combinedMethodsFactory :=
        new_function (CCombined (methodsFactory F) (ext_methodsFactory x)) in
      valueObject {| opt_name := ext_name x;
                     opt_schema := extendedSchema;
                     opt_methodsFactory := combinedMethodsFactory;
                     opt_overrideIsPrimitive := overrideIsPrimitive F |}.

End ValueObject.

(** ** The schema adapters of [schema.js] *)

(** [z.custom(check, {message})] of zod: a schema whose [parse] returns its
    input when [check] answers a truthy value and throws a [ZodError] with
    the one issue [message] otherwise. *)
Definition z_custom (check : value -> M value) (msg : string) : schema_t :=
  {| constructor_name := Some "ZodEffects";
     parse := fun val =>
       let* ok := check val in
       if truthy ok then ret val
       else throw (ZodError [{| message := msg; path := [] |}]) |}.

(** [val instanceof Object]: every object and function of the model
    inherits from [Object.prototype]. *)
Definition instanceof_Object (val : value) : bool :=
  match val with
  | VRef _ | VBuiltin _ => true
  | _ => false
  end.

Definition valueObjectSchema_check (typeCheck : option (value -> M value))
  (val : value) : M value :=
  let* isValueObject :=
    if instanceof_Object val then
      let* q := get val "equals" in
      let* t := typeof_m q in
      ret (bool_decide (t = TFunction))
    else ret false in
  match typeCheck with
  | Some check => if isValueObject then check val else ret (VBool isValueObject)
  | None => ret (VBool isValueObject)
  end.

(** [valueObjectSchema({typeName, typeCheck})] *)
Definition valueObjectSchema (typeName : option string)
  (typeCheck : option (value -> M value)) : schema_t :=
  z_custom (valueObjectSchema_check typeCheck)
           ("Expected a " +:+ default "ValueObject" typeName).

Section SchemaAdapter.
Variable native : nat -> value -> list value -> M value.
Variable JSON_stringify : value -> M string.
Variable to_String : value -> M string.

Abbreviation call := (call native JSON_stringify to_String).
Abbreviation invoke := (invoke native JSON_stringify to_String).
Abbreviation create := (create native JSON_stringify to_String).

(** The body of the [try] of the [typeCheck] that
    [specificValueObjectSchema] installs: re-create and compare. *)
Definition recreate_and_compare (fuel : nat) (F : factory) (val : value)
  : M value :=
  let* x := invoke fuel val "valueOf" [] in
  let* testRecreate := create fuel F x in
  invoke fuel testRecreate "equals" [val].

(** The [typeCheck] itself. *)
Definition specific_typeCheck (fuel : nat) (F : factory) (val : value)
  : M value :=
  try_catch (recreate_and_compare fuel F val) (fun e => ret (VBool false)).

(** [specificValueObjectSchema(valueObjectFactory)]. The argument is a
    factory made by [valueObject], or [None] for an argument that fails
    one of the three checks. The object [{create, schema, extend}] has no
    [name], so [typeName] is always the default. *)
Definition specificValueObjectSchema (fuel : nat)
  (valueObjectFactory : option factory) : M schema_t :=
  match valueObjectFactory with
  | None => throw (Error "Invalid value object factory provided")
  | Some F =>
      ret (valueObjectSchema (Some "ValueObject")
                             (Some (specific_typeCheck fuel F)))
  end.
End SchemaAdapter.

(** ** What other code can do to an object

    The library itself only allocates. The code around it reaches the heap
    through the operations below; [strict] tells whether that code runs in
    strict mode, where a refused write throws instead of being ignored. *)
Inductive mutation : Type :=
| MSet (l : loc) (k : string) (v : value)        (* [o[k] = v] *)
| MDelete (l : loc) (k : string)                 (* [delete o[k]] *)
| MDefine (l : loc) (k : string) (v : value)     (* [Object.defineProperty(o, k, {value: v})] *)
| MFreeze (l : loc)                              (* [Object.freeze(o)] *)
| MNew (o : obj).                                (* a new object or function *)

Definition target (m : mutation) : option loc :=
  match m with
  | MSet l _ _ | MDelete l _ | MDefine l _ _ | MFreeze l => Some l
  | MNew _ => None
  end.

Definition remove_key (k : string) (ps : list (string * value))
  : list (string * value) :=
  filter (fun kv => negb (String.eqb k (fst kv))) ps.

Definition with_props (o : obj) (ps : list (string * value)) : obj :=
  {| props := ps; frozen := frozen o; callable := callable o |}.

Definition refused {A} (strict : bool) (a : A) : M A :=
  if strict then throw TypeError else ret a.

Definition mutate (strict : bool) (m : mutation) : M value :=
  fun h =>
    match m with
    | MNew o => alloc o h
    | MSet l k v =>
        match h !! l with
        | None => (Throw TypeError, h)
        | Some o =>
            if frozen o then refused strict v h
            else (Ok v, <[l := with_props o (assoc_set k v (props o))]> h)
        end
    | MDelete l k =>
        match h !! l with
        | None => (Throw TypeError, h)
        | Some o =>
            if frozen o then
              (if bool_decide (is_Some (assoc k (props o)))
               then refused strict (VBool false) h
               else (Ok (VBool true), h))
            else (Ok (VBool true), <[l := with_props o (remove_key k (props o))]> h)
        end
    | MDefine l k v =>
        match h !! l with
        | None => (Throw TypeError, h)
        | Some o =>
            if frozen o then (Throw TypeError, h)
            else (Ok (VRef l), <[l := with_props o (assoc_set k v (props o))]> h)
        end
    | MFreeze l =>
        match h !! l with
        | None => (Throw TypeError, h)
        | Some o =>
            (Ok (VRef l),
             <[l := {| props := props o; frozen := true; callable := callable o |}]> h)
        end
    end.

(** The heap after a sequence of such operations, whatever they answer. *)
Fixpoint mutate_all (strict : bool) (ms : list mutation) (h : heap) : heap :=
  match ms with
  | [] => h
  | m :: ms' => mutate_all strict ms' (snd (mutate strict m h))
  end.

(** ** Entities *)
Module Entity.

(** Modelled from the spec: the entity factory of [entities/Base.js], of
    which only the type declarations [Base.d.ts] are at hand. An entity is
    a mutable record of validated fields with its history log; entities
    live in a store of their own and are named by their index in it. The
    schema validates a record of fields. *)
Record entity : Type := {
  fields : list (string * value);
  history : list (list (string * value) * Z);      (* snapshot, timestamp *)
}.

Abbreviation store := (list entity).

Record entity_factory : Type := {
  e_name : string;
  e_schema : list (string * value) -> result (list (string * value));
  e_identity : string;
  e_historize : bool;
}.

(** Modelled from the spec: [update(entity, partialUpdates)] merges the
    updates over the current fields, rejects a change of the identity
    field, validates the merged record (a failure is a [ValidationError]
    and leaves the entity as it was), and when the record is valid appends
    the snapshot of the fields before the update to the history (if
    [historize]), writes the new fields in place and returns the same
    reference. [now] is the clock. The merged record is not a value of the
    heap, and the [ValidationError] is left without its input. *)
Definition update (F : entity_factory) (now : Z) (e : loc)
  (partialUpdates : list (string * value)) (s : store) : result loc * store :=
  match s !! e with
  | None => (Throw TypeError, s)
  | Some ent =>
      if bool_decide (is_Some (assoc (e_identity F) partialUpdates))
      then (Throw (Error "Cannot update the identity field"), s)
      else
        let merged := merge (fields ent) partialUpdates in
        match e_schema F merged with
        | Ok validated =>
            let log := if e_historize F
                       then history ent ++ [(fields ent, now)]
                       else history ent in
            (Ok e, <[e := {| fields := validated; history := log |}]> s)
        | Throw (ZodError errors) =>
            (Throw (ValidationError
                      ("Invalid " +:+ e_name F +:+ ": " +:+
                       join ", " (map message errors))
                      (ZodError errors) (e_name F) VUndefined), s)
        | Throw err => (Throw err, s)
        | Timeout => (Timeout, s)
        end
  end.

End Entity.

(** ** A concrete world, for examples *)
Module Demo.

(** The user's functions: method factories and custom methods. *)
Definition native (id : nat) (this : value) (args : list value) : M value :=
  match id with
  | 0 => new_object []                               (* [() => ({})] *)
  | 1 => let* m := new_function (CNative 2) in       (* [() => ({equals() {...}})] *)
         new_object [("equals", m)]
  | 2 => ret (VBool true)                            (* [equals() { return true }] *)
  | 3 => throw (Error "boom")                        (* a method factory that throws *)
  | 4 => let* m := new_function (CNative 5) in       (* [() => ({amount() {...}})] *)
         new_object [("amount", m)]
  | 5 => ret (VNumber 0)
  | 6 => throw (ZodError [{| message := "inner"; path := [] |}])
  | 8 => new_object [("n", VNumber 5)]               (* [() => ({n: 5})] *)
  | 9 => let* b := new_function (CNative 10) in      (* [() => ({m: {bind() {...}}})] *)
         let* m := new_object [("bind", b)] in
         new_object [("m", m)]
  | 10 => ret (VNumber 5)                            (* [bind() { return 5 }] *)
  | 11 => ret (nth 0 args VUndefined)                (* [(factory) => factory] *)
  | _ => ret VUndefined
  end.

(** [JSON.stringify] as far as the examples need it: numbers, booleans,
    [null], strings that need no escaping, and objects of these, to a
    depth of eight. Properties that are [undefined] or functions are left
    out; [undefined] itself has no JSON text. *)
Definition quote : string := String (Ascii.ascii_of_nat 34) EmptyString.

Fixpoint json (depth : nat) (h : heap) (v : value) : result (option string) :=
  match v with
  | VUndefined | VBuiltin _ => Ok None
  | VNull | VNaN => Ok (Some "null")
  | VBool b => Ok (Some (if b then "true" else "false"))
  | VNumber n => Ok (Some (pretty n))
  | VString s => Ok (Some (quote +:+ s +:+ quote))
  | VRef l =>
      match h !! l, depth with
      | None, _ => Ok None
      | Some o, O => Timeout
      | Some o, S depth' =>
          match callable o with
          | Some _ => Ok None
          | None =>
              let member (acc : result (list string)) (kv : string * value) :=
                match acc, json depth' h (snd kv) with
                | Ok ms, Ok (Some s) => Ok (ms ++ [quote +:+ fst kv +:+ quote +:+ ":" +:+ s])
                | Ok ms, Ok None => Ok ms
                | Ok _, Throw e => Throw e
                | Ok _, Timeout => Timeout
                | other, _ => other
                end in
              match fold_left member (props o) (Ok []) with
              | Ok ms => Ok (Some ("{" +:+ join "," ms +:+ "}"))
              | Throw e => Throw e
              | Timeout => Timeout
              end
          end
      end
  end.

Definition JSON_stringify (v : value) : M string :=
  fun h =>
    match json 8 h v with
    | Ok (Some s) => (Ok s, h)
    | Ok None => (Ok "undefined", h)
    | Throw e => (Throw e, h)
    | Timeout => (Timeout, h)
    end.

(** [String(v)], for a primitive and for an object without a [toString]
    of its own. *)
Definition to_String (v : value) : M string :=
  match v with
  | VUndefined => ret "undefined"
  | VNull => ret "null"
  | VBool b => ret (if b then "true" else "false")
  | VNumber n => ret (pretty n)
  | VNaN => ret "NaN"
  | VString s => ret s
  | VRef _ | VBuiltin _ => ret "[object Object]"
  end.

(** [z.number()]: accepts the numbers but [NaN]. *)
Definition number_schema : schema_t :=
  {| constructor_name := Some "ZodNumber";
     parse := fun v =>
       match v with
       | VNumber _ => ret v
       | _ => throw (ZodError [{| message := "Expected number"; path := [] |}])
       end |}.

(** [z.any()]: accepts everything, returns its input. *)
Definition any_schema : schema_t :=
  {| constructor_name := Some "ZodAny"; parse := fun v => ret v |}.

(** [z.object({amount: z.number()})]: a fresh object with the one known
    key; unknown keys are stripped. *)
Definition amount_schema : schema_t :=
  {| constructor_name := Some "ZodObject";
     parse := fun v =>
       let* a := (fun h => match get_own h v "amount" with
                           | Some (VNumber n) => (Ok (VNumber n), h)
                           | _ => (Throw (ZodError [{| message := "Expected number";
                                                       path := ["amount"] |}]), h)
                           end) in
       new_object [("amount", a)] |}.

(** The initial heap: the method factories the examples pass. *)
Definition heap0 : heap :=
  [ {| props := []; frozen := false; callable := Some (CNative 0) |};
    {| props := []; frozen := false; callable := Some (CNative 1) |};
    {| props := []; frozen := false; callable := Some (CNative 3) |};
    {| props := []; frozen := false; callable := Some (CNative 4) |};
    {| props := []; frozen := false; callable := Some (CNative 6) |} ].

Definition mk (n : string) (s : schema_t) (mf : loc) (ov : option bool) : factory :=
  {| name := n; schema := s; methodsFactory := VRef mf;
     overrideIsPrimitive := ov;
     isPrimitive := is_primitive_schema s ov |}.

Definition Amount := mk "Amount" amount_schema 0 None.
Definition Boom := mk "Boom" number_schema 2 None.
Definition Shadow := mk "Shadow" amount_schema 3 None.
Definition Num := mk "Num" number_schema 0 None.
Definition Any := mk "Any" any_schema 0 None.
Definition AnyPrim := mk "AnyPrim" any_schema 0 (Some true).

(** The options of [IntegerNumber.js]: [Number.extend({name:
    'IntegerNumber', schema: (baseSchema) => baseSchema.int(), methods:
    {}})]; there is no [methodsFactory]. *)
Definition IntegerNumber_options : extend_options :=
  {| ext_name := Some "IntegerNumber";
     ext_schema := Some (fun baseSchema => ret (Some baseSchema));
     ext_methodsFactory := VUndefined |}.

(** An entity type: persons, identified by [id], whose [age] is a number
    that is not negative. *)
Definition Person : Entity.entity_factory :=
  {| Entity.e_name := "Person";
     Entity.e_schema := fun r =>
       match assoc "age" r with
       | Some (VNumber n) =>
           if (0 <=? n)%Z then Ok r
           else Throw (ZodError [{| message := "Number must be greater than or equal to 0";
                                    path := ["age"] |}])
       | _ => Throw (ZodError [{| message := "Required"; path := ["age"] |}])
       end;
     Entity.e_identity := "id";
     Entity.e_historize := true |}.

Definition alice : Entity.entity :=
  {| Entity.fields := [("id", VNumber 1); ("age", VNumber 30)];
     Entity.history := [] |}.

Definition create := create native JSON_stringify to_String.
Definition invoke := invoke native JSON_stringify to_String.
Definition call := call native JSON_stringify to_String.

(** [Num.create(5)] in the initial heap: the instance and the heap it
    lives in. *)
Definition five : value :=
  Eval vm_compute in
    match fst (create 3 Num (VNumber 5) heap0) with Ok v => v | _ => VUndefined end.
Definition five_heap : heap :=
  Eval vm_compute in snd (create 3 Num (VNumber 5) heap0).

(** The initial heap with the plain object [{amount: 5}], at [VRef 5];
    the two instances [Amount.create({amount: 5})] made from it one after
    the other, and the heaps after each. *)
Definition amount_heap0 : heap :=
  heap0 ++ [{| props := [("amount", VNumber 5)]; frozen := false; callable := None |}].
Definition amount5 : value :=
  Eval vm_compute in
    match fst (create 3 Amount (VRef 5) amount_heap0) with Ok v => v | _ => VUndefined end.
Definition amount5_heap : heap :=
  Eval vm_compute in snd (create 3 Amount (VRef 5) amount_heap0).
Definition amount5' : value :=
  Eval vm_compute in
    match fst (create 3 Amount (VRef 5) amount5_heap) with Ok v => v | _ => VUndefined end.
Definition amount5_heap' : heap :=
  Eval vm_compute in snd (create 3 Amount (VRef 5) amount5_heap).


(** A second wrapper of numbers, under another name, and
    [Count.create(5)] made after [Num.create(5)]. *)
Definition Count := mk "Count" number_schema 0 None.
Definition count5 : value :=
  Eval vm_compute in
    match fst (create 3 Count (VNumber 5) five_heap) with Ok v => v | _ => VUndefined end.
Definition count5_heap : heap :=
  Eval vm_compute in snd (create 3 Count (VNumber 5) five_heap).

(** [z.object({a: z.number(), b: z.number()})], the factory [Pair] made
    with it, and [Pair.create({a: 1, b: 2})], where [{a: 1, b: 2}] is at
    [VRef 5]. *)
Definition pair_schema : schema_t :=
  {| constructor_name := Some "ZodObject";
     parse := fun v h =>
       match get_own h v "a", get_own h v "b" with
       | Some (VNumber a), Some (VNumber b) =>
           new_object [("a", VNumber a); ("b", VNumber b)] h
       | _, _ => (Throw (ZodError [{| message := "Expected number"; path := [] |}]), h)
       end |}.
Definition Pair := mk "Pair" pair_schema 0 None.
Definition pair_heap0 : heap :=
  heap0 ++ [{| props := [("a", VNumber 1); ("b", VNumber 2)];
               frozen := false; callable := None |}].
Definition pair : value :=
  Eval vm_compute in
    match fst (create 3 Pair (VRef 5) pair_heap0) with Ok v => v | _ => VUndefined end.
Definition pair_heap : heap :=
  Eval vm_compute in snd (create 3 Pair (VRef 5) pair_heap0).

(** A factory whose method factory throws a [ZodError] of its own. *)
Definition Inner := mk "Inner" number_schema 4 None.

(** A method factory that returns nothing, [() => undefined], at [VRef 5],
    and a factory made with it. *)
Definition heap_undefined : heap :=
  heap0 ++ [{| props := []; frozen := false; callable := Some (CNative 7) |}].
Definition NoMethods := mk "NoMethods" number_schema 5 None.


(** A method factory whose one method is an object with a [bind] of its
    own, [() => ({m: {bind() { return 5 }}})], and one that returns the
    handle it is given, [(factory) => factory]; each at [VRef 5], with a
    factory made of it. *)
Definition heap_own_bind : heap :=
  heap0 ++ [{| props := []; frozen := false; callable := Some (CNative 9) |}].
Definition OwnBind := mk "OwnBind" number_schema 5 None.
Definition heap_handle : heap :=
  heap0 ++ [{| props := []; frozen := false; callable := Some (CNative 11) |}].
Definition HandleMethods := mk "HandleMethods" number_schema 5 None.

(** [Any.create(d)] made twice from the same [d = {a: 1, b: 2}], which is
    at [VRef 5]. *)
Definition any1 : value :=
  Eval vm_compute in
    match fst (create 3 Any (VRef 5) pair_heap0) with Ok v => v | _ => VUndefined end.
Definition any1_heap : heap :=
  Eval vm_compute in snd (create 3 Any (VRef 5) pair_heap0).
Definition any2 : value :=
  Eval vm_compute in
    match fst (create 3 Any (VRef 5) any1_heap) with Ok v => v | _ => VUndefined end.
Definition any2_heap : heap :=
  Eval vm_compute in snd (create 3 Any (VRef 5) any1_heap).


(** [AnyPrim.create(5)], and [AnyPrim.create] of what its [valueOf]
    gives. *)
Definition prim5 : value :=
  Eval vm_compute in
    match fst (create 3 AnyPrim (VNumber 5) heap0) with Ok v => v | _ => VUndefined end.
Definition prim5_heap : heap :=
  Eval vm_compute in snd (create 3 AnyPrim (VNumber 5) heap0).
Definition prim5' : value :=
  Eval vm_compute in
    match fst (create 3 AnyPrim (VNumber 5) prim5_heap) with Ok v => v | _ => VUndefined end.
Definition prim5_heap' : heap :=
  Eval vm_compute in snd (create 3 AnyPrim (VNumber 5) prim5_heap).

(** The method factory of a factory that extends one whose methods are
    [{equals}] by methods [{equals}] again, at [VRef 5]. *)
Definition heap_combined : heap :=
  heap0 ++ [{| props := []; frozen := false;
               callable := Some (CCombined (VRef 1) (VRef 1)) |}].

(** The options of an extension that keeps the schema:
    [{name: "Int", methodsFactory: () => ({})}]. *)
Definition Int_options : extend_options :=
  {| ext_name := Some "Int"; ext_schema := None; ext_methodsFactory := VRef 0 |}.

(** The options of an extension whose schema transformer returns nothing. *)
Definition Lost_options : extend_options :=
  {| ext_name := Some "Lost"; ext_schema := Some (fun _ => ret None);
     ext_methodsFactory := VRef 0 |}.

(** The options [Num] is made from: [{name: "Num", schema: z.number(),
    methodsFactory: () => ({})}]. *)
Definition Num_options : options :=
  {| opt_name := Some "Num"; opt_schema := Some number_schema;
     opt_methodsFactory := VRef 0; opt_overrideIsPrimitive := None |}.

(** The options of the README: [{name: 'Money', schema: ..., methods:
    {...}}], without a [methodsFactory]. *)
Definition README_options : options :=
  {| opt_name := Some "Money"; opt_schema := Some amount_schema;
     opt_methodsFactory := VUndefined; opt_overrideIsPrimitive := None |}.

End Demo.

(** [typeof val.equals === 'function'], for an object [val] *)
Definition has_equals (h : heap) (val : value) : bool :=
  match fst (get val "equals" h) with
  | Ok q => is_function h q
  | _ => false
  end.

(** ** What [equals] computes on two objects *)

(** [o[k]] for an object given by its record. *)
Definition prop_value (o : obj) (k : string) : value :=
  match assoc k (props o) with
  | Some x => x
  | None => if String.eqb k "valueOf" then VBuiltin BValueOf
            else if String.eqb k "hasOwnProperty" then VBuiltin BHasOwnProperty
            else if String.eqb k "bind" && bool_decide (is_Some (callable o))
            then VBuiltin BBind
            else VUndefined
  end.

(** [typeof o[k] !== "function"] *)
Definition is_data_key (h : heap) (o : obj) (k : string) : bool :=
  negb (is_function h (prop_value o k)).

(** The names of the own properties of [o] that are not methods. *)
Definition data_keys (h : heap) (o : obj) : list string :=
  List.filter (is_data_key h o) (map fst (props o)).

(** The verdict of the property-by-property comparison of [equals]. *)
Definition props_equal (h : heap) (this other : obj) : bool :=
  (length (data_keys h this) =? length (data_keys h other))%nat
  && forallb (fun k => bool_decide (is_Some (assoc k (props other)))
                       && strict_eq (prop_value this k) (prop_value other k))
             (data_keys h this).

(** The own non-function properties of [ps] and [qs] match exactly: the
    same names, and under each name strictly equal values. *)
Definition fields_match (h : heap) (ps qs : list (string * value)) : Prop :=
  (forall k x, assoc k ps = Some x -> is_function h x = false ->
     exists y, assoc k qs = Some y /\ is_function h y = false /\
               strict_eq x y = true)
  /\ (forall k y, assoc k qs = Some y -> is_function h y = false ->
        exists x, assoc k ps = Some x /\ is_function h x = false).

(** The three names of the standard methods, and the fields that are not
    called so: a field of the validated data under one of these names is
    overwritten by the method, in the prototype and in the instance. *)
Definition is_standard_name (k : string) : bool :=
  String.eqb k "valueOf" || String.eqb k "equals" || String.eqb k "toString".

Definition data_fields (ps : list (string * value)) : list (string * value) :=
  List.filter (fun kv => negb (is_standard_name (fst kv))) ps.

(** ** Describing the objects [create] builds *)

Definition function_object (c : code) : obj :=
  {| props := []; frozen := false; callable := Some c |}.

Definition standard_methods (valueOf equals toString : value)
  : list (string * value) :=
  [("valueOf", valueOf); ("equals", equals); ("toString", toString)].

(** Where the objects of one [create] call are: the frozen instance, the
    prototype, the three methods of the prototype and their three bound
    versions. *)
Record layout : Type := Layout {
  l_instance : loc;
  l_prototype : loc;
  l_valueOf : loc;
  l_equals : loc;
  l_toString : loc;
  l_valueOf_bound : loc;
  l_equals_bound : loc;
  l_toString_bound : loc;
}.

(** The heap [h] holds, at [L], a value object made with closure [e]:
    [fields] are the properties copied from the validated data and
    [boundMethods] the custom methods. *)
Record instance_at (h : heap) (e : env)
  (fields boundMethods : list (string * value)) (L : layout) : Prop := {
  at_valueOf : h !! l_valueOf L = Some (function_object (CValueOf e));
  at_equals : h !! l_equals L = Some (function_object (CEquals e));
  at_toString : h !! l_toString L = Some (function_object (CToString e));
  at_prototype :
    h !! l_prototype L =
      Some {| props := merge fields
                         (standard_methods (VRef (l_valueOf L)) (VRef (l_equals L))
                                           (VRef (l_toString L)));
              frozen := false; callable := None |};
  at_valueOf_bound :
    h !! l_valueOf_bound L =
      Some (function_object (CBound (VRef (l_valueOf L)) (VRef (l_prototype L))));
  at_equals_bound :
    h !! l_equals_bound L =
      Some (function_object (CBound (VRef (l_equals L)) (VRef (l_prototype L))));
  at_toString_bound :
    h !! l_toString_bound L =
      Some (function_object (CBound (VRef (l_toString L)) (VRef (l_prototype L))));
  at_instance :
    h !! l_instance L =
      Some {| props :=
                merge (merge fields
                         (standard_methods (VRef (l_valueOf_bound L))
                                           (VRef (l_equals_bound L))
                                           (VRef (l_toString_bound L))))
                      boundMethods;
              frozen := true; callable := None |};
  at_methods : Forall (fun kv => is_function h (snd kv) = true) boundMethods;
  at_methods_NoDup : NoDup (map fst boundMethods);
}.

(** The objects of the layout [L], and the bound custom methods, are at
    place [n] or after. *)
Definition created (n : nat) (boundMethods : list (string * value)) (L : layout)
  : Prop :=
  (n <= l_instance L /\ n <= l_prototype L /\ n <= l_valueOf L /\ n <= l_equals L
   /\ n <= l_toString L /\ n <= l_valueOf_bound L /\ n <= l_equals_bound L
   /\ n <= l_toString_bound L)
  /\ Forall (fun kv => exists lb, snd kv = VRef lb /\ n <= lb) boundMethods.

(** A value of the heap: one that does not point outside it. *)
Definition valid (h : heap) (v : value) : Prop :=
  match v with
  | VRef l => l < length h
  | _ => True
  end.


(** A computation that leaves the objects there are as they are: all it
    does to the heap is to add objects. *)
Definition allocates_only {A} (m : M A) : Prop :=
  forall h r h', m h = (r, h') -> h `prefix_of` h'.

(** The user's code that [create] of factory [F] runs only adds objects to
    the heap: the [parse] of the schema, the method factory, and the
    [bind] of the methods, which is the one every function inherits and
    not a [bind] of the method's own. The heaps in question are those that
    include [base], where the schema and the method factory were made. *)
Record user_code_allocates
  (native : nat -> value -> list value -> M value)
  (JSON_stringify to_String : value -> M string)
  (fuel : nat) (F : factory) (base : heap) : Prop := {
  parse_allocates : forall data h r h',
      base `prefix_of` h -> parse (schema F) data h = (r, h') -> h `prefix_of` h';
  methodsFactory_allocates : forall t h r h',
      base `prefix_of` h ->
      call native JSON_stringify to_String fuel (methodsFactory F) VUndefined [t] h
        = (r, h') ->
      h `prefix_of` h';
  methods_inherit_bind : forall t h methods h',
      base `prefix_of` h ->
      call native JSON_stringify to_String fuel (methodsFactory F) VUndefined [t] h
        = (Ok methods, h') ->
      forall k f, (k, f) ∈ own_props h' methods -> get_own h' f "bind" = None;
}.

(** Every method the method factory of [F] returns has a name in [P]. *)
Definition methods_named
  (native : nat -> value -> list value -> M value)
  (JSON_stringify to_String : value -> M string)
  (fuel : nat) (F : factory) (base : heap) (P : string -> Prop) : Prop :=
  forall t h methods h',
    base `prefix_of` h ->
    call native JSON_stringify to_String fuel (methodsFactory F) VUndefined [t] h
      = (Ok methods, h') ->
    forall k, k ∈ keys h' methods -> P k.

(** A boolean, a number or a string. *)
Definition is_primitive_value (v : value) : bool :=
  match v with
  | VBool _ | VNumber _ | VNaN | VString _ => true
  | _ => false
  end.

(** * Properties *)

Example string_props_ab :
  string_props 0 "ab" = [("0", VString "a"); ("1", VString "b")].
Proof. reflexivity. Qed.

(** ** The monad *)

Lemma bind_ok {A B} (m : M A) (k : A -> M B) h a h' :
  m h = (Ok a, h') -> bind m k h = k a h'.
Proof. unfold bind. intros ->. reflexivity. Qed.

Lemma bind_throw {A B} (m : M A) (k : A -> M B) h e h' :
  m h = (Throw e, h') -> bind m k h = (Throw e, h').
Proof. unfold bind. intros ->. reflexivity. Qed.

Lemma bind_inv_ok {A B} (m : M A) (k : A -> M B) h b h' :
  bind m k h = (Ok b, h') ->
  exists a h1, m h = (Ok a, h1) /\ k a h1 = (Ok b, h').
Proof.
  unfold bind. destruct (m h) as [[a|e|] h1]; intros H; try discriminate.
  eauto.
Qed.

(** ** Validation failures are wrapped *)

Section CreateErrors.
Variable native : nat -> value -> list value -> M value.
Variable JSON_stringify : value -> M string.
Variable to_String : value -> M string.
Variable fuel : nat.
Variable F : factory.

Abbreviation create' := (create native JSON_stringify to_String fuel F).
Abbreviation create_body' := (create_body native JSON_stringify to_String fuel F).

Lemma create_throw_inv data h e h' :
  create' data h = (Throw e, h') ->
  exists e0, create_body' data h = (Throw e0, h') /\
    e = match e0 with
        | ZodError errors =>
            ValidationError (invalid_message (name F) errors) e0 (name F) data
        | _ => e0
        end.
Proof.
  unfold create, try_catch.
  destruct (create_body' data h) as [[v|e0|] h1]; intros H; try discriminate.
  exists e0. destruct e0; unfold throw in H; inversion H; subst; auto.
Qed.

Lemma create_of_body_throw data h e0 h' :
  create_body' data h = (Throw e0, h') ->
  create' data h =
    (Throw (match e0 with
            | ZodError errors =>
                ValidationError (invalid_message (name F) errors) e0 (name F) data
            | _ => e0
            end), h').
Proof.
  unfold create, try_catch. intros ->. destruct e0; reflexivity.
Qed.

Lemma create_ok_iff data h v h' :
  create' data h = (Ok v, h') <-> create_body' data h = (Ok v, h').
Proof.
  unfold create, try_catch.
  destruct (create_body' data h) as [[v0|e0|] h1]; try tauto.
  destruct e0; unfold throw; split; intros H; discriminate.
Qed.

End CreateErrors.

(** C3. When the schema's [parse] rejects the data (throws a [ZodError]),
    [create] throws a [ValidationError] whose message aggregates the
    messages of the issues, and that carries the [ZodError] with its issues,
    the name of the type and the data; and whatever [create] throws, it is
    never a [ZodError]. *)
Theorem create_wraps_validation_failure
  (native : nat -> value -> list value -> M value)
  (JSON_stringify to_String : value -> M string)
  (fuel : nat) (F : factory) (data : value) (h : heap) :
  (forall errors h',
      parse (schema F) data h = (Throw (ZodError errors), h') ->
      create native JSON_stringify to_String fuel F data h =
        (Throw (ValidationError
                  ("Invalid " +:+ name F +:+ ": " +:+ join ", " (map message errors))
                  (ZodError errors) (name F) data), h'))
  /\ (forall e h',
         create native JSON_stringify to_String fuel F data h = (Throw e, h') ->
         is_ZodError e = false).
Proof.
  split.
  - intros errors h' Hp.
    rewrite (create_of_body_throw _ _ _ _ _ _ _ (ZodError errors) h'); [reflexivity|].
    unfold create_body. apply bind_throw. exact Hp.
  - intros e h' H. apply create_throw_inv in H as (e0 & _ & ->).
    destruct e0; reflexivity.
Qed.

Lemma create_wraps_validation_failure_witness :
  Demo.create 3 Demo.Num (VString "five") Demo.heap0 =
    (Throw (ValidationError "Invalid Num: Expected number"
              (ZodError [{| message := "Expected number"; path := [] |}])
              "Num" (VString "five")), Demo.heap0).
Proof.
  apply (proj1 (create_wraps_validation_failure
                  Demo.native Demo.JSON_stringify Demo.to_String
                  3 Demo.Num (VString "five") Demo.heap0)
               [{| message := "Expected number"; path := [] |}] Demo.heap0).
  reflexivity.
Defined.

(** ** Configuration errors of [extend] *)

(** C6. [extend] throws its configuration error, and returns no factory,
    whenever the new name is missing or empty or the [methodsFactory] it is
    given is not a function; this is so in particular when the caller
    passes [methods] and leaves [methodsFactory] undefined, as
    [IntegerNumber.js] does. *)
Theorem extend_configuration_error (F : factory) (x : extend_options) (h : heap) :
  name_missing (ext_name x) = true \/ typeof h (ext_methodsFactory x) <> TFunction ->
  (exists msg, extend F x h = (Throw (Error msg), h))
  /\ typeof h VUndefined <> TFunction.
Proof.
  intros H. split; [|discriminate].
  unfold extend. destruct (name_missing (ext_name x)) eqn:Hn.
  - eexists. reflexivity.
  - destruct H as [H|H]; [discriminate|].
    unfold bind, typeof_m. rewrite bool_decide_true by exact H.
    eexists. reflexivity.
Qed.

Lemma extend_configuration_error_witness :
  exists msg, extend Demo.Num Demo.IntegerNumber_options Demo.heap0 =
                (Throw (Error msg), Demo.heap0).
Proof.
  apply (extend_configuration_error Demo.Num Demo.IntegerNumber_options Demo.heap0).
  right. discriminate.
Defined.

(** ** Errors of the method factory *)

(** C9. Every call of [create] whose data passes the schema builds the
    prototype and then calls the [methodsFactory] anew; when that call
    throws anything but a [ZodError], [create] throws the very same
    exception, unwrapped. *)
Theorem create_propagates_methodsFactory_error
  (native : nat -> value -> list value -> M value)
  (JSON_stringify to_String : value -> M string)
  (fuel : nat) (F : factory) (data : value) (h : heap)
  validatedData h1 prototype h2 tempFactory h3 e h4 :
  parse (schema F) data h = (Ok validatedData, h1) ->
  new_prototype (closure_of F validatedData) h1 = (Ok prototype, h2) ->
  factory_handle h2 = (Ok tempFactory, h3) ->
  call native JSON_stringify to_String fuel (methodsFactory F) VUndefined
       [tempFactory] h3 = (Throw e, h4) ->
  is_ZodError e = false ->
  create native JSON_stringify to_String fuel F data h = (Throw e, h4).
Proof.
  intros Hp Hproto Hh Hc He.
  rewrite (create_of_body_throw _ _ _ _ _ _ _ e h4).
  - destruct e; try reflexivity. discriminate.
  - unfold create_body.
    rewrite (bind_ok _ _ _ _ _ Hp), (bind_ok _ _ _ _ _ Hproto),
      (bind_ok _ _ _ _ _ Hh).
    apply bind_throw. exact Hc.
Qed.

Lemma create_propagates_methodsFactory_error_witness :
  fst (Demo.create 3 Demo.Boom (VNumber 1) Demo.heap0) = Throw (Error "boom").
Proof.
  unfold Demo.create.
  erewrite (create_propagates_methodsFactory_error
              Demo.native Demo.JSON_stringify Demo.to_String
              3 Demo.Boom (VNumber 1) Demo.heap0);
    [reflexivity | reflexivity | reflexivity | reflexivity | reflexivity | reflexivity].
Defined.

(** ** Entities: a failed update changes nothing *)

(** C8. When the merged record fails the schema, [update] throws -- a
    [ValidationError], unless the update was refused already for naming the
    identity field -- and the store is the one before the call: every field
    of the entity, and its history, are what they were. *)
Theorem update_atomic (F : Entity.entity_factory) (now : Z) (e : loc)
  (patch : list (string * value)) (s : Entity.store) (ent : Entity.entity) errors :
  s !! e = Some ent ->
  Entity.e_schema F (merge (Entity.fields ent) patch) = Throw (ZodError errors) ->
  (exists err, Entity.update F now e patch s = (Throw err, s) /\
     (assoc (Entity.e_identity F) patch = None ->
      exists msg input, err = ValidationError msg (ZodError errors) (Entity.e_name F) input))
  /\ snd (Entity.update F now e patch s) !! e = Some ent.
Proof.
  intros He Hs. unfold Entity.update. rewrite He.
  destruct (bool_decide _) eqn:Hid.
  - split; [|exact He]. eexists. split; [reflexivity|].
    intros Hn. apply bool_decide_eq_true in Hid. rewrite Hn in Hid.
    destruct Hid; discriminate.
  - rewrite Hs. split; [|exact He]. eexists. split; [reflexivity|]. eauto.
Qed.

Lemma update_atomic_witness :
  snd (Entity.update Demo.Person 0 0 [("age", VNumber (-1))] [Demo.alice]) !! 0
  = Some Demo.alice.
Proof.
  apply (update_atomic Demo.Person 0 0 [("age", VNumber (-1))] [Demo.alice] Demo.alice
           [{| message := "Number must be greater than or equal to 0";
               path := ["age"] |}]);
    reflexivity.
Defined.

(** ** Immutability *)

Ltac bind_inv H :=
  let a := fresh "a" in
  let h := fresh "h" in
  let H1 := fresh "H" in
  apply bind_inv_ok in H as (a & h & H1 & H).

Lemma new_frozen_object_inv ps h v h' :
  new_frozen_object ps h = (Ok v, h') ->
  v = VRef (length h) /\
  h' = h ++ [{| props := ps; frozen := true; callable := None |}].
Proof. unfold new_frozen_object, alloc. intros H. inversion H. auto. Qed.

Lemma new_instance_frozen native JSON_stringify to_String fuel
  validatedData prototype boundMethods h v h' :
  new_instance native JSON_stringify to_String fuel
    validatedData prototype boundMethods h = (Ok v, h') ->
  exists h0 ps,
    v = VRef (length h0) /\
    h' = h0 ++ [{| props := ps; frozen := true; callable := None |}].
Proof.
  unfold new_instance. intros H.
  do 7 bind_inv H.
  apply new_frozen_object_inv in H as [-> ->]. eauto.
Qed.

Lemma create_frozen native JSON_stringify to_String fuel F data h v h' :
  create native JSON_stringify to_String fuel F data h = (Ok v, h') ->
  exists l o, v = VRef l /\ h' !! l = Some o /\ frozen o = true.
Proof.
  rewrite create_ok_iff. unfold create_body. intros H.
  do 6 bind_inv H.
  apply new_instance_frozen in H as (h6 & ps & -> & ->).
  exists (length h6), {| props := ps; frozen := true; callable := None |}.
  split; [reflexivity|]. split; [|reflexivity].
  rewrite lookup_app_r by lia. rewrite Nat.sub_diag. reflexivity.
Qed.

(** No operation changes a frozen object. *)
Lemma mutate_frozen strict m (h : heap) l o :
  h !! l = Some o -> frozen o = true ->
  snd (mutate strict m h) !! l = Some o.
Proof.
  intros Hl Hf.
  assert (Hlt : l < length h) by (eapply lookup_lt_Some; eauto).
  destruct m as [l' k v|l' k|l' k v|l'|o']; simpl.
  - destruct (h !! l') as [o'|] eqn:Hl'; [|exact Hl].
    destruct (frozen o') eqn:Hf'.
    + unfold refused, throw, ret. destruct strict; exact Hl.
    + simpl. rewrite list_lookup_insert_ne; [exact Hl|]. congruence.
  - destruct (h !! l') as [o'|] eqn:Hl'; [|exact Hl].
    destruct (frozen o') eqn:Hf'.
    + unfold refused, throw, ret.
      destruct (bool_decide _); [destruct strict|]; exact Hl.
    + simpl. rewrite list_lookup_insert_ne; [exact Hl|]. congruence.
  - destruct (h !! l') as [o'|] eqn:Hl'; [|exact Hl].
    destruct (frozen o') eqn:Hf'; [exact Hl|].
    simpl. rewrite list_lookup_insert_ne; [exact Hl|]. congruence.
  - destruct (h !! l') as [o'|] eqn:Hl'; [|exact Hl].
    simpl. destruct (decide (l' = l)) as [->|Hne].
    + rewrite list_lookup_insert_eq by exact Hlt.
      rewrite Hl in Hl'. inversion Hl'; subst o'.
      destruct o as [ps fr c]. simpl in *. subst fr. reflexivity.
    + rewrite list_lookup_insert_ne by exact Hne. exact Hl.
  - unfold alloc. simpl. rewrite lookup_app_l by exact Hlt. exact Hl.
Qed.

Lemma mutate_all_frozen strict ms : forall (h : heap) l o,
  h !! l = Some o -> frozen o = true ->
  mutate_all strict ms h !! l = Some o.
Proof.
  induction ms as [|m ms IH]; intros h l o Hl Hf; simpl; [exact Hl|].
  apply IH; [|exact Hf]. apply mutate_frozen; assumption.
Qed.

(** A write to a frozen object is ignored, or refused with a [TypeError]
    in strict code; either way the heap stays as it is. *)
Lemma write_frozen strict (h : heap) l o k x :
  h !! l = Some o -> frozen o = true ->
  mutate strict (MSet l k x) h = (if strict then Throw TypeError else Ok x, h).
Proof.
  intros Hl Hf. simpl. rewrite Hl, Hf. destruct strict; reflexivity.
Qed.

(** And so for every operation on a frozen object. *)
Lemma mutate_frozen_target strict m (h : heap) l o :
  h !! l = Some o -> frozen o = true -> target m = Some l ->
  snd (mutate strict m h) = h.
Proof.
  intros Hl Hf Ht.
  destruct m as [l' k v|l' k|l' k v|l'|o']; simpl in Ht; inversion Ht; subst l';
    simpl; rewrite Hl; try rewrite Hf.
  - destruct strict; reflexivity.
  - destruct (bool_decide _); [destruct strict|]; reflexivity.
  - reflexivity.
  - simpl. apply list_insert_id. rewrite Hl.
    destruct o as [ps fr c]. simpl in *. subst fr. reflexivity.
Qed.

(** C2. The object [create] returns is frozen: whatever operations are
    applied to the heap afterwards, in whatever number, the object has the
    fields it was created with, each with its value of creation; an
    operation on the object itself -- an assignment to a field, a [delete],
    a [defineProperty] -- leaves the heap as it is, and an assignment is a
    no-op, or is rejected with a [TypeError] where the assigning code is
    strict. *)
Theorem instance_immutable
  (native : nat -> value -> list value -> M value)
  (JSON_stringify to_String : value -> M string)
  (fuel : nat) (F : factory) (data : value) (h : heap) v h' :
  create native JSON_stringify to_String fuel F data h = (Ok v, h') ->
  exists l o,
    v = VRef l /\ h' !! l = Some o /\ frozen o = true /\
    forall strict ms,
      let h'' := mutate_all strict ms h' in
      h'' !! l = Some o /\
      own_props h'' v = own_props h' v /\
      (forall m, target m = Some l -> snd (mutate strict m h'') = h'') /\
      forall k x,
        mutate strict (MSet l k x) h'' =
          (if strict then Throw TypeError else Ok x, h'').
Proof.
  intros H. apply create_frozen in H as (l & o & -> & Hl & Hf).
  exists l, o. split; [reflexivity|]. split; [exact Hl|]. split; [exact Hf|].
  intros strict ms h''.
  assert (Hl'' : h'' !! l = Some o) by (apply mutate_all_frozen; assumption).
  split; [exact Hl''|]. split; [simpl; rewrite Hl, Hl''; reflexivity|]. split.
  - intros m Hm. eapply mutate_frozen_target; eassumption.
  - intros k x. eapply write_frozen; eassumption.
Qed.

Lemma instance_immutable_witness :
  exists l o,
    fst (Demo.create 3 Demo.Num (VNumber 5) Demo.heap0) = Ok (VRef l) /\
    snd (Demo.create 3 Demo.Num (VNumber 5) Demo.heap0) !! l = Some o /\
    frozen o = true /\
    forall ms, mutate_all true ms
                 (snd (Demo.create 3 Demo.Num (VNumber 5) Demo.heap0)) !! l = Some o.
Proof.
  destruct (instance_immutable Demo.native Demo.JSON_stringify Demo.to_String
              3 Demo.Num (VNumber 5) Demo.heap0 _ _ eq_refl)
    as (l & o & Hv & Hl & Hf & Hall).
  exists l, o. inversion Hv; subst l.
  split; [reflexivity|]. split; [exact Hl|]. split; [exact Hf|].
  intros ms. apply (Hall true ms).
Defined.

(** ** Property lists *)

Lemma assoc_set_eq k v ps : assoc k (assoc_set k v ps) = Some v.
Proof.
  induction ps as [|[k' v'] ps IH]; simpl.
  - rewrite String.eqb_refl. reflexivity.
  - destruct (String.eqb_spec k k') as [->|Hne]; simpl.
    + rewrite String.eqb_refl. reflexivity.
    + destruct (String.eqb_spec k k'); [contradiction|]. exact IH.
Qed.

Lemma assoc_set_ne k k' v ps : k <> k' -> assoc k (assoc_set k' v ps) = assoc k ps.
Proof.
  intros Hne. induction ps as [|[k0 v0] ps IH]; simpl.
  - destruct (String.eqb_spec k k'); [contradiction|reflexivity].
  - destruct (String.eqb_spec k' k0) as [->|Hne0]; simpl.
    + destruct (String.eqb_spec k k0); [contradiction|reflexivity].
    + destruct (String.eqb_spec k k0); [reflexivity|exact IH].
Qed.

Lemma assoc_set_lookup k k' v ps :
  assoc k (assoc_set k' v ps) = if String.eqb k k' then Some v else assoc k ps.
Proof.
  destruct (String.eqb_spec k k') as [->|Hne].
  - apply assoc_set_eq.
  - apply assoc_set_ne, Hne.
Qed.

Lemma assoc_app k ps qs :
  assoc k (ps ++ qs) = match assoc k ps with Some v => Some v | None => assoc k qs end.
Proof.
  induction ps as [|[k' v'] ps IH]; simpl; [reflexivity|].
  destruct (String.eqb k k'); [reflexivity|exact IH].
Qed.

(** In [{...a, ...b}] the last binding of a key in [b] wins, and [a] is
    consulted for the keys [b] does not have. *)
Lemma assoc_merge k b : forall a,
  assoc k (merge a b) =
    match assoc k (rev b) with Some v => Some v | None => assoc k a end.
Proof.
  unfold merge. induction b as [|[k' v'] b IH]; intros a; simpl; [reflexivity|].
  rewrite IH, assoc_app. destruct (assoc k (rev b)); [reflexivity|].
  simpl. rewrite assoc_set_lookup. destruct (String.eqb k k'); reflexivity.
Qed.

Lemma assoc_None_keys k ps : assoc k ps = None <-> k ∉ map fst ps.
Proof.
  induction ps as [|[k' v'] ps IH]; simpl.
  - split; [intros _; apply not_elem_of_nil|reflexivity].
  - rewrite not_elem_of_cons. destruct (String.eqb_spec k k') as [->|Hne].
    + split; [discriminate|]. intros [H _]. contradiction.
    + rewrite IH. tauto.
Qed.

Lemma assoc_Some_keys k ps : is_Some (assoc k ps) <-> k ∈ map fst ps.
Proof.
  destruct (assoc k ps) eqn:H.
  - split; [intros _|eauto].
    destruct (decide (k ∈ map fst ps)) as [|Hn]; [assumption|].
    apply assoc_None_keys in Hn. congruence.
  - split; [intros [? ?]; discriminate|].
    intros Hin. apply assoc_None_keys in H. contradiction.
Qed.

Lemma keys_assoc_set k v ps :
  map fst (assoc_set k v ps) =
    match assoc k ps with Some _ => map fst ps | None => map fst ps ++ [k] end.
Proof.
  induction ps as [|[k' v'] ps IH]; simpl; [reflexivity|].
  destruct (String.eqb_spec k k') as [->|Hne]; simpl; [reflexivity|].
  rewrite IH. destruct (assoc k ps); reflexivity.
Qed.

Lemma NoDup_keys_assoc_set k v ps :
  NoDup (map fst ps) -> NoDup (map fst (assoc_set k v ps)).
Proof.
  intros Hnd. rewrite keys_assoc_set. destruct (assoc k ps) eqn:Hk; [exact Hnd|].
  apply NoDup_app. split; [exact Hnd|]. split.
  - intros x Hx Hx'. apply list_elem_of_singleton in Hx'. subst x.
    apply assoc_None_keys in Hk. contradiction.
  - apply NoDup_singleton.
Qed.

Lemma NoDup_keys_merge b : forall a,
  NoDup (map fst a) -> NoDup (map fst (merge a b)).
Proof.
  unfold merge. induction b as [|[k v] b IH]; intros a Hnd; simpl; [exact Hnd|].
  apply IH, NoDup_keys_assoc_set, Hnd.
Qed.

(** With distinct keys, reading a key of the list that is there gives the
    value it is listed with. *)
Lemma assoc_elem_of k v ps :
  NoDup (map fst ps) -> (k, v) ∈ ps -> assoc k ps = Some v.
Proof.
  induction ps as [|[k' v'] ps IH]; simpl; intros Hnd Hin.
  - apply elem_of_nil in Hin. contradiction.
  - apply NoDup_cons in Hnd as [Hni Hnd]. apply elem_of_cons in Hin as [Heq|Hin].
    + inversion Heq; subst. rewrite String.eqb_refl. reflexivity.
    + destruct (String.eqb_spec k k') as [->|Hne]; [|auto].
      exfalso. apply Hni. apply list_elem_of_fmap. exists (k', v). auto.
Qed.

Lemma elem_of_assoc k v ps : assoc k ps = Some v -> (k, v) ∈ ps.
Proof.
  induction ps as [|[k' v'] ps IH]; simpl; [discriminate|].
  destruct (String.eqb_spec k k') as [->|Hne].
  - intros H; inversion H; subst. apply elem_of_cons. auto.
  - intros H. apply elem_of_cons. auto.
Qed.

(** ** The heap only grows *)

Lemma lookup_prefix (h h' : heap) l o :
  h `prefix_of` h' -> h !! l = Some o -> h' !! l = Some o.
Proof. intros [t ->] H. apply lookup_app_l_Some, H. Qed.

Lemma code_of_prefix (h h' : heap) v c :
  h `prefix_of` h' -> code_of h v = Some c -> code_of h' v = Some c.
Proof.
  intros Hp. destruct v; simpl; try (intros H; exact H).
  destruct (h !! l) as [o|] eqn:Hl; [|discriminate].
  rewrite (lookup_prefix _ _ _ _ Hp Hl). auto.
Qed.

Lemma is_function_code h v : is_function h v = true <-> is_Some (code_of h v).
Proof.
  unfold is_function. rewrite bool_decide_eq_true.
  destruct v; simpl; try (split; [discriminate|intros [? ?]; discriminate]).
  - destruct (match h !! l with Some o => callable o | None => None end);
      split; eauto; try discriminate. intros [? ?]; discriminate.
  - split; eauto.
Qed.

Lemma is_function_prefix (h h' : heap) v :
  h `prefix_of` h' -> is_function h v = true -> is_function h' v = true.
Proof.
  intros Hp. rewrite !is_function_code. intros [c Hc].
  exists c. eapply code_of_prefix; eauto.
Qed.

Lemma own_props_prefix (h h' : heap) v :
  h `prefix_of` h' -> valid h v -> own_props h' v = own_props h v.
Proof.
  intros Hp Hv. destruct v; simpl; try reflexivity.
  simpl in Hv. apply lookup_lt_is_Some in Hv as [o Ho].
  rewrite Ho, (lookup_prefix _ _ _ _ Hp Ho). reflexivity.
Qed.


Lemma instance_at_prefix (h h' : heap) e fields bm L :
  h `prefix_of` h' -> instance_at h e fields bm L -> instance_at h' e fields bm L.
Proof.
  intros Hp [].
  split; try (eapply lookup_prefix; eassumption); try assumption.
  eapply Forall_impl; [eassumption|].
  intros kv. simpl. apply is_function_prefix, Hp.
Qed.

Lemma alloc_prefix o : allocates_only (alloc o).
Proof.
  intros h r h' H. unfold alloc in H. inversion H. apply prefix_app_r. reflexivity.
Qed.

Lemma Function_prototype_bind_inv f this h v h' :
  Function_prototype_bind f this h = (Ok v, h') ->
  is_function h f = true /\ v = VRef (length h) /\
  h' = h ++ [function_object (CBound f this)].
Proof.
  unfold Function_prototype_bind. destruct (is_function h f); [|discriminate].
  unfold new_function, alloc. intros H. inversion H. auto.
Qed.

Lemma Forall_assoc_set (P : string * value -> Prop) k v ps :
  P (k, v) -> Forall P ps -> Forall P (assoc_set k v ps).
Proof.
  intros Hkv. induction 1 as [|[k' v'] ps Hx Hps IH]; simpl.
  - constructor; [exact Hkv|constructor].
  - destruct (String.eqb k k'); constructor; auto.
Qed.

(** ** Reading a property, and [bind] *)

Lemma get_object_value (h : heap) l o k :
  h !! l = Some o -> get (VRef l) k h = (Ok (prop_value o k), h).
Proof.
  intros Hl. unfold get, get_own, prop_value. simpl. rewrite Hl.
  destruct (assoc k (props o)); [reflexivity|].
  destruct (String.eqb k "valueOf"); [reflexivity|].
  destruct (String.eqb k "hasOwnProperty"); [reflexivity|].
  unfold is_function, typeof, code_of. rewrite Hl.
  destruct (String.eqb k "bind"); [|reflexivity].
  destruct (callable o); reflexivity.
Qed.

Lemma get_heap_unchanged v k h r h' : get v k h = (r, h') -> h' = h.
Proof.
  unfold get. destruct v; try (intros H; inversion H; reflexivity);
    destruct (get_own h _ k); try (intros H; inversion H; reflexivity);
    destruct (String.eqb k "valueOf"); try (intros H; inversion H; reflexivity);
    destruct (String.eqb k "hasOwnProperty"); try (intros H; inversion H; reflexivity);
    destruct (String.eqb k "bind" && is_function h _);
    intros H; inversion H; reflexivity.
Qed.

(** The [bind] of a value that has none of its own is the one functions
    inherit; a value that is not a function has none at all. *)
Lemma invoke_bind_inherited native JSON_stringify to_String fuel f this (h : heap) :
  get_own h f "bind" = None ->
  invoke native JSON_stringify to_String (S fuel) f "bind" [this] h =
    Function_prototype_bind f this h.
Proof.
  intros Hn. unfold invoke, get. unfold bind at 1.
  destruct f; try reflexivity; rewrite Hn; simpl String.eqb; cbv iota.
  - reflexivity.
  - unfold Function_prototype_bind.
    destruct (is_function h (VRef l)) eqn:Hf; simpl andb; cbv iota.
    + change (call native JSON_stringify to_String (S fuel) (VBuiltin BBind)
                (VRef l) [this] h)
        with (Function_prototype_bind (VRef l) this h).
      unfold Function_prototype_bind. rewrite Hf. reflexivity.
    + reflexivity.
Qed.

(** A new function object has no [bind] of its own, and gives none to a
    value that had none. *)
Lemma get_own_alloc_function (h : heap) c f k :
  get_own h f k = None -> get_own (h ++ [function_object c]) f k = None.
Proof.
  destruct f; try (intros H; exact H).
  unfold get_own, own_props.
  destruct (h !! l) as [o|] eqn:Hl.
  - rewrite (lookup_app_l_Some _ _ _ _ Hl). auto.
  - intros _. apply lookup_ge_None in Hl.
    destruct (decide (l = length h)) as [->|Hne].
    + rewrite lookup_app_r by lia. rewrite Nat.sub_diag. reflexivity.
    + rewrite lookup_ge_None_2; [reflexivity|]. rewrite length_app. simpl. lia.
Qed.

Lemma invoke_bind_function_object native JSON_stringify to_String fuel
  (h : heap) l c this :
  h !! l = Some (function_object c) ->
  invoke native JSON_stringify to_String (S fuel) (VRef l) "bind" [this] h =
    (Ok (VRef (length h)), h ++ [function_object (CBound (VRef l) this)]).
Proof.
  intros Hl. rewrite invoke_bind_inherited.
  - unfold Function_prototype_bind, is_function, typeof, code_of.
    rewrite Hl. reflexivity.
  - unfold get_own, own_props. rewrite Hl. reflexivity.
Qed.

Lemma bind_methods_inv native JSON_stringify to_String fuel prototype entries :
  forall acc h bm h',
  bind_methods native JSON_stringify to_String (S fuel) entries prototype acc h
    = (Ok bm, h') ->
  Forall (fun kv => get_own h (snd kv) "bind" = None) entries ->
  Forall (fun kv => is_function h (snd kv) = true) acc ->
  NoDup (map fst acc) ->
  h `prefix_of` h' /\
  Forall (fun kv => is_function h' (snd kv) = true) bm /\
  NoDup (map fst bm) /\
  (forall k, assoc k bm = None <-> assoc k acc = None /\ k ∉ map fst entries).
Proof.
  induction entries as [|[methodName methodFn] rest IH];
    intros acc h bm h' H Hplain Hacc Hnd; simpl in H.
  - unfold ret in H. inversion H; subst.
    split; [reflexivity|]. split; [exact Hacc|]. split; [exact Hnd|].
    intros k. split; [intros Hk; split; [exact Hk|apply not_elem_of_nil]|tauto].
  - apply Forall_cons in Hplain as [Hplain0 Hplain]. simpl in Hplain0.
    bind_inv H. rewrite invoke_bind_inherited in H0 by exact Hplain0.
    apply Function_prototype_bind_inv in H0 as (Hf & -> & ->).
    assert (Hp : h `prefix_of` h ++ [function_object (CBound methodFn prototype)])
      by (apply prefix_app_r; reflexivity).
    apply IH in H as (Hp' & Hbm & Hnd' & Hk).
    + split; [etrans; eassumption|]. split; [exact Hbm|]. split; [exact Hnd'|].
      intros k. rewrite Hk, assoc_set_lookup. simpl. rewrite not_elem_of_cons.
      destruct (String.eqb_spec k methodName) as [->|Hne].
      * split; [intros [? _]; discriminate|]. intros [_ [? _]]. contradiction.
      * tauto.
    + eapply Forall_impl; [exact Hplain|]. intros kv. apply get_own_alloc_function.
    + apply Forall_assoc_set.
      * simpl. apply is_function_code. simpl.
        rewrite lookup_app_r by lia. rewrite Nat.sub_diag. simpl. eauto.
      * eapply Forall_impl; [exact Hacc|]. intros kv. apply is_function_prefix, Hp.
    + apply NoDup_keys_assoc_set, Hnd.
Qed.

(** The bound methods are new objects. *)
Lemma bind_methods_refs native JSON_stringify to_String fuel prototype n entries :
  forall acc (h : heap) bm h',
  bind_methods native JSON_stringify to_String (S fuel) entries prototype acc h
    = (Ok bm, h') ->
  Forall (fun kv => get_own h (snd kv) "bind" = None) entries ->
  n <= length h ->
  Forall (fun kv => exists lb, snd kv = VRef lb /\ n <= lb) acc ->
  Forall (fun kv => exists lb, snd kv = VRef lb /\ n <= lb) bm.
Proof.
  induction entries as [|[k f] rest IH]; intros acc h bm h' H Hplain Hn Hacc;
    simpl in H.
  - unfold ret in H. inversion H; subst. exact Hacc.
  - apply Forall_cons in Hplain as [Hn0 Hplain]. simpl in Hn0.
    bind_inv H. rewrite invoke_bind_inherited in H0 by exact Hn0.
    apply Function_prototype_bind_inv in H0 as (_ & -> & ->).
    apply IH in H; [exact H| | |].
    + eapply Forall_impl; [exact Hplain|]. intros kv. apply get_own_alloc_function.
    + rewrite length_app. simpl. lia.
    + apply Forall_assoc_set; [|exact Hacc].
      exists (length h). split; [reflexivity|exact Hn].
Qed.

(** ** What [create] leaves in the heap *)

Lemma new_prototype_spec e h :
  new_prototype e h =
    (Ok (VRef (length h + 3)),
     h ++ [function_object (CValueOf e);
           function_object (CEquals e);
           function_object (CToString e);
           {| props := merge (own_props h (env_validatedData e))
                         (standard_methods (VRef (length h)) (VRef (length h + 1))
                                           (VRef (length h + 2)));
              frozen := false; callable := None |}]).
Proof.
  unfold new_prototype, spread, new_function, new_object, alloc, bind. simpl.
  rewrite !length_app. simpl. rewrite <- !app_assoc. simpl.
  replace (length h + 1 + 1) with (length h + 2) by lia.
  replace (length h + 2 + 1) with (length h + 3) by lia.
  reflexivity.
Qed.

Lemma factory_handle_spec (h : heap) :
  factory_handle h =
    (Ok (VRef (length h + 3)),
     h ++ [function_object (CHandle "create");
           {| props := []; frozen := false; callable := None |};
           function_object (CHandle "extend");
           {| props := [("create", VRef (length h));
                        ("schema", VRef (length h + 1));
                        ("extend", VRef (length h + 2))];
              frozen := false; callable := None |}]).
Proof.
  unfold factory_handle, new_function, new_object, alloc, bind. simpl.
  rewrite !length_app. simpl. rewrite <- !app_assoc. simpl.
  replace (length h + 1 + 1) with (length h + 2) by lia.
  replace (length h + 2 + 1) with (length h + 3) by lia.
  reflexivity.
Qed.

Lemma assoc_standard_methods k fields a b c :
  assoc k (merge fields (standard_methods a b c)) =
    if String.eqb k "toString" then Some c
    else if String.eqb k "equals" then Some b
    else if String.eqb k "valueOf" then Some a
    else assoc k fields.
Proof.
  rewrite assoc_merge. simpl.
  destruct (String.eqb k "toString"); [reflexivity|].
  destruct (String.eqb k "equals"); [reflexivity|].
  destruct (String.eqb k "valueOf"); reflexivity.
Qed.

Lemma get_standard_methods (h : heap) p fields a b c fr cl :
  h !! p = Some {| props := merge fields (standard_methods a b c);
                   frozen := fr; callable := cl |} ->
  get (VRef p) "valueOf" h = (Ok a, h) /\
  get (VRef p) "equals" h = (Ok b, h) /\
  get (VRef p) "toString" h = (Ok c, h).
Proof.
  intros Hp. rewrite !(get_object_value _ _ _ _ Hp). unfold prop_value. cbn [props].
  rewrite !assoc_standard_methods. auto.
Qed.

Lemma new_instance_spec native JSON_stringify to_String fuel
  (h : heap) validatedData p fields fv fq fs cv cq cs boundMethods :
  h !! p = Some {| props := merge fields
                              (standard_methods (VRef fv) (VRef fq) (VRef fs));
                   frozen := false; callable := None |} ->
  h !! fv = Some (function_object cv) ->
  h !! fq = Some (function_object cq) ->
  h !! fs = Some (function_object cs) ->
  new_instance native JSON_stringify to_String (S fuel)
    validatedData (VRef p) boundMethods h =
    (Ok (VRef (length h + 3)),
     h ++ [function_object (CBound (VRef fv) (VRef p));
           function_object (CBound (VRef fq) (VRef p));
           function_object (CBound (VRef fs) (VRef p));
           {| props :=
                merge (merge (own_props h validatedData)
                         (standard_methods (VRef (length h)) (VRef (length h + 1))
                                           (VRef (length h + 2))))
                      boundMethods;
              frozen := true; callable := None |}]).
Proof.
  intros Hp Hv Hq Hs. unfold new_instance.
  unfold bind at 1. unfold spread at 1.
  erewrite bind_ok; [|apply (get_standard_methods _ _ _ _ _ _ _ _ Hp)].
  erewrite bind_ok; [|apply (invoke_bind_function_object _ _ _ _ _ _ _ _ Hv)].
  erewrite bind_ok;
    [|apply (get_standard_methods _ _ _ _ _ _ _ _ (lookup_app_l_Some _ _ _ _ Hp))].
  erewrite bind_ok;
    [|apply (invoke_bind_function_object _ _ _ _ _ _ _ _
               (lookup_app_l_Some _ _ _ _ Hq))].
  erewrite bind_ok;
    [|apply (get_standard_methods _ _ _ _ _ _ _ _
               (lookup_app_l_Some _ _ _ _ (lookup_app_l_Some _ _ _ _ Hp)))].
  erewrite bind_ok;
    [|apply (invoke_bind_function_object _ _ _ _ _ _ _ _
               (lookup_app_l_Some _ _ _ _ (lookup_app_l_Some _ _ _ _ Hs)))].
  unfold new_frozen_object, alloc.
  rewrite !length_app. simpl. rewrite <- !app_assoc. simpl.
  replace (length h + 1 + 1) with (length h + 2) by lia.
  replace (length h + 2 + 1) with (length h + 3) by lia.
  reflexivity.
Qed.

(** [call] without fuel answers nothing. *)
Lemma call_Ok_fuel native JSON_stringify to_String fuel f this args (h : heap) v h' :
  call native JSON_stringify to_String fuel f this args h = (Ok v, h') ->
  exists fuel', fuel = S fuel'.
Proof. destruct fuel; [discriminate|eauto]. Qed.

(** The steps of [create] that succeeded when [create] returns. *)
Lemma create_inv native JSON_stringify to_String fuel F data h v h' :
  create native JSON_stringify to_String fuel F data h = (Ok v, h') ->
  exists validatedData h1 methods h4 boundMethods h5,
    let e := closure_of F validatedData in
    let prototype := VRef (length h1 + 3) in
    let h2 := h1 ++ [function_object (CValueOf e); function_object (CEquals e);
                     function_object (CToString e);
                     {| props := merge (own_props h1 validatedData)
                                   (standard_methods (VRef (length h1))
                                      (VRef (length h1 + 1)) (VRef (length h1 + 2)));
                        frozen := false; callable := None |}] in
    let tempFactory := VRef (length h2 + 3) in
    let h3 := snd (factory_handle h2) in
    parse (schema F) data h = (Ok validatedData, h1) /\
    new_prototype e h1 = (Ok prototype, h2) /\
    factory_handle h2 = (Ok tempFactory, h3) /\
    h2 `prefix_of` h3 /\
    call native JSON_stringify to_String fuel (methodsFactory F) VUndefined
         [tempFactory] h3 = (Ok methods, h4) /\
    bind_methods native JSON_stringify to_String fuel
      (own_props h4 methods) prototype [] h4 = (Ok boundMethods, h5) /\
    new_instance native JSON_stringify to_String fuel
      validatedData prototype boundMethods h5 = (Ok v, h').
Proof.
  rewrite create_ok_iff. unfold create_body. intros H.
  bind_inv H. rename a into vd, h0 into h1, H0 into Hparse.
  bind_inv H. rewrite new_prototype_spec in H0. injection H0 as <- <-.
  bind_inv H. rewrite factory_handle_spec in H0. injection H0 as <- <-.
  bind_inv H. rename a into methods, h0 into h4, H0 into Hcall.
  bind_inv H.
  assert (Hent : a = own_props h4 methods /\ h0 = h4).
  { unfold Object_entries in H0. destruct methods; inversion H0; auto. }
  destruct Hent as [-> ->]. clear H0.
  bind_inv H.
  exists vd, h1, methods, h4, a, h0. cbv zeta.
  rewrite factory_handle_spec. cbn [snd].
  split; [exact Hparse|]. split; [apply new_prototype_spec|].
  split; [reflexivity|]. split; [apply prefix_app_r; reflexivity|].
  split; [exact Hcall|]. split; [exact H0|exact H].
Qed.

(** The shape of what [create] returns, when the user's code only
    allocates and the validated data is a value of the heap. *)
Lemma create_shape native JSON_stringify to_String fuel F base data h vd h1 v h' :
  user_code_allocates native JSON_stringify to_String fuel F base ->
  base `prefix_of` h ->
  parse (schema F) data h = (Ok vd, h1) -> valid h1 vd ->
  create native JSON_stringify to_String fuel F data h = (Ok v, h') ->
  exists h2 t h3 methods h4 boundMethods L,
    new_prototype (closure_of F vd) h1 = (Ok (VRef (l_prototype L)), h2) /\
    factory_handle h2 = (Ok t, h3) /\
    call native JSON_stringify to_String fuel (methodsFactory F) VUndefined [t] h3
      = (Ok methods, h4) /\
    base `prefix_of` h3 /\
    h `prefix_of` h1 /\ h1 `prefix_of` h' /\
    v = VRef (l_instance L) /\
    instance_at h' (closure_of F vd) (own_props h1 vd) boundMethods L /\
    (forall k, assoc k boundMethods = None <-> k ∉ keys h4 methods) /\
    created (length h1) boundMethods L.
Proof.
  intros U Hbase Hparse Hvalid Hc.
  destruct (create_inv _ _ _ _ _ _ _ _ _ Hc)
    as (vd' & h1' & methods & h4 & bm & h5 & Hparse' & Hproto & Hhandle & Hp23 & Hcall
        & Hbm & Hinst).
  rewrite Hparse in Hparse'. injection Hparse' as <- <-.
  set (e := closure_of F vd) in *.
  set (proto := {| props := merge (own_props h1 vd)
                              (standard_methods (VRef (length h1))
                                 (VRef (length h1 + 1)) (VRef (length h1 + 2)));
                   frozen := false; callable := None |}) in *.
  set (h2 := h1 ++ [function_object (CValueOf e); function_object (CEquals e);
                    function_object (CToString e); proto]) in *.
  set (h3 := snd (factory_handle h2)) in *.
  destruct (call_Ok_fuel _ _ _ _ _ _ _ _ _ _ Hcall) as [fuel' ->].
  pose proof (parse_allocates _ _ _ _ _ _ U _ _ _ _ Hbase Hparse) as Hp01.
  assert (Hp12 : h1 `prefix_of` h2) by (apply prefix_app_r; reflexivity).
  assert (Hb3 : base `prefix_of` h3).
  { etrans; [exact Hbase|]. etrans; [exact Hp01|]. etrans; eassumption. }
  pose proof (methodsFactory_allocates _ _ _ _ _ _ U _ _ _ _ Hb3 Hcall) as Hp34.
  assert (Hplain : Forall (fun kv => get_own h4 (snd kv) "bind" = None)
                          (own_props h4 methods)).
  { apply Forall_forall. intros [k f] Hin.
    exact (methods_inherit_bind _ _ _ _ _ _ U _ _ _ _ Hb3 Hcall k f Hin). }
  assert (Hp14 : h1 `prefix_of` h4).
  { etrans; [exact Hp12|]. etrans; eassumption. }
  pose proof (bind_methods_refs _ _ _ _ _ (length h1) _ _ _ _ _ Hbm Hplain
                (prefix_length _ _ Hp14) (Forall_nil_2 _)) as Hrefs.
  apply bind_methods_inv in Hbm as (Hp45 & Hfun & Hnd & Hkeys);
    [|exact Hplain|constructor|constructor].
  assert (Hp25 : h2 `prefix_of` h5).
  { etrans; [exact Hp23|]. etrans; eassumption. }
  assert (Hv2 : h2 !! length h1 = Some (function_object (CValueOf e))).
  { unfold h2. rewrite lookup_app_r by lia. rewrite Nat.sub_diag. reflexivity. }
  assert (Hq2 : h2 !! (length h1 + 1) = Some (function_object (CEquals e))).
  { unfold h2. rewrite lookup_app_r by lia.
    replace (length h1 + 1 - length h1) with 1 by lia. reflexivity. }
  assert (Hs2 : h2 !! (length h1 + 2) = Some (function_object (CToString e))).
  { unfold h2. rewrite lookup_app_r by lia.
    replace (length h1 + 2 - length h1) with 2 by lia. reflexivity. }
  assert (Hpr2 : h2 !! (length h1 + 3) = Some proto).
  { unfold h2. rewrite lookup_app_r by lia.
    replace (length h1 + 3 - length h1) with 3 by lia. reflexivity. }
  rewrite (new_instance_spec _ _ _ _ h5 vd (length h1 + 3) _ _ _ _ _ _ _ bm
             (lookup_prefix _ _ _ _ Hp25 Hpr2) (lookup_prefix _ _ _ _ Hp25 Hv2)
             (lookup_prefix _ _ _ _ Hp25 Hq2) (lookup_prefix _ _ _ _ Hp25 Hs2)) in Hinst.
  injection Hinst as <- <-.
  set (h6 := h5 ++ _).
  assert (Hp56 : h5 `prefix_of` h6) by (apply prefix_app_r; reflexivity).
  assert (Hp26 : h2 `prefix_of` h6) by (etrans; eassumption).
  exists h2, (VRef (length h2 + 3)), h3, methods, h4, bm,
    {| l_instance := length h5 + 3; l_prototype := length h1 + 3;
       l_valueOf := length h1; l_equals := length h1 + 1; l_toString := length h1 + 2;
       l_valueOf_bound := length h5; l_equals_bound := length h5 + 1;
       l_toString_bound := length h5 + 2 |}.
  split; [exact Hproto|]. split; [exact Hhandle|].
  split; [exact Hcall|]. split; [exact Hb3|].
  split; [exact Hp01|].
  split; [etrans; [exact Hp12|exact Hp26]|]. split; [reflexivity|]. split.
  - assert (Hfields : own_props h5 vd = own_props h1 vd).
    { apply own_props_prefix; [|exact Hvalid].
      etrans; [exact Hp12|exact Hp25]. }
    split; cbn [l_instance l_prototype l_valueOf l_equals l_toString
                  l_valueOf_bound l_equals_bound l_toString_bound].
    + eapply lookup_prefix; eassumption.
    + eapply lookup_prefix; eassumption.
    + eapply lookup_prefix; eassumption.
    + eapply lookup_prefix; eassumption.
    + unfold h6. rewrite lookup_app_r by lia. rewrite Nat.sub_diag. reflexivity.
    + unfold h6. rewrite lookup_app_r by lia.
      replace (length h5 + 1 - length h5) with 1 by lia. reflexivity.
    + unfold h6. rewrite lookup_app_r by lia.
      replace (length h5 + 2 - length h5) with 2 by lia. reflexivity.
    + unfold h6. rewrite lookup_app_r by lia.
      replace (length h5 + 3 - length h5) with 3 by lia.
      rewrite Hfields. reflexivity.
    + eapply Forall_impl; [exact Hfun|]. intros kv. apply is_function_prefix, Hp56.
    + exact Hnd.
  - split; [intros k; rewrite Hkeys; simpl; unfold keys; tauto|].
    assert (Hlen : length h1 <= length h5).
    { apply prefix_length. etrans; [exact Hp12|exact Hp25]. }
    unfold created. cbn [l_instance l_prototype l_valueOf l_equals l_toString
                           l_valueOf_bound l_equals_bound l_toString_bound].
    split; [|exact Hrefs]. lia.
Qed.


(** ** Calling the methods of an instance *)

Section Calls.
Variable native : nat -> value -> list value -> M value.
Variable JSON_stringify : value -> M string.
Variable to_String : value -> M string.

Abbreviation call_ := (call native JSON_stringify to_String).
Abbreviation invoke_ := (invoke native JSON_stringify to_String).

Lemma call_function (h : heap) fuel l c this args :
  h !! l = Some (function_object c) ->
  call_ (S fuel) (VRef l) this args h =
    match c with
    | CValueOf e => valueOf e this h
    | CEquals e => equals (invoke_ fuel) e this
                          (nth 0 args VUndefined) h
    | CBound target this' => call_ fuel target this' args h
    | _ => call_ (S fuel) (VRef l) this args h
    end.
Proof.
  intros Hl. destruct c; try reflexivity; simpl; rewrite Hl; reflexivity.
Qed.

Lemma assoc_rev_NoDup k (b : list (string * value)) :
  NoDup (map fst b) -> assoc k (rev b) = assoc k b.
Proof.
  intros Hnd. destruct (assoc k b) as [v|] eqn:Hk.
  - apply assoc_elem_of.
    + rewrite map_rev. apply NoDup_ListNoDup, List.NoDup_rev, NoDup_ListNoDup, Hnd.
    + apply list_elem_of_In, in_rev. rewrite rev_involutive.
      apply list_elem_of_In, elem_of_assoc, Hk.
  - apply assoc_None_keys. rewrite map_rev, list_elem_of_In, <- in_rev,
      <- list_elem_of_In. apply assoc_None_keys, Hk.
Qed.

Lemma assoc_merge_NoDup k a b :
  NoDup (map fst b) ->
  assoc k (merge a b) =
    match assoc k b with Some v => Some v | None => assoc k a end.
Proof. intros Hnd. rewrite assoc_merge, assoc_rev_NoDup by exact Hnd. reflexivity. Qed.

(** The instance's own [valueOf] and [equals], when no custom method
    takes their names. *)
Lemma get_instance_standard (h : heap) e fields bm L k :
  instance_at h e fields bm L ->
  assoc k bm = None ->
  get (VRef (l_instance L)) k h =
    (Ok (if String.eqb k "toString" then VRef (l_toString_bound L)
         else if String.eqb k "equals" then VRef (l_equals_bound L)
         else if String.eqb k "valueOf" then VRef (l_valueOf_bound L)
         else match assoc k fields with
              | Some x => x
              | None => if String.eqb k "hasOwnProperty" then VBuiltin BHasOwnProperty
                        else VUndefined
              end), h).
Proof.
  intros I Hk. rewrite (get_object_value _ _ _ _ (at_instance _ _ _ _ _ I)).
  unfold prop_value. cbn [props callable].
  rewrite (assoc_merge_NoDup _ _ _ (at_methods_NoDup _ _ _ _ _ I)), Hk.
  rewrite assoc_standard_methods.
  destruct (String.eqb k "toString"); [reflexivity|].
  destruct (String.eqb k "equals"); [reflexivity|].
  destruct (String.eqb k "valueOf"); [reflexivity|].
  destruct (assoc k fields); [reflexivity|].
  destruct (String.eqb k "hasOwnProperty"); [reflexivity|].
  destruct (String.eqb k "bind"); reflexivity.
Qed.

Lemma invoke_instance_valueOf (h : heap) e fields bm L fuel args :
  instance_at h e fields bm L ->
  assoc "valueOf" bm = None ->
  invoke_ (S (S fuel)) (VRef (l_instance L)) "valueOf" args h =
    valueOf e (VRef (l_prototype L)) h.
Proof.
  intros I Hk. unfold invoke.
  rewrite (bind_ok _ _ _ _ _ (get_instance_standard _ _ _ _ _ _ I Hk)). simpl String.eqb. cbv iota.
  rewrite (call_function _ _ _ _ _ _ (at_valueOf_bound _ _ _ _ _ I)).
  rewrite (call_function _ _ _ _ _ _ (at_valueOf _ _ _ _ _ I)).
  reflexivity.
Qed.

Lemma invoke_instance_equals (h : heap) e fields bm L fuel other :
  instance_at h e fields bm L ->
  assoc "equals" bm = None ->
  invoke_ (S (S (S fuel))) (VRef (l_instance L)) "equals" [other] h =
    equals (invoke_ (S fuel)) e (VRef (l_prototype L)) other h.
Proof.
  intros I Hk. unfold invoke at 1.
  rewrite (bind_ok _ _ _ _ _ (get_instance_standard _ _ _ _ _ _ I Hk)). simpl String.eqb. cbv iota.
  rewrite (call_function _ _ _ _ _ _ (at_equals_bound _ _ _ _ _ I)).
  rewrite (call_function _ _ _ _ _ _ (at_equals _ _ _ _ _ I)).
  reflexivity.
Qed.

Lemma invoke_prototype_valueOf (h : heap) e fields bm L fuel args :
  instance_at h e fields bm L ->
  invoke_ (S fuel) (VRef (l_prototype L)) "valueOf" args h =
    valueOf e (VRef (l_prototype L)) h.
Proof.
  intros I. unfold invoke.
  destruct (get_standard_methods _ _ _ _ _ _ _ _ (at_prototype _ _ _ _ _ I)) as (Hv & _).
  rewrite (bind_ok _ _ _ _ _ Hv).
  rewrite (call_function _ _ _ _ _ _ (at_valueOf _ _ _ _ _ I)).
  reflexivity.
Qed.

End Calls.

(** ** Round trip through [valueOf] *)

Lemma prototype_not_instance (h : heap) e1 f1 bm1 L1 e2 f2 bm2 L2 :
  instance_at h e1 f1 bm1 L1 -> instance_at h e2 f2 bm2 L2 ->
  l_prototype L2 <> l_instance L1.
Proof.
  intros I1 I2 Heq.
  pose proof (at_instance _ _ _ _ _ I1) as H1.
  pose proof (at_prototype _ _ _ _ _ I2) as H2.
  rewrite Heq, H1 in H2. discriminate.
Qed.

Lemma strict_eq_refs l1 l2 : l1 <> l2 -> strict_eq (VRef l1) (VRef l2) = false.
Proof. intros Hne. simpl. apply bool_decide_eq_false. congruence. Qed.

Lemma valueOf_primitive e this h :
  env_isPrimitive e = true -> valueOf e this h = (Ok (env_validatedData e), h).
Proof. intros He. unfold valueOf, primitiveValue. rewrite He. reflexivity. Qed.

(** How [equals] goes between two primitive wrappers. *)
Lemma equals_primitive_instances native JSON_stringify to_String fuel (h : heap)
  e1 f1 bm1 L1 e2 f2 bm2 L2 :
  instance_at h e1 f1 bm1 L1 -> instance_at h e2 f2 bm2 L2 ->
  env_isPrimitive e1 = true -> env_isPrimitive e2 = true ->
  assoc "equals" bm2 = None -> assoc "valueOf" bm1 = None ->
  invoke native JSON_stringify to_String (4 + fuel)
         (VRef (l_instance L2)) "equals" [VRef (l_instance L1)] h =
    (Ok (VBool (strict_eq (env_validatedData e2) (env_validatedData e1))), h).
Proof.
  intros I1 I2 P1 P2 Hq Hv.
  change (4 + fuel) with (S (S (S (S fuel)))).
  rewrite (invoke_instance_equals _ _ _ _ _ _ _ _ _ _ I2 Hq).
  unfold equals.
  rewrite (strict_eq_refs _ _ (prototype_not_instance _ _ _ _ _ _ _ _ _ I1 I2)), P2.
  rewrite (bind_ok _ _ _ (env_validatedData e2) h).
  2:{ rewrite (invoke_prototype_valueOf _ _ _ _ _ _ _ _ _ _ I2).
      apply valueOf_primitive, P2. }
  rewrite (bind_ok _ _ _ _ _ (get_instance_standard _ _ _ _ _ _ I1 Hv)).
  simpl String.eqb. cbv iota. simpl truthy. cbv iota.
  rewrite (bind_ok _ _ _ (env_validatedData e1) h).
  2:{ rewrite (invoke_instance_valueOf _ _ _ _ _ _ _ _ _ _ I1 Hv).
      apply valueOf_primitive, P1. }
  reflexivity.
Qed.

(** What the hypotheses on the user's code give about one [create]: the
    instance, with no custom method under a name that is not in [P]. *)
Lemma create_instance_named native JSON_stringify to_String fuel F base
  (P : string -> Prop) data h vd h1 v h' :
  user_code_allocates native JSON_stringify to_String fuel F base ->
  methods_named native JSON_stringify to_String fuel F base P ->
  base `prefix_of` h ->
  parse (schema F) data h = (Ok vd, h1) -> valid h1 vd ->
  create native JSON_stringify to_String fuel F data h = (Ok v, h') ->
  exists boundMethods L,
    h `prefix_of` h1 /\ h1 `prefix_of` h' /\
    v = VRef (l_instance L) /\
    instance_at h' (closure_of F vd) (own_props h1 vd) boundMethods L /\
    created (length h1) boundMethods L /\
    (forall k, ~ P k -> assoc k boundMethods = None).
Proof.
  intros U N Hb Hparse Hvalid Hc.
  destruct (create_shape _ _ _ _ _ _ _ _ _ _ _ _ U Hb Hparse Hvalid Hc)
    as (h2 & t & h3 & m & h4 & bm & L & _ & _ & Hcall & Hb3 & Hp01 & Hp1' & -> & I & Hk
        & Hcr).
  exists bm, L.
  split; [exact Hp01|]. split; [exact Hp1'|].
  split; [reflexivity|]. split; [exact I|]. split; [exact Hcr|].
  intros k HnP. apply Hk. intros Hin. apply HnP. exact (N _ _ _ _ Hb3 Hcall _ Hin).
Qed.

(** C5, amended. Let [v = create(d)] be a primitive wrapper, of a factory
    whose schema and method factory only add objects to the heap and whose
    methods have no [bind] of their own and are not named [valueOf] or
    [equals]; let [p] be what the schema made of [d] (a value of the
    heap). Then [v.valueOf()] is [p]; and whenever [create(p)] returns,
    [create(v.valueOf()).equals(v)] is the boolean [p' === p], where [p']
    is what the schema makes of [p]: [true] exactly when the schema gives
    back for [p] a value strictly equal to it, so never for [NaN] nor for
    an object that [parse] copies. *)
Theorem valueOf_round_trip
  (native : nat -> value -> list value -> M value)
  (JSON_stringify to_String : value -> M string)
  (fuel n : nat) (F : factory) (base : heap) (data : value) (h0 : heap) p ha v h1 :
  isPrimitive F = true ->
  user_code_allocates native JSON_stringify to_String fuel F base ->
  methods_named native JSON_stringify to_String fuel F base
    (fun k => k <> "valueOf" /\ k <> "equals") ->
  base `prefix_of` h0 ->
  parse (schema F) data h0 = (Ok p, ha) -> valid ha p ->
  create native JSON_stringify to_String fuel F data h0 = (Ok v, h1) ->
  invoke native JSON_stringify to_String (2 + n) v "valueOf" [] h1 = (Ok p, h1) /\
  forall p' hb w h2,
    parse (schema F) p h1 = (Ok p', hb) -> valid hb p' ->
    create native JSON_stringify to_String fuel F p h1 = (Ok w, h2) ->
    invoke native JSON_stringify to_String (4 + n) w "equals" [v] h2
      = (Ok (VBool (strict_eq p' p)), h2).
Proof.
  intros HP U Hnames Hb0 Hparse1 Hvalid1 Hc1.
  destruct (create_instance_named _ _ _ _ _ _ _ _ _ _ _ _ _ U Hnames Hb0
              Hparse1 Hvalid1 Hc1)
    as (bm1 & L1 & Hp0a & Hpa1 & -> & I1 & _ & Hn1).
  assert (Hv1 : assoc "valueOf" bm1 = None) by (apply Hn1; tauto).
  split.
  - change (2 + n) with (S (S n)).
    rewrite (invoke_instance_valueOf _ _ _ _ _ _ _ _ _ _ I1 Hv1).
    apply (valueOf_primitive (closure_of F p)), HP.
  - intros p' hb w h2 Hparse2 Hvalid2 Hc2.
    assert (Hb1 : base `prefix_of` h1) by (etrans; [exact Hb0|]; etrans; eassumption).
    destruct (create_instance_named _ _ _ _ _ _ _ _ _ _ _ _ _ U Hnames Hb1
                Hparse2 Hvalid2 Hc2)
      as (bm2 & L2 & Hp1b & Hpb2 & -> & I2 & _ & Hn2).
    assert (Hq2 : assoc "equals" bm2 = None) by (apply Hn2; tauto).
    assert (I1' : instance_at h2 (closure_of F p) (own_props ha p) bm1 L1).
    { eapply instance_at_prefix; [|exact I1]. etrans; eassumption. }
    apply (equals_primitive_instances _ _ _ _ _ _ _ _ _ _ _ _ _ I1' I2 HP HP Hq2 Hv1).
Qed.

(** The user's code of the examples. *)
Lemma Demo_call_methodsFactory fuel t (h : heap) :
  Demo.heap0 `prefix_of` h ->
  Demo.call (S fuel) (VRef 0) VUndefined [t] h = new_object [] h.
Proof.
  intros Hp. unfold Demo.call. simpl.
  rewrite (lookup_prefix _ _ 0 _ Hp eq_refl). reflexivity.
Qed.

(** The factories whose method factory is [() => ({})]: no method to
    name, and nothing but allocation when the schema only allocates. *)
Lemma Demo_empty_methods fuel F (P : string -> Prop) :
  methodsFactory F = VRef 0 ->
  methods_named Demo.native Demo.JSON_stringify Demo.to_String (S fuel)
    F Demo.heap0 P.
Proof.
  intros HF t h methods h' Hp H k Hk. rewrite HF in H.
  fold Demo.call in H. rewrite Demo_call_methodsFactory in H by exact Hp.
  unfold new_object, alloc in H. inversion H; subst. unfold keys in Hk. simpl in Hk.
  rewrite lookup_app_r in Hk by lia. rewrite Nat.sub_diag in Hk. simpl in Hk.
  apply elem_of_nil in Hk. contradiction.
Qed.

Lemma Demo_allocates fuel F :
  methodsFactory F = VRef 0 ->
  (forall data h r h', parse (schema F) data h = (r, h') -> h `prefix_of` h') ->
  user_code_allocates Demo.native Demo.JSON_stringify Demo.to_String (S fuel)
    F Demo.heap0.
Proof.
  intros HF Hparse. split.
  - intros data h r h' _ H. eapply Hparse, H.
  - intros t h r h' Hp H. rewrite HF in H.
    fold Demo.call in H. rewrite Demo_call_methodsFactory in H by exact Hp.
    eapply alloc_prefix, H.
  - intros t h methods h' Hp H k f Hin. rewrite HF in H.
    fold Demo.call in H. rewrite Demo_call_methodsFactory in H by exact Hp.
    unfold new_object, alloc in H. inversion H; subst. simpl in Hin.
    rewrite lookup_app_r in Hin by lia. rewrite Nat.sub_diag in Hin. simpl in Hin.
    apply elem_of_nil in Hin. contradiction.
Qed.

Lemma Demo_number_schema_allocates data (h : heap) r h' :
  parse Demo.number_schema data h = (r, h') -> h `prefix_of` h'.
Proof. simpl. destruct data; intros H; inversion H; reflexivity. Qed.

Lemma Demo_any_schema_allocates data (h : heap) r h' :
  parse Demo.any_schema data h = (r, h') -> h `prefix_of` h'.
Proof. simpl. intros H; inversion H; reflexivity. Qed.

Lemma Demo_amount_schema_allocates data (h : heap) r h' :
  parse Demo.amount_schema data h = (r, h') -> h `prefix_of` h'.
Proof.
  simpl. unfold bind, new_object, alloc.
  destruct (get_own h data "amount") as [[]|];
    intros H; inversion H; subst; try reflexivity.
  apply prefix_app_r. reflexivity.
Qed.

Lemma Demo_pair_schema_allocates data (h : heap) r h' :
  parse Demo.pair_schema data h = (r, h') -> h `prefix_of` h'.
Proof.
  simpl. unfold new_object, alloc.
  destruct (get_own h data "a") as [[]|];
    destruct (get_own h data "b") as [[]|]; intros H; inversion H; subst;
    try reflexivity.
  apply prefix_app_r. reflexivity.
Qed.

Lemma valueOf_round_trip_witness :
  Demo.invoke 2 Demo.prim5 "valueOf" [] Demo.prim5_heap
    = (Ok (VNumber 5), Demo.prim5_heap) /\
  Demo.invoke 4 Demo.prim5' "equals" [Demo.prim5] Demo.prim5_heap'
    = (Ok (VBool true), Demo.prim5_heap').
Proof.
  destruct (valueOf_round_trip Demo.native Demo.JSON_stringify Demo.to_String
              3 0 Demo.AnyPrim Demo.heap0 (VNumber 5) Demo.heap0
              (VNumber 5) Demo.heap0 Demo.prim5 Demo.prim5_heap
              eq_refl (Demo_allocates 2 Demo.AnyPrim eq_refl Demo_any_schema_allocates)
              (Demo_empty_methods 2 Demo.AnyPrim _ eq_refl)
              (reflexivity _) eq_refl I eq_refl) as [Hv Hrt].
  split; [exact Hv|].
  exact (Hrt (VNumber 5) Demo.prim5_heap Demo.prim5' Demo.prim5_heap' eq_refl I eq_refl).
Defined.

(** The round trip fails for a wrapper of [NaN]: [AnyPrim] is
    [valueObject({name: "AnyPrim", schema: z.any(), methodsFactory: () =>
    ({}), overrideIsPrimitive: true})]. *)
Lemma valueOf_round_trip_fails_for_NaN :
  fst ((let* v := Demo.create 3 Demo.AnyPrim VNaN in
        let* p := Demo.invoke 2 v "valueOf" [] in
        let* w := Demo.create 3 Demo.AnyPrim p in
        Demo.invoke 4 w "equals" [v]) Demo.heap0) = Ok (VBool false).
Proof. vm_compute. reflexivity. Qed.

(** ** Membership in the schema of a factory *)

Lemma get_object_ok v k h :
  instanceof_Object v = true -> exists q, get v k h = (Ok q, h).
Proof.
  intros Hv. destruct v; try discriminate; unfold get;
    destruct (get_own h _ k); eauto;
    destruct (String.eqb k "valueOf"); eauto;
    destruct (String.eqb k "hasOwnProperty"); eauto;
    destruct (String.eqb k "bind" && is_function h _); eauto.
Qed.

Lemma valueObjectSchema_check_spec check v h :
  valueObjectSchema_check (Some check) v h =
    if instanceof_Object v && has_equals h v then check v h
    else (Ok (VBool false), h).
Proof.
  unfold valueObjectSchema_check, has_equals.
  destruct (instanceof_Object v) eqn:Hobj; [|reflexivity].
  destruct (get_object_ok v "equals" h Hobj) as [q Hq]. rewrite Hq. simpl fst.
  rewrite (bind_ok _ _ h (is_function h q) h).
  - simpl andb. destruct (is_function h q); reflexivity.
  - unfold bind, typeof_m, ret. rewrite Hq. reflexivity.
Qed.

(** C7, amended. The schema [specificValueObjectSchema(factory)] accepts
    [v] (and then returns [v] itself) if and only if [v] is an object with
    a function [equals] and [factory.create(v.valueOf()).equals(v)]
    returns a truthy value; the test is behavioural throughout, there is
    no type tag to consult. *)
Theorem specific_schema_membership
  (native : nat -> value -> list value -> M value)
  (JSON_stringify to_String : value -> M string)
  (fuel : nat) (F : factory) (h0 : heap) :
  exists s,
    specificValueObjectSchema native JSON_stringify to_String fuel (Some F) h0
      = (Ok s, h0) /\
    forall v h v' h',
      parse s v h = (Ok v', h') <->
      v' = v /\ instanceof_Object v = true /\ has_equals h v = true /\
      exists r,
        recreate_and_compare native JSON_stringify to_String fuel F v h = (Ok r, h')
        /\ truthy r = true.
Proof.
  eexists. split; [reflexivity|].
  intros v h v' h'. simpl parse. unfold bind at 1.
  rewrite valueObjectSchema_check_spec.
  destruct (instanceof_Object v) eqn:Hobj; simpl andb.
  2:{ unfold throw. simpl. split; [discriminate|].
      intros (_ & Hfalse & _). discriminate. }
  destruct (has_equals h v) eqn:Hq.
  2:{ unfold throw. simpl. split; [discriminate|].
      intros (_ & _ & Hfalse & _). discriminate. }
  unfold specific_typeCheck, try_catch.
  destruct (recreate_and_compare native JSON_stringify to_String fuel F v h)
    as [[r|e|] h1] eqn:Hrc.
  - destruct (truthy r) eqn:Ht.
    + unfold ret. split.
      * intros H; inversion H; subst.
        split; [reflexivity|]. split; [reflexivity|]. split; [reflexivity|].
        exists r. split; [reflexivity|exact Ht].
      * intros (-> & _ & _ & r' & Hr & _). inversion Hr; subst. reflexivity.
    + unfold throw. split; [discriminate|].
      intros (_ & _ & _ & r' & Hr & Ht'). inversion Hr; subst. congruence.
  - unfold ret. simpl. unfold throw. split; [discriminate|].
    intros (_ & _ & _ & r' & Hr & _). discriminate.
  - split; [discriminate|]. intros (_ & _ & _ & r' & Hr & _). discriminate.
Qed.

(** The number [5] round-trips through [Num] -- [Num.create(5 .valueOf())
    .equals(5)] is [true] -- and yet the schema of [Num] rejects it, for
    [5] is not an object. *)
Lemma specific_schema_rejects_a_number :
  fst (recreate_and_compare Demo.native Demo.JSON_stringify Demo.to_String
         4 Demo.Num (VNumber 5) Demo.heap0) = Ok (VBool true) /\
  fst ((let* s := specificValueObjectSchema Demo.native Demo.JSON_stringify
                    Demo.to_String 4 (Some Demo.Num) in
        parse s (VNumber 5)) Demo.heap0)
    = Throw (ZodError [{| message := "Expected a ValueObject"; path := [] |}]).
Proof. split; vm_compute; reflexivity. Qed.

(** ** The comparison of [equals], property by property *)

Section Comparison.
Variable native : nat -> value -> list value -> M value.
Variable JSON_stringify : value -> M string.
Variable to_String : value -> M string.

Abbreviation invoke__ := (invoke native JSON_stringify to_String).

Lemma is_data_key_typeof (h : heap) o k :
  bool_decide (typeof h (prop_value o k) <> TFunction) = is_data_key h o k.
Proof.
  unfold is_data_key, is_function.
  destruct (decide (typeof h (prop_value o k) = TFunction)) as [Hf|Hf].
  - rewrite (bool_decide_true _ Hf). apply bool_decide_eq_false. tauto.
  - rewrite (bool_decide_false _ Hf). apply bool_decide_eq_true. exact Hf.
Qed.

Lemma data_props_object (h : heap) l o ks :
  h !! l = Some o ->
  data_props (VRef l) ks h = (Ok (List.filter (is_data_key h o) ks), h).
Proof.
  intros Hl. induction ks as [|k ks IH]; simpl; [reflexivity|].
  rewrite (bind_ok _ _ _ _ _ (get_object_value _ _ _ k Hl)).
  unfold typeof_m at 1. unfold bind at 1.
  rewrite (bind_ok _ _ _ _ _ IH).
  rewrite is_data_key_typeof.
  destruct (is_data_key h o k); reflexivity.
Qed.

Lemma getOwnPropertyNames_object (h : heap) l o :
  h !! l = Some o -> getOwnPropertyNames (VRef l) h = (Ok (map fst (props o)), h).
Proof. intros Hl. unfold getOwnPropertyNames, keys, own_props. rewrite Hl. reflexivity. Qed.

Lemma invoke_hasOwnProperty (h : heap) fuel l o k :
  h !! l = Some o -> assoc "hasOwnProperty" (props o) = None ->
  invoke__ (S fuel) (VRef l) "hasOwnProperty" [VString k] h =
    (Ok (VBool (bool_decide (is_Some (assoc k (props o))))), h).
Proof.
  intros Hl Hn. unfold invoke.
  rewrite (bind_ok _ _ _ _ _ (get_object_value _ _ _ _ Hl)).
  unfold prop_value. rewrite Hn. simpl. unfold get_own, own_props.
  rewrite Hl. reflexivity.
Qed.

Lemma equals_loop_objects (h : heap) fuel lp op lx ox ks :
  h !! lp = Some op -> h !! lx = Some ox ->
  assoc "hasOwnProperty" (props ox) = None ->
  equals_loop (invoke__ (S fuel)) (VRef lp) (VRef lx) ks h =
    (Ok (VBool (forallb (fun k => bool_decide (is_Some (assoc k (props ox)))
                                  && strict_eq (prop_value op k) (prop_value ox k))
                        ks)), h).
Proof.
  intros Hp Hx Hn. induction ks as [|k ks IH]; simpl; [reflexivity|].
  rewrite (bind_ok _ _ _ _ _ (invoke_hasOwnProperty _ _ _ _ k Hx Hn)).
  simpl truthy. destruct (bool_decide (is_Some (assoc k (props ox)))); simpl; [|reflexivity].
  rewrite (bind_ok _ _ _ _ _ (get_object_value _ _ _ k Hp)).
  rewrite (bind_ok _ _ _ _ _ (get_object_value _ _ _ k Hx)).
  destruct (strict_eq (prop_value op k) (prop_value ox k)); simpl; [exact IH|reflexivity].
Qed.

(** [equals] of a composite value object, applied to another object. *)
Lemma equals_composite (h : heap) fuel e lp op lx ox :
  env_isPrimitive e = false ->
  h !! lp = Some op -> h !! lx = Some ox ->
  assoc "hasOwnProperty" (props ox) = None ->
  equals (invoke__ (S fuel)) e (VRef lp) (VRef lx) h =
    (Ok (VBool (bool_decide (lp = lx) || props_equal h op ox)), h).
Proof.
  intros He Hp Hx Hn. unfold equals.
  destruct (decide (lp = lx)) as [->|Hne].
  - unfold strict_eq. rewrite !bool_decide_true by reflexivity. reflexivity.
  - rewrite (strict_eq_refs _ _ Hne).
    rewrite (bool_decide_false (lp = lx)) by exact Hne.
    rewrite He. simpl orb.
    rewrite (bind_ok _ _ _ _ _ (getOwnPropertyNames_object _ _ _ Hp)).
    rewrite (bind_ok _ _ _ _ _ (getOwnPropertyNames_object _ _ _ Hx)).
    rewrite (bind_ok _ _ _ _ _ (data_props_object _ _ _ _ Hp)).
    rewrite (bind_ok _ _ _ _ _ (data_props_object _ _ _ _ Hx)).
    unfold props_equal. fold (data_keys h op). fold (data_keys h ox).
    destruct (length (data_keys h op) =? length (data_keys h ox))%nat;
      cbn [negb andb].
    + apply equals_loop_objects; assumption.
    + reflexivity.
Qed.

End Comparison.

(** ** When the comparison succeeds *)

Lemma strict_eq_true a b : strict_eq a b = true -> a = b.
Proof.
  unfold strict_eq. destruct a, b; try discriminate;
    intros H; apply bool_decide_eq_true in H; exact H.
Qed.

Lemma elem_of_data_keys (h : heap) o k :
  k ∈ data_keys h o <->
  exists x, assoc k (props o) = Some x /\ is_function h x = false.
Proof.
  unfold data_keys. rewrite list_elem_of_In, filter_In, <- list_elem_of_In.
  rewrite <- assoc_Some_keys. unfold is_data_key, prop_value. split.
  - intros [[x Hx] Hd]. rewrite Hx in Hd. exists x. split; [exact Hx|].
    apply negb_true_iff, Hd.
  - intros (x & Hx & Hf). rewrite Hx. split; [eauto|]. apply negb_true_iff, Hf.
Qed.

Lemma NoDup_data_keys (h : heap) o :
  NoDup (map fst (props o)) -> NoDup (data_keys h o).
Proof.
  intros Hnd. apply NoDup_ListNoDup, List.NoDup_filter, NoDup_ListNoDup, Hnd.
Qed.

Lemma props_equal_iff (h : heap) op ox :
  NoDup (map fst (props op)) -> NoDup (map fst (props ox)) ->
  props_equal h op ox = true <-> fields_match h (props op) (props ox).
Proof.
  intros Hnp Hnx. unfold props_equal.
  rewrite andb_true_iff, Nat.eqb_eq, forallb_forall. split.
  - intros [Hlen Hall].
    assert (H1 : forall k x, assoc k (props op) = Some x -> is_function h x = false ->
                 exists y, assoc k (props ox) = Some y /\ is_function h y = false /\
                           strict_eq x y = true).
    { intros k x Hx Hf.
      assert (Hin : k ∈ data_keys h op) by (apply elem_of_data_keys; eauto).
      apply list_elem_of_In, Hall, andb_true_iff in Hin as [Hs Heq].
      apply bool_decide_eq_true in Hs as [y Hy].
      unfold prop_value in Heq. rewrite Hx, Hy in Heq.
      exists y. split; [exact Hy|]. split; [|exact Heq].
      apply strict_eq_true in Heq. subst y. exact Hf. }
    split; [exact H1|].
    intros k y Hy Hf.
    assert (Hperm : data_keys h op ≡ₚ data_keys h ox).
    { apply submseteq_length_Permutation; [|lia].
      apply NoDup_submseteq; [apply NoDup_data_keys, Hnp|].
      intros k' Hk'. apply elem_of_data_keys in Hk' as (x & Hx & Hfx).
      destruct (H1 _ _ Hx Hfx) as (y' & Hy' & Hfy' & _).
      apply elem_of_data_keys. eauto. }
    assert (Hin : k ∈ data_keys h ox) by (apply elem_of_data_keys; eauto).
    rewrite <- Hperm in Hin. apply elem_of_data_keys in Hin. exact Hin.
  - intros [H1 H2]. split.
    + apply Permutation_length, NoDup_Permutation;
        [apply NoDup_data_keys, Hnp|apply NoDup_data_keys, Hnx|].
      intros k. rewrite !elem_of_data_keys. split.
      * intros (x & Hx & Hf). destruct (H1 _ _ Hx Hf) as (y & Hy & Hfy & _). eauto.
      * intros (y & Hy & Hf). apply (H2 _ _ Hy Hf).
    + intros k Hin. apply list_elem_of_In, elem_of_data_keys in Hin as (x & Hx & Hf).
      destruct (H1 _ _ Hx Hf) as (y & Hy & Hfy & Heq).
      unfold prop_value. rewrite Hx, Hy, Heq.
      rewrite bool_decide_true by eauto. reflexivity.
Qed.

(** ** The data an instance shows *)

Lemma is_function_object (h : heap) l c :
  h !! l = Some (function_object c) -> is_function h (VRef l) = true.
Proof.
  intros Hl. unfold is_function, typeof, code_of. rewrite Hl. reflexivity.
Qed.

Lemma assoc_data_fields k ps :
  assoc k (data_fields ps) = if is_standard_name k then None else assoc k ps.
Proof.
  unfold data_fields. induction ps as [|[k' v] ps IH]; simpl.
  - destruct (is_standard_name k); reflexivity.
  - destruct (is_standard_name k') eqn:Hs'; simpl.
    + rewrite IH. destruct (String.eqb_spec k k') as [->|Hne]; [rewrite Hs'|];
        reflexivity.
    + destruct (String.eqb_spec k k') as [->|Hne].
      * rewrite Hs'. reflexivity.
      * exact IH.
Qed.

(** The standard methods hide the fields of their names, and no other. *)
Lemma data_view_standard (h : heap) fields a b c k x :
  is_function h a = true -> is_function h b = true -> is_function h c = true ->
  (assoc k (merge fields (standard_methods a b c)) = Some x /\ is_function h x = false)
  <-> (assoc k (data_fields fields) = Some x /\ is_function h x = false).
Proof.
  intros Ha Hb Hc. rewrite assoc_standard_methods, assoc_data_fields.
  unfold is_standard_name.
  destruct (String.eqb_spec k "toString") as [->|_].
  { simpl. split; intros [H1 H2]; [|discriminate]. inversion H1; congruence. }
  destruct (String.eqb_spec k "equals") as [->|_].
  { simpl. split; intros [H1 H2]; [|discriminate]. inversion H1; congruence. }
  destruct (String.eqb_spec k "valueOf") as [->|_].
  { simpl. split; intros [H1 H2]; [|discriminate]. inversion H1; congruence. }
  reflexivity.
Qed.

Lemma data_view_prototype (h : heap) e fields bm L k x :
  instance_at h e fields bm L ->
  (assoc k (merge fields
              (standard_methods (VRef (l_valueOf L)) (VRef (l_equals L))
                                (VRef (l_toString L)))) = Some x
   /\ is_function h x = false)
  <-> (assoc k (data_fields fields) = Some x /\ is_function h x = false).
Proof.
  intros I. apply data_view_standard; eapply is_function_object; apply I.
Qed.

(** In the instance the custom methods hide the fields of their names as
    well: when there is no such field, the instance shows the same data as
    the prototype. *)
Lemma data_view_instance (h : heap) e fields bm L k x :
  instance_at h e fields bm L ->
  (forall k', is_Some (assoc k' fields) -> assoc k' bm = None) ->
  (assoc k (merge (merge fields
                     (standard_methods (VRef (l_valueOf_bound L))
                                       (VRef (l_equals_bound L))
                                       (VRef (l_toString_bound L)))) bm) = Some x
   /\ is_function h x = false)
  <-> (assoc k (data_fields fields) = Some x /\ is_function h x = false).
Proof.
  intros I Hsh. rewrite (assoc_merge_NoDup _ _ _ (at_methods_NoDup _ _ _ _ _ I)).
  destruct (assoc k bm) as [m|] eqn:Hm.
  - assert (Hf : is_function h m = true).
    { pose proof (at_methods _ _ _ _ _ I) as Hall.
      rewrite Forall_forall in Hall. apply (Hall (k, m)), elem_of_assoc, Hm. }
    split; intros [H1 H2].
    + inversion H1; congruence.
    + rewrite assoc_data_fields in H1.
      destruct (is_standard_name k); [discriminate|].
      rewrite Hsh in Hm by eauto. discriminate.
  - apply data_view_standard; eapply is_function_object; apply I.
Qed.

Lemma fields_match_ext (h : heap) ps ps' qs qs' :
  (forall k x, (assoc k ps = Some x /\ is_function h x = false)
               <-> (assoc k ps' = Some x /\ is_function h x = false)) ->
  (forall k x, (assoc k qs = Some x /\ is_function h x = false)
               <-> (assoc k qs' = Some x /\ is_function h x = false)) ->
  fields_match h ps qs -> fields_match h ps' qs'.
Proof.
  intros Hp Hq [H1 H2]. split.
  - intros k x Hx Hf. destruct (proj2 (Hp k x) (conj Hx Hf)) as [Hx' _].
    destruct (H1 _ _ Hx' Hf) as (y & Hy & Hfy & Heq).
    destruct (proj1 (Hq k y) (conj Hy Hfy)) as [Hy' _]. eauto.
  - intros k y Hy Hf. destruct (proj2 (Hq k y) (conj Hy Hf)) as [Hy' _].
    destruct (H2 _ _ Hy' Hf) as (x & Hx & Hfx).
    destruct (proj1 (Hp k x) (conj Hx Hfx)) as [Hx' _]. eauto.
Qed.

Lemma fields_match_refl (h : heap) ps :
  (forall k, assoc k ps <> Some VNaN) -> fields_match h ps ps.
Proof.
  intros Hnan. split.
  - intros k x Hx Hf. exists x. split; [exact Hx|]. split; [exact Hf|].
    destruct x;
      first [ exfalso; apply (Hnan k), Hx
            | unfold strict_eq; apply bool_decide_eq_true; reflexivity ].
  - intros k y Hy Hf. eauto.
Qed.

Lemma fields_match_self (h : heap) ps :
  fields_match h ps ps <-> forall k, assoc k ps <> Some VNaN.
Proof.
  split; [|apply fields_match_refl].
  intros [H1 _] k Hk. destruct (H1 k VNaN Hk eq_refl) as (y & _ & _ & Heq).
  discriminate.
Qed.

(** ** Equality of a composite value object with another object *)

Lemma equals_instance_object native JSON_stringify to_String n (h : heap)
  e fields bm L lx ox :
  instance_at h e fields bm L ->
  env_isPrimitive e = false ->
  assoc "equals" bm = None ->
  NoDup (map fst fields) ->
  h !! lx = Some ox ->
  NoDup (map fst (props ox)) ->
  assoc "hasOwnProperty" (props ox) = None ->
  exists b,
    invoke native JSON_stringify to_String (3 + n)
           (VRef (l_instance L)) "equals" [VRef lx] h = (Ok (VBool b), h) /\
    (b = true <->
     lx = l_prototype L \/ fields_match h (data_fields fields) (props ox)).
Proof.
  intros I He Hq Hnd Hx Hndx Hhas.
  change (3 + n) with (S (S (S n))).
  rewrite (invoke_instance_equals _ _ _ _ _ _ _ _ _ _ I Hq).
  rewrite (equals_composite _ _ _ _ _ _ _ _ _ _ He (at_prototype _ _ _ _ _ I) Hx Hhas).
  eexists. split; [reflexivity|].
  set (op := {| props := merge fields _; frozen := false; callable := None |}).
  assert (Hndp : NoDup (map fst (props op))) by (apply NoDup_keys_merge, Hnd).
  assert (Hview : forall k x,
             (assoc k (props op) = Some x /\ is_function h x = false)
             <-> (assoc k (data_fields fields) = Some x /\ is_function h x = false)).
  { intros k x. apply (data_view_prototype _ _ _ _ _ _ _ I). }
  rewrite orb_true_iff, bool_decide_eq_true, (props_equal_iff _ _ _ Hndp Hndx).
  split; (intros [Heq|Hm]; [left; auto|right]);
    (eapply fields_match_ext; [| |exact Hm]); try reflexivity;
    intros k x; [|symmetry]; apply Hview.
Qed.

(** ** Value equality *)

(** C1, amended. Let the schema of the factory and its method factory only
    add objects to the heap, let the methods it returns have no [bind] of
    their own and none of the names [equals], [valueOf], [hasOwnProperty],
    nor the name of a field of the validated data of [d2], and let that
    validated data have no field named [hasOwnProperty] (the validated
    data being values of the heap, with distinct keys). Then
    [create(d1).equals(create(d2))] returns a boolean, which is [true]
    exactly when the validated data of [d1] and [d2] are strictly equal
    (primitive wrappers), or when their fields that are not functions,
    those named [valueOf], [equals] and [toString] left out, have the same
    names and strictly equal values (composite objects). So
    [create(d).equals(create(d))] is [true] when the two validations of
    [d] give the same fields and none of those compared is [NaN], and
    [create(d1).equals(create(d2))] is [false] when the validated data
    differ in such a field. *)
Theorem value_equality
  (native : nat -> value -> list value -> M value)
  (JSON_stringify to_String : value -> M string)
  (fuel n : nat) (F : factory) (base : heap)
  (d1 d2 : value) (h0 : heap) v1 h1 v2 h2 validated1 ha validated2 hb :
  user_code_allocates native JSON_stringify to_String fuel F base ->
  methods_named native JSON_stringify to_String fuel F base
    (fun k => k <> "equals" /\ k <> "valueOf" /\ k <> "hasOwnProperty"
              /\ k ∉ keys hb validated2) ->
  base `prefix_of` h0 ->
  parse (schema F) d1 h0 = (Ok validated1, ha) ->
  valid ha validated1 -> NoDup (keys ha validated1) ->
  create native JSON_stringify to_String fuel F d1 h0 = (Ok v1, h1) ->
  parse (schema F) d2 h1 = (Ok validated2, hb) ->
  valid hb validated2 -> NoDup (keys hb validated2) ->
  "hasOwnProperty" ∉ keys hb validated2 ->
  create native JSON_stringify to_String fuel F d2 h1 = (Ok v2, h2) ->
  exists b,
    invoke native JSON_stringify to_String (4 + n) v1 "equals" [v2] h2
      = (Ok (VBool b), h2) /\
    (b = true <->
     if isPrimitive F then strict_eq validated1 validated2 = true
     else fields_match h2 (data_fields (own_props ha validated1))
                          (data_fields (own_props hb validated2))) /\
    (isPrimitive F = false ->
     own_props ha validated1 = own_props hb validated2 ->
     (forall k, assoc k (data_fields (own_props ha validated1)) <> Some VNaN) ->
     b = true).
Proof.
  intros U N Hb Hparse1 Hval1 Hnd1 Hc1 Hparse2 Hval2 Hnd2 Hhas2 Hc2.
  destruct (create_shape _ _ _ _ _ _ _ _ _ _ _ _ U Hb Hparse1 Hval1 Hc1)
    as (h2a & t1 & h3 & m1 & h4 & bm1 & L1 & _ & _ & Hcall1 & Hb3 & Hp0a & Hpa1 & -> & I1
        & Hk1 & _).
  assert (Hbase1 : base `prefix_of` h1) by (etrans; [exact Hb|]; etrans; eassumption).
  destruct (create_shape _ _ _ _ _ _ _ _ _ _ _ _ U Hbase1 Hparse2 Hval2 Hc2)
    as (h2b & t2 & h3' & m2 & h4' & bm2 & L2 & _ & _ & Hcall2 & Hb3' & Hp1b & Hpb2 & -> & I2
        & Hk2 & _).
  assert (Hq1 : assoc "equals" bm1 = None).
  { apply Hk1. intros Hin. destruct (N _ _ _ _ Hb3 Hcall1 _ Hin) as (? & _).
    congruence. }
  assert (Hv2 : assoc "valueOf" bm2 = None).
  { apply Hk2. intros Hin. destruct (N _ _ _ _ Hb3' Hcall2 _ Hin) as (_ & ? & _).
    congruence. }
  assert (Hh2 : assoc "hasOwnProperty" bm2 = None).
  { apply Hk2. intros Hin. destruct (N _ _ _ _ Hb3' Hcall2 _ Hin) as (_ & _ & ? & _).
    congruence. }
  assert (Hsh2 : forall k, is_Some (assoc k (own_props hb validated2)) ->
                           assoc k bm2 = None).
  { intros k Hs. apply Hk2. intros Hin.
    destruct (N _ _ _ _ Hb3' Hcall2 _ Hin) as (_ & _ & _ & Hnk).
    apply Hnk. unfold keys. apply assoc_Some_keys, Hs. }
  assert (Hp12 : h1 `prefix_of` h2) by (etrans; eassumption).
  apply (instance_at_prefix _ _ _ _ _ _ Hp12) in I1.
  destruct (isPrimitive F) eqn:HP.
  - exists (strict_eq validated1 validated2).
    split; [|split; [reflexivity|discriminate]].
    apply (equals_primitive_instances _ _ _ _ _ _ _ _ _ _ _ _ _ I2 I1 HP HP Hq1 Hv2).
  - pose proof (at_instance _ _ _ _ _ I2) as Hx.
    set (ox := {| props := merge (merge (own_props hb validated2) _) bm2;
                  frozen := true; callable := None |}) in Hx.
    assert (Hndx : NoDup (map fst (props ox)))
      by (apply NoDup_keys_merge, NoDup_keys_merge, Hnd2).
    assert (Hhas : assoc "hasOwnProperty" (props ox) = None).
    { unfold ox. cbn [props].
      rewrite (assoc_merge_NoDup _ _ _ (at_methods_NoDup _ _ _ _ _ I2)), Hh2.
      rewrite assoc_standard_methods. simpl String.eqb. cbv iota.
      apply assoc_None_keys, Hhas2. }
    destruct (equals_instance_object native JSON_stringify to_String (S n) _ _ _ _ _ _ _
                I1 HP Hq1 Hnd1 Hx Hndx Hhas) as (b & Hinv & Hb').
    assert (Hiff : fields_match h2 (data_fields (own_props ha validated1)) (props ox) <->
                   fields_match h2 (data_fields (own_props ha validated1))
                                   (data_fields (own_props hb validated2))).
    { split; intros Hm; (eapply fields_match_ext; [| |exact Hm]); try reflexivity;
        intros k x; [|symmetry]; apply (data_view_instance _ _ _ _ _ _ _ I2 Hsh2). }
    assert (Hres : b = true <->
                   fields_match h2 (data_fields (own_props ha validated1))
                                   (data_fields (own_props hb validated2))).
    { rewrite Hb', Hiff. split; [|auto].
      intros [Heq|Hm]; [|exact Hm].
      exfalso. symmetry in Heq. revert Heq.
      apply (prototype_not_instance _ _ _ _ _ _ _ _ _ I2 I1). }
    exists b. split; [exact Hinv|]. split; [exact Hres|].
    intros _ Heq Hnan. apply Hres. rewrite <- Heq.
    apply fields_match_refl, Hnan.
Qed.

Lemma value_equality_witness :
  Demo.invoke 4 Demo.any1 "equals" [Demo.any2] Demo.any2_heap
  = (Ok (VBool true), Demo.any2_heap).
Proof.
  assert (Hvalid1 : valid Demo.pair_heap0 (VRef 5)) by (simpl; lia).
  assert (Hvalid2 : valid Demo.any1_heap (VRef 5)) by (simpl; lia).
  assert (Hnd1 : NoDup (keys Demo.pair_heap0 (VRef 5)))
    by (apply (bool_decide_unpack _); vm_compute; exact I).
  assert (Hnd2 : NoDup (keys Demo.any1_heap (VRef 5)))
    by (apply (bool_decide_unpack _); vm_compute; exact I).
  assert (Hhas : "hasOwnProperty" ∉ keys Demo.any1_heap (VRef 5))
    by (apply (bool_decide_unpack _); vm_compute; exact I).
  destruct (value_equality Demo.native Demo.JSON_stringify Demo.to_String
              3 0 Demo.Any Demo.heap0 (VRef 5) (VRef 5) Demo.pair_heap0
              Demo.any1 Demo.any1_heap Demo.any2 Demo.any2_heap
              (VRef 5) Demo.pair_heap0 (VRef 5) Demo.any1_heap
              (Demo_allocates 2 Demo.Any eq_refl Demo_any_schema_allocates)
              (Demo_empty_methods 2 Demo.Any _ eq_refl)
              (prefix_app_r _ _ _ (reflexivity _))
              eq_refl Hvalid1 Hnd1 eq_refl eq_refl Hvalid2 Hnd2 Hhas eq_refl)
    as (b & Hinv & _ & Hsame).
  unfold Demo.invoke. change 4 with (4 + 0). rewrite Hinv.
  rewrite Hsame; [reflexivity|reflexivity|reflexivity|].
  intros k. simpl.
  destruct (String.eqb k "a"); [discriminate|].
  destruct (String.eqb k "b"); discriminate.
Defined.

(** Value equality fails both ways. [Any] is [valueObject({name: "Any",
    schema: z.any(), methodsFactory: () => ({})})]: with [d = {a: NaN}],
    [Any.create(d).equals(Any.create(d))] is [false]. And the schema of
    [Amount] accepts [{amount: 5, note: "x"}] and [{amount: 5, note:
    "y"}], which differ in [note]; the two instances are equal. *)
Lemma value_equality_fails :
  fst ((let* d := new_object [("a", VNaN)] in
        let* v1 := Demo.create 3 Demo.Any d in
        let* v2 := Demo.create 3 Demo.Any d in
        Demo.invoke 4 v1 "equals" [v2]) Demo.heap0) = Ok (VBool false)
  /\ fst ((let* d1 := new_object [("amount", VNumber 5); ("note", VString "x")] in
           let* d2 := new_object [("amount", VNumber 5); ("note", VString "y")] in
           let* v1 := Demo.create 3 Demo.Amount d1 in
           let* v2 := Demo.create 3 Demo.Amount d2 in
           Demo.invoke 4 v1 "equals" [v2]) Demo.heap0) = Ok (VBool true).
Proof. split; vm_compute; reflexivity. Qed.

(** ** Equality with an object of the same data *)

(** C10. The code at [v = Shadow.create({amount: 5})], where [Shadow] is
    [valueObject({name: "Shadow", schema: z.object({amount: z.number()}),
    methodsFactory: () => ({amount() {...}})})]. In the instance the
    method [amount] has the place of the field, so [v] has no own property
    that is not a function, and the empty object [x = {}] matches it
    exactly; yet [v.equals(x)] is [false], and [v.equals({amount: 5})] is
    [true]: [equals] runs bound to the prototype and compares the fields
    of the prototype, not those of [v]. *)
Theorem equals_rejects_a_matching_object :
  exists v x y h,
    (let* d := new_object [("amount", VNumber 5)] in
     let* v := Demo.create 3 Demo.Shadow d in
     let* x := new_object [] in
     let* y := new_object [("amount", VNumber 5)] in
     ret (v, x, y)) Demo.heap0 = (Ok (v, x, y), h) /\
    fields_match h (own_props h v) (own_props h x) /\
    Demo.invoke 3 v "equals" [x] h = (Ok (VBool false), h) /\
    ~ fields_match h (own_props h v) (own_props h y) /\
    Demo.invoke 3 v "equals" [y] h = (Ok (VBool true), h).
Proof.
  eexists _, _, _, _. split; [vm_compute; reflexivity|]. split; [|split; [|split]].
  - split.
    + intros k x Hx Hf. simpl in Hx.
      repeat (destruct (String.eqb k _);
              [inversion Hx; subst; vm_compute in Hf; discriminate|]).
      discriminate.
    + intros k y Hy Hf. simpl in Hy. discriminate.
  - vm_compute. reflexivity.
  - intros [_ H2]. destruct (H2 "amount" (VNumber 5) eq_refl eq_refl) as (x & Hx & Hf).
    vm_compute in Hx. inversion Hx; subst x. vm_compute in Hf. discriminate.
  - vm_compute. reflexivity.
Qed.

(** ** [valueOf] of a composite object *)

(** C4. The first two cases of [valueOf] are as stated; in the third the
    code returns [this], which is the prototype the method was bound to,
    and not the frozen instance the caller holds. Here [v =
    Any.create({a: 1, b: 2})]: [v.valueOf()] is an object different from
    [v], and one that is not frozen. *)
Theorem valueOf_returns_the_prototype :
  exists lv lp h,
    (let* d := new_object [("a", VNumber 1); ("b", VNumber 2)] in
     let* v := Demo.create 3 Demo.Any d in
     let* r := Demo.invoke 2 v "valueOf" [] in
     ret (v, r)) Demo.heap0 = (Ok (VRef lv, VRef lp), h) /\
    lv <> lp /\
    frozen <$> h !! lv = Some true /\
    frozen <$> h !! lp = Some false.
Proof.
  eexists _, _, _. split; [vm_compute; reflexivity|].
  split; [discriminate|]. split; reflexivity.
Qed.

(** The first two cases of [valueOf]: a primitive wrapper gives the
    validated value, a composite object with one field that is not an
    object gives that field. *)
Lemma valueOf_first_cases e this (h : heap) :
  (env_isPrimitive e = true -> valueOf e this h = (Ok (env_validatedData e), h))
  /\ (forall l o k x,
         env_isPrimitive e = false -> env_validatedData e = VRef l ->
         h !! l = Some o -> props o = [(k, x)] -> typeof h x <> TObject ->
         valueOf e this h = (Ok x, h)).
Proof.
  split; [apply valueOf_primitive|].
  intros l o k x He Hvd Hl Hps Ht. unfold valueOf. rewrite He, Hvd.
  unfold Object_keys, Object_entries, bind, ret. simpl. rewrite Hl, Hps. simpl.
  unfold get, get_own. simpl. rewrite Hl, Hps. simpl. rewrite String.eqb_refl.
  unfold typeof_m. rewrite bool_decide_true by exact Ht. reflexivity.
Qed.

(** What [v.valueOf()] returns is the object [equals] reads: a write to
    it -- [v.valueOf().a = 9] -- changes what [v] is equal to. *)
Lemma valueOf_exposes_the_state :
  let before_and_after :=
    (let* d := new_object [("a", VNumber 1); ("b", VNumber 2)] in
     let* v := Demo.create 3 Demo.Any d in
     let* w := Demo.create 3 Demo.Any d in
     let* before := Demo.invoke 4 v "equals" [w] in
     let* p := Demo.invoke 2 v "valueOf" [] in
     let* _ := match p with
               | VRef lp => mutate true (MSet lp "a" (VNumber 9))
               | _ => ret VUndefined
               end in
     let* after := Demo.invoke 4 v "equals" [w] in
     ret (before, after)) in
  fst (before_and_after Demo.heap0) = Ok (VBool true, VBool false).
Proof. vm_compute. reflexivity. Qed.

Lemma specific_schema_membership_witness :
  exists s,
    specificValueObjectSchema Demo.native Demo.JSON_stringify Demo.to_String
      4 (Some Demo.Num) Demo.five_heap = (Ok s, Demo.five_heap) /\
    fst (parse s Demo.five Demo.five_heap) = Ok Demo.five.
Proof.
  destruct (specific_schema_membership Demo.native Demo.JSON_stringify
              Demo.to_String 4 Demo.Num Demo.five_heap) as (s & Hs & Hiff).
  exists s. split; [exact Hs|].
  destruct (recreate_and_compare Demo.native Demo.JSON_stringify Demo.to_String
              4 Demo.Num Demo.five Demo.five_heap) as [r h'] eqn:Hrc.
  assert (Hr : r = Ok (VBool true)).
  { apply (f_equal fst) in Hrc. vm_compute in Hrc. congruence. }
  subst r.
  rewrite (proj2 (Hiff Demo.five Demo.five_heap Demo.five h')); [reflexivity|].
  split; [reflexivity|]. split; [reflexivity|]. split; [reflexivity|].
  exists (VBool true). split; [exact Hrc|reflexivity].
Defined.

(** The third case in general: for every composite value object whose
    validated data is an object that does not have exactly one property,
    and whose [valueOf] is the standard one, [valueOf()] returns the
    prototype, never the instance. *)
Lemma valueOf_otherwise_returns_prototype native JSON_stringify to_String n
  (h : heap) e fields bm L l o :
  instance_at h e fields bm L ->
  assoc "valueOf" bm = None ->
  env_isPrimitive e = false ->
  env_validatedData e = VRef l -> h !! l = Some o -> length (props o) <> 1 ->
  invoke native JSON_stringify to_String (2 + n) (VRef (l_instance L)) "valueOf" [] h
    = (Ok (VRef (l_prototype L)), h)
  /\ l_prototype L <> l_instance L.
Proof.
  intros I Hv He Hvd Hl Hlen. split.
  - change (2 + n) with (S (S n)).
    rewrite (invoke_instance_valueOf _ _ _ _ _ _ _ _ _ _ I Hv).
    unfold valueOf. rewrite He, Hvd.
    unfold Object_keys, Object_entries, bind, ret. simpl. rewrite Hl.
    destruct (props o) as [|kv [|kv' ps]]; simpl in *; try reflexivity.
    contradiction.
  - apply (prototype_not_instance _ _ _ _ _ _ _ _ _ I I).
Qed.

(** * Further properties of the factory *)

(** ** What else [create] throws *)

(** X1. A [ZodError] thrown by the method factory, after the data has passed
    the schema, is caught by the same [catch] as a rejection of the data:
    [create] reports it as a [ValidationError] about the data. *)
Theorem create_wraps_methodsFactory_ZodError
  (native : nat -> value -> list value -> M value)
  (JSON_stringify to_String : value -> M string)
  (fuel : nat) (F : factory) (data : value) (h : heap)
  validatedData h1 prototype h2 tempFactory h3 errors h4 :
  parse (schema F) data h = (Ok validatedData, h1) ->
  new_prototype (closure_of F validatedData) h1 = (Ok prototype, h2) ->
  factory_handle h2 = (Ok tempFactory, h3) ->
  call native JSON_stringify to_String fuel (methodsFactory F) VUndefined
       [tempFactory] h3 = (Throw (ZodError errors), h4) ->
  create native JSON_stringify to_String fuel F data h =
    (Throw (ValidationError
              ("Invalid " +:+ name F +:+ ": " +:+ join ", " (map message errors))
              (ZodError errors) (name F) data), h4).
Proof.
  intros Hp Hproto Hh Hc.
  rewrite (create_of_body_throw _ _ _ _ _ _ _ (ZodError errors) h4); [reflexivity|].
  unfold create_body.
  rewrite (bind_ok _ _ _ _ _ Hp), (bind_ok _ _ _ _ _ Hproto), (bind_ok _ _ _ _ _ Hh).
  apply bind_throw. exact Hc.
Qed.

Lemma create_wraps_methodsFactory_ZodError_witness :
  fst (Demo.create 3 Demo.Inner (VNumber 1) Demo.heap0) =
    Throw (ValidationError "Invalid Inner: inner"
             (ZodError [{| message := "inner"; path := [] |}]) "Inner" (VNumber 1)).
Proof.
  unfold Demo.create.
  rewrite (create_wraps_methodsFactory_ZodError
             Demo.native Demo.JSON_stringify Demo.to_String
             3 Demo.Inner (VNumber 1) Demo.heap0 _ _ _ _ _ _
             [{| message := "inner"; path := [] |}] _
             eq_refl eq_refl eq_refl eq_refl).
  reflexivity.
Defined.





(** But a method that has a [bind] of its own is taken, whatever it is:
    its [bind] is called, and what that answers becomes the property of
    the instance. Here the method is [{bind() { return 5 }}], and [v.m]
    is [5]. *)
Example create_keeps_what_bind_answers :
  exists v h,
    Demo.create 3 Demo.OwnBind (VNumber 1) Demo.heap_own_bind = (Ok v, h) /\
    get v "m" h = (Ok (VNumber 5), h).
Proof. eexists _, _. split; vm_compute; reflexivity. Qed.

(** The handle given to the method factory is the object [{create,
    schema, extend}]: a method factory that returns it makes [create]
    fail, for the schema has no [bind]. *)
Example create_rejects_the_handle_as_methods :
  fst (Demo.create 3 Demo.HandleMethods (VNumber 1) Demo.heap_handle)
  = Throw TypeError.
Proof. vm_compute. reflexivity. Qed.

(** ** The schemas of value objects *)

Lemma valueObjectSchema_check_None v (h : heap) :
  valueObjectSchema_check None v h =
    (Ok (VBool (instanceof_Object v && has_equals h v)), h).
Proof.
  unfold valueObjectSchema_check, has_equals.
  destruct (instanceof_Object v) eqn:Hobj; [|reflexivity].
  destruct (get_object_ok v "equals" h Hobj) as [q Hq]. rewrite Hq. simpl fst.
  rewrite (bind_ok _ _ h (is_function h q) h); [reflexivity|].
  unfold bind, typeof_m, ret. rewrite Hq. reflexivity.
Qed.

Lemma instance_has_equals (h : heap) e fields bm L :
  instance_at h e fields bm L -> has_equals h (VRef (l_instance L)) = true.
Proof.
  intros I. unfold has_equals.
  rewrite (get_object_value _ _ _ _ (at_instance _ _ _ _ _ I)).
  unfold prop_value. cbn [props fst].
  rewrite (assoc_merge_NoDup _ _ _ (at_methods_NoDup _ _ _ _ _ I)).
  destruct (assoc "equals" bm) as [m|] eqn:Hm.
  - pose proof (at_methods _ _ _ _ _ I) as Hall.
    rewrite Forall_forall in Hall. apply (Hall ("equals", m)), elem_of_assoc, Hm.
  - rewrite assoc_standard_methods. simpl String.eqb. cbv iota.
    eapply is_function_object. apply I.
Qed.

(** X18. A value object passes the schema [valueObjectSchema()], whatever
    its factory and the names of its custom methods -- [equals] included,
    which is then the custom one --, provided the schema of the factory
    and its method factory only add objects to the heap and the methods
    have no [bind] of their own, so that each is bound as a function
    is. *)
Theorem generic_schema_accepts_instances
  (native : nat -> value -> list value -> M value)
  (JSON_stringify to_String : value -> M string)
  (fuel : nat) (F : factory) (base : heap) (data : value) (h : heap)
  validatedData h1 v h' (typeName : option string) :
  user_code_allocates native JSON_stringify to_String fuel F base ->
  base `prefix_of` h ->
  parse (schema F) data h = (Ok validatedData, h1) -> valid h1 validatedData ->
  create native JSON_stringify to_String fuel F data h = (Ok v, h') ->
  parse (valueObjectSchema typeName None) v h' = (Ok v, h').
Proof.
  intros U Hb Hparse Hvalid Hc.
  destruct (create_shape _ _ _ _ _ _ _ _ _ _ _ _ U Hb Hparse Hvalid Hc)
    as (h2 & t & h3 & m & h4 & bm & L & _ & _ & _ & _ & _ & _ & -> & I & _ & _).
  simpl parse. unfold bind. rewrite valueObjectSchema_check_None.
  rewrite (instance_has_equals _ _ _ _ _ I). reflexivity.
Qed.

Lemma generic_schema_accepts_instances_witness :
  parse (valueObjectSchema None None) Demo.any1 Demo.any1_heap
  = (Ok Demo.any1, Demo.any1_heap).
Proof.
  apply (generic_schema_accepts_instances
           Demo.native Demo.JSON_stringify Demo.to_String
           3 Demo.Any Demo.heap0 (VRef 5) Demo.pair_heap0
           (VRef 5) Demo.pair_heap0 Demo.any1 Demo.any1_heap None
           (Demo_allocates 2 Demo.Any eq_refl Demo_any_schema_allocates)).
  - apply prefix_app_r. reflexivity.
  - reflexivity.
  - simpl. lia.
  - reflexivity.
Defined.

(** X19. [specificValueObjectSchema] throws its configuration error when it is
    not given a factory; the schema it makes for a factory throws nothing
    but the [ZodError] with the one issue [Expected a ValueObject]:
    whatever [valueOf], [create] or [equals] throw during the test is
    caught and counts as a mismatch. *)
Theorem specific_schema_only_throws_ZodError
  (native : nat -> value -> list value -> M value)
  (JSON_stringify to_String : value -> M string)
  (fuel : nat) (F : factory) (h0 : heap) s h0' v (h : heap) e h' :
  specificValueObjectSchema native JSON_stringify to_String fuel (Some F) h0
    = (Ok s, h0') ->
  parse s v h = (Throw e, h') ->
  e = ZodError [{| message := "Expected a ValueObject"; path := [] |}]
  /\ specificValueObjectSchema native JSON_stringify to_String fuel None h0
     = (Throw (Error "Invalid value object factory provided"), h0).
Proof.
  intros Hs Hp. split; [|reflexivity].
  unfold specificValueObjectSchema, ret in Hs. inversion Hs; subst s h0'. clear Hs.
  simpl parse in Hp. unfold bind at 1 in Hp.
  rewrite valueObjectSchema_check_spec in Hp.
  destruct (instanceof_Object v && has_equals h v).
  - unfold specific_typeCheck, try_catch in Hp.
    destruct (recreate_and_compare native JSON_stringify to_String fuel F v h)
      as [[r|e0|] h1].
    + destruct (truthy r); unfold ret, throw in Hp; inversion Hp; reflexivity.
    + unfold ret in Hp. simpl in Hp. unfold throw in Hp. inversion Hp; reflexivity.
    + discriminate.
  - simpl in Hp. unfold throw in Hp. inversion Hp; reflexivity.
Qed.

Lemma specific_schema_only_throws_ZodError_witness :
  fst (parse (valueObjectSchema (Some "ValueObject")
                (Some (specific_typeCheck Demo.native Demo.JSON_stringify
                         Demo.to_String 4 Demo.Num)))
             (VString "five") Demo.heap0)
  = Throw (ZodError [{| message := "Expected a ValueObject"; path := [] |}]).
Proof.
  destruct (parse _ (VString "five") Demo.heap0) as [r h'] eqn:Hp.
  assert (Hr : exists e, r = Throw e).
  { apply (f_equal fst) in Hp. vm_compute in Hp. eauto. }
  destruct Hr as [e ->].
  destruct (specific_schema_only_throws_ZodError
              Demo.native Demo.JSON_stringify Demo.to_String 4 Demo.Num
              Demo.heap0 _ _ (VString "five") Demo.heap0 e h' eq_refl Hp) as [-> _].
  reflexivity.
Defined.

(** ** More on [equals] *)

Lemma invoke_instance_equals_args native JSON_stringify to_String
  (h : heap) e fields bm L fuel args :
  instance_at h e fields bm L ->
  assoc "equals" bm = None ->
  invoke native JSON_stringify to_String (S (S (S fuel)))
         (VRef (l_instance L)) "equals" args h =
    equals (invoke native JSON_stringify to_String (S fuel)) e
           (VRef (l_prototype L)) (nth 0 args VUndefined) h.
Proof.
  intros I Hk. unfold invoke at 1.
  rewrite (bind_ok _ _ _ _ _ (get_instance_standard _ _ _ _ _ _ I Hk)).
  simpl String.eqb. cbv iota.
  rewrite (call_function _ _ _ _ _ _ _ _ _ (at_equals_bound _ _ _ _ _ I)).
  rewrite (call_function _ _ _ _ _ _ _ _ _ (at_equals _ _ _ _ _ I)).
  reflexivity.
Qed.

(** X8. A value object whose [equals] is the standard one -- no custom
    method has that name -- is equal to neither [null] nor [undefined],
    nor to nothing at all ([v.equals()]); this for a factory whose schema
    and method factory only add objects to the heap and whose methods
    have no [bind] of their own, and as long as the heap has only
    grown. *)
Theorem equals_nullish_is_false
  (native : nat -> value -> list value -> M value)
  (JSON_stringify to_String : value -> M string)
  (fuel n : nat) (F : factory) (base : heap) (data : value) (h0 : heap)
  validatedData ha v h1 (h : heap) :
  user_code_allocates native JSON_stringify to_String fuel F base ->
  methods_named native JSON_stringify to_String fuel F base (fun k => k <> "equals") ->
  base `prefix_of` h0 ->
  parse (schema F) data h0 = (Ok validatedData, ha) -> valid ha validatedData ->
  create native JSON_stringify to_String fuel F data h0 = (Ok v, h1) ->
  h1 `prefix_of` h ->
  invoke native JSON_stringify to_String (3 + n) v "equals" [VNull] h
    = (Ok (VBool false), h)
  /\ invoke native JSON_stringify to_String (3 + n) v "equals" [VUndefined] h
     = (Ok (VBool false), h)
  /\ invoke native JSON_stringify to_String (3 + n) v "equals" [] h
     = (Ok (VBool false), h).
Proof.
  intros U N Hb Hparse Hvalid Hc Hp.
  destruct (create_instance_named _ _ _ _ _ _ _ _ _ _ _ _ _ U N Hb Hparse Hvalid Hc)
    as (bm & L & _ & _ & -> & I & _ & Hnone).
  apply (instance_at_prefix _ _ _ _ _ _ Hp) in I.
  assert (Hq : assoc "equals" bm = None) by (apply Hnone; intros Hne; apply Hne; reflexivity).
  change (3 + n) with (S (S (S n))).
  rewrite !(invoke_instance_equals_args _ _ _ _ _ _ _ _ _ _ I Hq).
  repeat split; reflexivity.
Qed.

Lemma equals_nullish_is_false_witness :
  Demo.invoke 3 Demo.any1 "equals" [VNull] Demo.any1_heap
  = (Ok (VBool false), Demo.any1_heap).
Proof.
  apply (equals_nullish_is_false Demo.native Demo.JSON_stringify Demo.to_String
           3 0 Demo.Any Demo.heap0 (VRef 5) Demo.pair_heap0
           (VRef 5) Demo.pair_heap0 Demo.any1 Demo.any1_heap Demo.any1_heap
           (Demo_allocates 2 Demo.Any eq_refl Demo_any_schema_allocates)
           (Demo_empty_methods 2 Demo.Any _ eq_refl)).
  - apply prefix_app_r. reflexivity.
  - reflexivity.
  - simpl. lia.
  - reflexivity.
  - reflexivity.
Defined.

Lemma pretty_N_go_not_v x : forall s s',
  s <> "v" +:+ s' -> pretty_N_go x s <> "v" +:+ s'.
Proof.
  induction (N.lt_wf_0 x) as [x _ IH]; intros s s' Hs.
  destruct (decide (0 < x)%N) as [Hx|Hx].
  - rewrite pretty_N_go_step by exact Hx. apply IH.
    + apply N.div_lt; [exact Hx|reflexivity].
    + unfold pretty_N_char. repeat case_match; discriminate.
  - replace x with 0%N by lia. rewrite pretty_N_go_0. exact Hs.
Qed.

Lemma pretty_nat_not_valueOf (i : nat) : pretty i <> "valueOf".
Proof.
  unfold pretty, pretty_nat, pretty, pretty_N.
  destruct (decide (N.of_nat i = 0%N)); [discriminate|].
  apply (pretty_N_go_not_v _ "" "alueOf"). discriminate.
Qed.

Lemma string_props_no_valueOf s : forall i, assoc "valueOf" (string_props i s) = None.
Proof.
  induction s as [|c s IH]; intros i; cbn [string_props assoc]; [reflexivity|].
  destruct (String.eqb_spec "valueOf" (pretty i)) as [Heq|_]; [|apply IH].
  exfalso. apply (pretty_nat_not_valueOf i). auto.
Qed.

(** [x.valueOf()] of a primitive is the primitive. *)
Lemma invoke_primitive_valueOf native JSON_stringify to_String fuel x (h : heap) :
  is_primitive_value x = true ->
  get x "valueOf" h = (Ok (VBuiltin BValueOf), h) /\
  invoke native JSON_stringify to_String (S fuel) x "valueOf" [] h = (Ok x, h).
Proof.
  intros Hx.
  assert (Hg : get x "valueOf" h = (Ok (VBuiltin BValueOf), h)).
  { destruct x; try discriminate; try reflexivity.
    unfold get, get_own. simpl. rewrite string_props_no_valueOf. reflexivity. }
  split; [exact Hg|]. unfold invoke. rewrite (bind_ok _ _ _ _ _ Hg).
  destruct x; try discriminate; reflexivity.
Qed.

(** X11. A primitive wrapper whose [equals] is the standard one -- no
    custom method has that name -- is equal to the bare primitive it
    wraps: for a boolean, number or string [x], [v.equals(x)] is [p ===
    x], where [p] is the validated value of [v]. This for a factory whose
    schema and method factory only add objects to the heap and whose
    methods have no [bind] of their own, and as long as the heap has only
    grown. *)
Theorem primitive_wrapper_equals_primitive
  (native : nat -> value -> list value -> M value)
  (JSON_stringify to_String : value -> M string)
  (fuel n : nat) (F : factory) (base : heap) (data : value) (h0 : heap)
  p ha v h1 (h : heap) (x : value) :
  isPrimitive F = true ->
  user_code_allocates native JSON_stringify to_String fuel F base ->
  methods_named native JSON_stringify to_String fuel F base (fun k => k <> "equals") ->
  base `prefix_of` h0 ->
  parse (schema F) data h0 = (Ok p, ha) -> valid ha p ->
  create native JSON_stringify to_String fuel F data h0 = (Ok v, h1) ->
  h1 `prefix_of` h ->
  is_primitive_value x = true ->
  invoke native JSON_stringify to_String (3 + n) v "equals" [x] h
    = (Ok (VBool (strict_eq p x)), h).
Proof.
  intros HP U N Hb Hparse Hvalid Hc Hp Hx.
  destruct (create_instance_named _ _ _ _ _ _ _ _ _ _ _ _ _ U N Hb Hparse Hvalid Hc)
    as (bm & L & _ & _ & -> & I & _ & Hnone).
  apply (instance_at_prefix _ _ _ _ _ _ Hp) in I.
  assert (Hq : assoc "equals" bm = None) by (apply Hnone; intros Hne; apply Hne; reflexivity).
  change (3 + n) with (S (S (S n))).
  rewrite (invoke_instance_equals_args _ _ _ _ _ _ _ _ _ _ I Hq). simpl nth.
  destruct (invoke_primitive_valueOf native JSON_stringify to_String n x h Hx)
    as [Hg Hi].
  assert (Hne : strict_eq (VRef (l_prototype L)) x = false).
  { destruct x; try discriminate; try reflexivity;
      unfold strict_eq; apply bool_decide_eq_false; discriminate. }
  assert (Hthis : invoke native JSON_stringify to_String (S n)
                    (VRef (l_prototype L)) "valueOf" [] h = (Ok p, h)).
  { rewrite (invoke_prototype_valueOf _ _ _ _ _ _ _ _ _ _ I).
    apply (valueOf_primitive (closure_of F p)), HP. }
  destruct x; try discriminate Hx;
    unfold equals; rewrite Hne; cbn [env_isPrimitive closure_of]; rewrite HP;
    rewrite (bind_ok _ _ _ _ _ Hthis), (bind_ok _ _ _ _ _ Hg);
    cbn [truthy]; rewrite (bind_ok _ _ _ _ _ Hi); reflexivity.
Qed.

Lemma primitive_wrapper_equals_primitive_witness :
  Demo.invoke 3 Demo.prim5 "equals" [VNumber 5] Demo.prim5_heap
  = (Ok (VBool true), Demo.prim5_heap).
Proof.
  apply (primitive_wrapper_equals_primitive
           Demo.native Demo.JSON_stringify Demo.to_String
           3 0 Demo.AnyPrim Demo.heap0 (VNumber 5) Demo.heap0
           (VNumber 5) Demo.heap0 Demo.prim5 Demo.prim5_heap
           Demo.prim5_heap (VNumber 5) eq_refl
           (Demo_allocates 2 Demo.AnyPrim eq_refl Demo_any_schema_allocates)
           (Demo_empty_methods 2 Demo.AnyPrim _ eq_refl)
           (reflexivity _) eq_refl I eq_refl (reflexivity _) eq_refl).
Defined.

Lemma strict_eq_self x : strict_eq x x = true <-> x <> VNaN.
Proof.
  split.
  - intros H ->. discriminate.
  - intros H. destruct x; try contradiction;
      unfold strict_eq; apply bool_decide_eq_true; reflexivity.
Qed.

(** X9. A value object compared with itself: the shortcut [this === other]
    does not apply, since [this] is the prototype and not the instance, and
    the comparison is made. Let the schema of the factory and its method
    factory only add objects to the heap, let the methods have no [bind]
    of their own and none of the names [equals], [valueOf],
    [hasOwnProperty], nor the name of a validated field, and let no
    validated field be named [hasOwnProperty]. Then [v.equals(v)] is
    [true] unless the wrapped value, or one of the fields of a composite
    object other than those named [valueOf], [equals], [toString], is
    [NaN]; then it is [false]. *)
Theorem equals_self_unless_NaN
  (native : nat -> value -> list value -> M value)
  (JSON_stringify to_String : value -> M string)
  (fuel n : nat) (F : factory) (base : heap)
  (data : value) (h0 : heap) validatedData ha v h1 :
  user_code_allocates native JSON_stringify to_String fuel F base ->
  methods_named native JSON_stringify to_String fuel F base
    (fun k => k <> "equals" /\ k <> "valueOf" /\ k <> "hasOwnProperty"
              /\ k ∉ keys ha validatedData) ->
  base `prefix_of` h0 ->
  parse (schema F) data h0 = (Ok validatedData, ha) ->
  valid ha validatedData -> NoDup (keys ha validatedData) ->
  "hasOwnProperty" ∉ keys ha validatedData ->
  create native JSON_stringify to_String fuel F data h0 = (Ok v, h1) ->
  exists b,
    invoke native JSON_stringify to_String (4 + n) v "equals" [v] h1
      = (Ok (VBool b), h1) /\
    (b = true <->
     if isPrimitive F then validatedData <> VNaN
     else forall k, assoc k (data_fields (own_props ha validatedData)) <> Some VNaN).
Proof.
  intros U N Hb Hparse Hvalid Hnd Hhas0 Hc.
  destruct (create_shape _ _ _ _ _ _ _ _ _ _ _ _ U Hb Hparse Hvalid Hc)
    as (h2 & t & h3 & m & h4 & bm & L & _ & _ & Hcall & Hb3 & Hp0a & Hpa1 & -> & I & Hk
        & _).
  assert (Hq : assoc "equals" bm = None).
  { apply Hk. intros Hin. destruct (N _ _ _ _ Hb3 Hcall _ Hin) as (? & _).
    congruence. }
  assert (Hv : assoc "valueOf" bm = None).
  { apply Hk. intros Hin. destruct (N _ _ _ _ Hb3 Hcall _ Hin) as (_ & ? & _).
    congruence. }
  assert (Hhb : assoc "hasOwnProperty" bm = None).
  { apply Hk. intros Hin. destruct (N _ _ _ _ Hb3 Hcall _ Hin) as (_ & _ & ? & _).
    congruence. }
  assert (Hsh : forall k, is_Some (assoc k (own_props ha validatedData)) ->
                          assoc k bm = None).
  { intros k Hs. apply Hk. intros Hin.
    destruct (N _ _ _ _ Hb3 Hcall _ Hin) as (_ & _ & _ & Hnk).
    apply Hnk. unfold keys. apply assoc_Some_keys, Hs. }
  destruct (isPrimitive F) eqn:HP.
  - exists (strict_eq validatedData validatedData). split; [|apply strict_eq_self].
    apply (equals_primitive_instances _ _ _ _ _ _ _ _ _ _ _ _ _ I I HP HP Hq Hv).
  - pose proof (at_instance _ _ _ _ _ I) as Hx.
    set (ox := {| props := merge (merge (own_props ha validatedData) _) bm;
                  frozen := true; callable := None |}) in Hx.
    assert (Hndx : NoDup (map fst (props ox)))
      by (apply NoDup_keys_merge, NoDup_keys_merge, Hnd).
    assert (Hhas : assoc "hasOwnProperty" (props ox) = None).
    { unfold ox. cbn [props].
      rewrite (assoc_merge_NoDup _ _ _ (at_methods_NoDup _ _ _ _ _ I)), Hhb.
      rewrite assoc_standard_methods. simpl String.eqb. cbv iota.
      apply assoc_None_keys, Hhas0. }
    destruct (equals_instance_object native JSON_stringify to_String (S n) _ _ _ _ _ _ _
                I HP Hq Hnd Hx Hndx Hhas) as (b & Hinv & Hb').
    exists b. split; [exact Hinv|].
    rewrite Hb', <- fields_match_self. split.
    + intros [Heq|Hm].
      * exfalso. symmetry in Heq. revert Heq.
        apply (prototype_not_instance _ _ _ _ _ _ _ _ _ I I).
      * eapply fields_match_ext; [| |exact Hm]; [reflexivity|].
        intros k x. apply (data_view_instance _ _ _ _ _ _ _ I Hsh).
    + intros Hm. right. eapply fields_match_ext; [| |exact Hm]; [reflexivity|].
      intros k x. symmetry. apply (data_view_instance _ _ _ _ _ _ _ I Hsh).
Qed.

Lemma equals_self_unless_NaN_witness :
  Demo.invoke 4 Demo.any1 "equals" [Demo.any1] Demo.any1_heap
  = (Ok (VBool true), Demo.any1_heap).
Proof.
  assert (Hnd : NoDup (keys Demo.pair_heap0 (VRef 5)))
    by (apply (bool_decide_unpack _); vm_compute; exact I).
  assert (Hhas : "hasOwnProperty" ∉ keys Demo.pair_heap0 (VRef 5))
    by (apply (bool_decide_unpack _); vm_compute; exact I).
  assert (Hvalid : valid Demo.pair_heap0 (VRef 5)) by (simpl; lia).
  destruct (equals_self_unless_NaN Demo.native Demo.JSON_stringify Demo.to_String
              3 0 Demo.Any Demo.heap0 (VRef 5) Demo.pair_heap0
              (VRef 5) Demo.pair_heap0 Demo.any1 Demo.any1_heap
              (Demo_allocates 2 Demo.Any eq_refl Demo_any_schema_allocates)
              (Demo_empty_methods 2 Demo.Any _ eq_refl)
              (prefix_app_r _ _ _ (reflexivity _)) eq_refl Hvalid Hnd Hhas eq_refl)
    as (b & Hinv & Hiff).
  unfold Demo.invoke. change 4 with (4 + 0). rewrite Hinv.
  rewrite (proj2 Hiff); [reflexivity|].
  intros k. simpl.
  destruct (String.eqb k "a"); [discriminate|].
  destruct (String.eqb k "b"); discriminate.
Defined.

(** ** The schema of a factory and the factory's own instances *)

(** X20. For a composite value object with a single field that is not an
    object, whose [valueOf] is the standard one -- no custom method has
    that name --, [valueOf()] is the field, and so the schema
    [specificValueObjectSchema(factory)] re-creates from the bare field
    and not from the record: when the factory does not take the bare field
    as data -- the usual case for a schema of a record -- the schema
    rejects the factory's own instance. This for a factory whose schema
    and method factory only add objects to the heap and whose methods
    have no [bind] of their own, and as long as the heap has only
    grown. *)
Theorem specific_schema_rejects_single_field_instance
  (native : nat -> value -> list value -> M value)
  (JSON_stringify to_String : value -> M string)
  (n : nat) (F : factory) (base : heap) (data : value) (h0 : heap) v h1
  (h : heap) l ha o k x e h2 s hs hs' :
  isPrimitive F = false ->
  user_code_allocates native JSON_stringify to_String (2 + n) F base ->
  methods_named native JSON_stringify to_String (2 + n) F base
    (fun k => k <> "valueOf") ->
  base `prefix_of` h0 ->
  parse (schema F) data h0 = (Ok (VRef l), ha) -> valid ha (VRef l) ->
  create native JSON_stringify to_String (2 + n) F data h0 = (Ok v, h1) ->
  h1 `prefix_of` h ->
  h !! l = Some o -> props o = [(k, x)] -> typeof h x <> TObject ->
  create native JSON_stringify to_String (2 + n) F x h = (Throw e, h2) ->
  specificValueObjectSchema native JSON_stringify to_String (2 + n) (Some F) hs
    = (Ok s, hs') ->
  parse s v h
    = (Throw (ZodError [{| message := "Expected a ValueObject"; path := [] |}]), h2).
Proof.
  intros HP U N Hb Hparse Hvalid Hc Hp Hl Hps Ht Hcx Hs.
  destruct (create_instance_named _ _ _ _ _ _ _ _ _ _ _ _ _ U N Hb Hparse Hvalid Hc)
    as (bm & L & _ & _ & -> & I & _ & Hnone).
  apply (instance_at_prefix _ _ _ _ _ _ Hp) in I.
  assert (Hv : assoc "valueOf" bm = None)
    by (apply Hnone; intros Hne; apply Hne; reflexivity).
  unfold specificValueObjectSchema, ret in Hs. inversion Hs; subst s hs'. clear Hs.
  simpl parse. unfold bind at 1. rewrite valueObjectSchema_check_spec.
  rewrite (instance_has_equals _ _ _ _ _ I). simpl andb. cbv iota.
  unfold specific_typeCheck, try_catch, recreate_and_compare.
  assert (Hval : invoke native JSON_stringify to_String (2 + n)
                   (VRef (l_instance L)) "valueOf" [] h = (Ok x, h)).
  { change (2 + n) with (S (S n)).
    rewrite (invoke_instance_valueOf _ _ _ _ _ _ _ _ _ _ I Hv).
    apply (proj2 (valueOf_first_cases (closure_of F (VRef l)) _ h) l o k x HP eq_refl
             Hl Hps Ht). }
  rewrite (bind_ok _ _ _ _ _ Hval).
  rewrite (bind_throw _ _ _ _ _ Hcx). reflexivity.
Qed.

Lemma specific_schema_rejects_single_field_instance_witness :
  fst (parse (valueObjectSchema (Some "ValueObject")
                (Some (specific_typeCheck Demo.native Demo.JSON_stringify
                         Demo.to_String 3 Demo.Amount)))
             Demo.amount5 Demo.amount5_heap)
  = Throw (ZodError [{| message := "Expected a ValueObject"; path := [] |}]).
Proof.
  destruct (create Demo.native Demo.JSON_stringify Demo.to_String (2 + 1)
              Demo.Amount (VNumber 5) Demo.amount5_heap) as [r h2] eqn:Hcx.
  assert (Hr : exists e, r = Throw e).
  { apply (f_equal fst) in Hcx. vm_compute in Hcx. eauto. }
  destruct Hr as [e ->]. change 3 with (2 + 1).
  rewrite (specific_schema_rejects_single_field_instance
             Demo.native Demo.JSON_stringify Demo.to_String
             1 Demo.Amount Demo.heap0 (VRef 5) Demo.amount_heap0
             Demo.amount5 Demo.amount5_heap Demo.amount5_heap
             6 _ {| props := [("amount", VNumber 5)]; frozen := false; callable := None |}
             "amount" (VNumber 5) e h2 _ Demo.heap0 Demo.heap0
             eq_refl (Demo_allocates 2 Demo.Amount eq_refl Demo_amount_schema_allocates)
             (Demo_empty_methods 2 Demo.Amount _ eq_refl)
             (prefix_app_r _ _ _ (reflexivity _)) eq_refl ltac:(simpl; lia)
             eq_refl (reflexivity _)
             eq_refl eq_refl ltac:(discriminate) Hcx eq_refl).
  reflexivity.
Defined.

(** ** Extension *)

(** X16. The method factory of an extended factory calls the parent's method
    factory first, with a handle of its own, then the child's with the
    factory it was given, and merges the two sets of methods: under a name
    both define, the child's method is the one that stays. *)
Theorem combined_methods_child_wins
  (native : nat -> value -> list value -> M value)
  (JSON_stringify to_String : value -> M string)
  (fuel : nat) (h : heap) l parentMF extendedMF this factory
  parentFactoryTemp ht parentMethods h1 extendedMethods h2 :
  h !! l = Some (function_object (CCombined parentMF extendedMF)) ->
  factory_handle h = (Ok parentFactoryTemp, ht) ->
  call native JSON_stringify to_String fuel parentMF VUndefined
       [parentFactoryTemp] ht = (Ok parentMethods, h1) ->
  call native JSON_stringify to_String fuel extendedMF VUndefined [factory] h1
    = (Ok extendedMethods, h2) ->
  NoDup (keys h2 extendedMethods) ->
  let combined := merge (own_props h2 parentMethods) (own_props h2 extendedMethods) in
  call native JSON_stringify to_String (S fuel) (VRef l) this [factory] h
    = (Ok (VRef (length h2)),
       h2 ++ [{| props := combined; frozen := false; callable := None |}])
  /\ forall k,
       assoc k combined =
         match assoc k (own_props h2 extendedMethods) with
         | Some m => Some m
         | None => assoc k (own_props h2 parentMethods)
         end.
Proof.
  intros Hl Hh Hp Hc Hnd combined. split.
  - simpl. rewrite Hl. simpl.
    rewrite (bind_ok _ _ _ _ _ Hh), (bind_ok _ _ _ _ _ Hp), (bind_ok _ _ _ _ _ Hc).
    reflexivity.
  - intros k. apply assoc_merge_NoDup. exact Hnd.
Qed.

Lemma combined_methods_child_wins_witness :
  exists m h',
    Demo.call 2 (VRef 5) VUndefined [VUndefined] Demo.heap_combined = (Ok m, h') /\
    assoc "equals" (own_props h' m) = Some (VRef 12).
Proof.
  destruct (combined_methods_child_wins
              Demo.native Demo.JSON_stringify Demo.to_String
              1 Demo.heap_combined 5 (VRef 1) (VRef 1) VUndefined VUndefined
              _ _ _ _ _ _ eq_refl eq_refl eq_refl eq_refl) as [Hcall Hk].
  { vm_compute. apply NoDup_singleton. }
  eexists _, _. split; [exact Hcall|].
  vm_compute. reflexivity.
Defined.

Lemma typeof_is_function (h : heap) v :
  bool_decide (typeof h v <> TFunction) = negb (is_function h v).
Proof.
  unfold is_function. destruct (decide (typeof h v = TFunction)) as [Hf|Hf].
  - rewrite (bool_decide_true _ Hf). apply bool_decide_eq_false. tauto.
  - rewrite (bool_decide_false _ Hf). apply bool_decide_eq_true. exact Hf.
Qed.

(** What [extend] does once its two checks are passed. *)
Lemma extend_checked (F : factory) (x : extend_options) (h : heap) n :
  ext_name x = Some n -> n <> "" -> is_function h (ext_methodsFactory x) = true ->
  extend F x h =
    match match ext_schema x with
          | Some schemaTransformer => schemaTransformer (schema F) h
          | None => (Ok (Some (schema F)), h)
          end with
    | (Ok extendedSchema, h1) =>
        let combined := VRef (length h1) in
        let h' := h1 ++ [function_object (CCombined (methodsFactory F)
                                                    (ext_methodsFactory x))] in
        match extendedSchema with
        | Some s' =>
            (Ok {| name := n; schema := s'; methodsFactory := combined;
                   overrideIsPrimitive := overrideIsPrimitive F;
                   isPrimitive := is_primitive_schema s' (overrideIsPrimitive F) |}, h')
        | None => (Throw (Error "Value object schema is required"), h')
        end
    | (Throw e, h1) => (Throw e, h1)
    | (Timeout, h1) => (Timeout, h1)
    end.
Proof.
  intros Hn Hne Hf. unfold extend.
  assert (Hm : name_missing (Some n) = false).
  { simpl. destruct (String.eqb_spec n ""); [contradiction|reflexivity]. }
  rewrite Hn, Hm. unfold bind at 1, typeof_m at 1.
  rewrite typeof_is_function, Hf. cbn [negb].
  unfold bind at 1.
  destruct (match ext_schema x with
            | Some t => t (schema F)
            | None => ret (Some (schema F))
            end h) as [[es|e|] h1] eqn:Ht.
  - assert (Ht' : match ext_schema x with
                  | Some t => t (schema F) h
                  | None => (Ok (Some (schema F)), h)
                  end = (Ok es, h1)) by (destruct (ext_schema x); exact Ht).
    rewrite Ht'. unfold bind, new_function, alloc, valueObject.
    cbn [opt_name opt_schema opt_methodsFactory opt_overrideIsPrimitive].
    rewrite Hm. destruct es as [s'|]; [|reflexivity].
    unfold bind, typeof_m. rewrite typeof_is_function.
    assert (Hc : is_function
                   (h1 ++ [{| props := []; frozen := false;
                              callable := Some (CCombined (methodsFactory F)
                                                  (ext_methodsFactory x)) |}])
                   (VRef (length h1)) = true).
    { apply (is_function_object _ _ (CCombined (methodsFactory F) (ext_methodsFactory x))).
      rewrite lookup_app_r by lia. rewrite Nat.sub_diag. reflexivity. }
    rewrite Hc. reflexivity.
  - assert (Ht' : match ext_schema x with
                  | Some t => t (schema F) h
                  | None => (Ok (Some (schema F)), h)
                  end = (Throw e, h1)) by (destruct (ext_schema x); exact Ht).
    rewrite Ht'. reflexivity.
  - assert (Ht' : match ext_schema x with
                  | Some t => t (schema F) h
                  | None => (Ok (Some (schema F)), h)
                  end = (Timeout, h1)) by (destruct (ext_schema x); exact Ht).
    rewrite Ht'. reflexivity.
Qed.

Lemma extend_checks (F : factory) (x : extend_options) (h : heap) :
  (exists n, ext_name x = Some n /\ n <> "" /\
             is_function h (ext_methodsFactory x) = true)
  \/ (name_missing (ext_name x) = true /\
      extend F x h = (Throw (Error "Extended value object name is required"), h))
  \/ (is_function h (ext_methodsFactory x) = false /\
      extend F x h = (Throw (Error "Method factory is required for extension"), h)).
Proof.
  destruct (name_missing (ext_name x)) eqn:Hm.
  - right. left. split; [reflexivity|]. unfold extend. rewrite Hm. reflexivity.
  - destruct (is_function h (ext_methodsFactory x)) eqn:Hf.
    + left. destruct (ext_name x) as [n|]; [|discriminate]. exists n.
      split; [reflexivity|]. split; [|reflexivity].
      intros ->. discriminate.
    + right. right. split; [reflexivity|]. unfold extend. rewrite Hm.
      unfold bind, typeof_m. rewrite typeof_is_function, Hf. reflexivity.
Qed.

(** X14. The factory [extend] returns: it has the new name, the schema the
    transformer made of the parent's (the parent's own when there is no
    transformer), the parent's [overrideIsPrimitive], and a new method
    factory that combines the parent's and the child's. Whether it wraps a
    primitive is decided anew from the new schema. The heap gets the new
    method factory -- after whatever the transformer did --, and the
    parent is as it was. *)
Theorem extend_makes_factory (F : factory) (x : extend_options) (h : heap) F' h' :
  extend F x h = (Ok F', h') ->
  exists n h1,
    ext_name x = Some n /\ n <> "" /\ name F' = n /\
    match ext_schema x with
    | Some schemaTransformer =>
        schemaTransformer (schema F) h = (Ok (Some (schema F')), h1)
    | None => schema F' = schema F /\ h1 = h
    end /\
    overrideIsPrimitive F' = overrideIsPrimitive F /\
    isPrimitive F' = is_primitive_schema (schema F') (overrideIsPrimitive F) /\
    methodsFactory F' = VRef (length h1) /\
    h' = h1 ++ [function_object (CCombined (methodsFactory F) (ext_methodsFactory x))].
Proof.
  intros H. destruct (extend_checks F x h) as [(n & Hn & Hne & Hf)|[[_ He]|[_ He]]];
    try (rewrite He in H; discriminate).
  rewrite (extend_checked F x h n Hn Hne Hf) in H.
  exists n. destruct (ext_schema x) as [t|].
  - destruct (t (schema F) h) as [[[s'|]|e|] h1]; try discriminate.
    inversion H; subst. exists h1. repeat split; try assumption; reflexivity.
  - inversion H; subst. exists h. repeat split; try assumption; reflexivity.
Qed.

Lemma extend_makes_factory_witness :
  exists F' h',
    extend Demo.Num Demo.Int_options Demo.heap0 = (Ok F', h') /\
    name F' = "Int" /\ isPrimitive F' = true /\ methodsFactory F' = VRef 5.
Proof.
  destruct (extend Demo.Num Demo.Int_options Demo.heap0) as [[F'| |] h'] eqn:He;
    try (vm_compute in He; discriminate).
  destruct (extend_makes_factory Demo.Num Demo.Int_options Demo.heap0 F' h' He)
    as (n & h1 & Hn & _ & Hname & Hs & Ho & Hp & Hm & Hh).
  exists F', h'. split; [reflexivity|].
  simpl in Hn, Hs. injection Hn as <-. destruct Hs as [Hs ->].
  split; [exact Hname|]. split; [|exact Hm].
  rewrite Hp, Hs. reflexivity.
Defined.

(** X15. How [extend] fails: by one of its own two checks, by what the schema
    transformer throws, or -- when the transformer returns nothing -- by
    the check of the schema made for every factory. It never fails by the
    other two checks of a new factory, on the name and on the method
    factory. *)
Theorem extend_failures (F : factory) (x : extend_options) (h : heap) e h' :
  extend F x h = (Throw e, h') ->
  (name_missing (ext_name x) = true /\ h' = h /\
   e = Error "Extended value object name is required")
  \/ (is_function h (ext_methodsFactory x) = false /\ h' = h /\
      e = Error "Method factory is required for extension")
  \/ (exists schemaTransformer,
         ext_schema x = Some schemaTransformer /\
         (schemaTransformer (schema F) h = (Throw e, h')
          \/ exists h1,
               schemaTransformer (schema F) h = (Ok None, h1) /\
               e = Error "Value object schema is required" /\
               h' = h1 ++ [function_object (CCombined (methodsFactory F)
                                                      (ext_methodsFactory x))])).
Proof.
  intros H. destruct (extend_checks F x h) as [(n & Hn & Hne & Hf)|[[Hm He]|[Hf He]]].
  - right. right. rewrite (extend_checked F x h n Hn Hne Hf) in H.
    destruct (ext_schema x) as [t|]; [|discriminate].
    exists t. split; [reflexivity|].
    destruct (t (schema F) h) as [[[s'|]|e0|] h1]; try discriminate.
    + right. exists h1. inversion H; subst. repeat split; reflexivity.
    + left. inversion H; subst. reflexivity.
  - left. rewrite He in H. inversion H; subst. repeat split; assumption.
  - right. left. rewrite He in H. inversion H; subst. repeat split; assumption.
Qed.

Lemma extend_failures_witness :
  extend Demo.Num Demo.Lost_options Demo.heap0 =
    (Throw (Error "Value object schema is required"),
     Demo.heap0 ++ [function_object (CCombined (VRef 0) (VRef 0))]).
Proof.
  destruct (extend Demo.Num Demo.Lost_options Demo.heap0) as [[F'|e|] h'] eqn:He;
    try (vm_compute in He; discriminate).
  destruct (extend_failures Demo.Num Demo.Lost_options Demo.heap0 e h' He)
    as [(Hm & _)|[(Hf & _)|(t & Ht & [Hthrow|(h1 & Hnone & -> & ->)])]];
    try discriminate.
  - simpl in Ht. inversion Ht; subst t. discriminate.
  - simpl in Ht. inversion Ht; subst t. inversion Hnone; subst h1. reflexivity.
Defined.

(** ** Making a factory *)

Lemma valueObject_checks (o : options) (h : heap) :
  (forall r h', valueObject o h = (r, h') -> h' = h) /\
  (name_missing (opt_name o) = true ->
   valueObject o h = (Throw (Error "Value object name is required"), h)) /\
  (name_missing (opt_name o) = false -> opt_schema o = None ->
   valueObject o h = (Throw (Error "Value object schema is required"), h)) /\
  (name_missing (opt_name o) = false -> is_Some (opt_schema o) ->
   is_function h (opt_methodsFactory o) = false ->
   valueObject o h = (Throw (Error "Method factory is required"), h)) /\
  (forall F h', valueObject o h = (Ok F, h') ->
     opt_name o = Some (name F) /\ name F <> "" /\
     opt_schema o = Some (schema F) /\
     methodsFactory F = opt_methodsFactory o /\
     is_function h (methodsFactory F) = true /\
     (isPrimitive F = true <->
      constructor_name (schema F) = Some "ZodString" \/
      constructor_name (schema F) = Some "ZodNumber" \/
      constructor_name (schema F) = Some "ZodBoolean" \/
      opt_overrideIsPrimitive o = Some true)).
Proof.
  unfold valueObject.
  destruct (name_missing (opt_name o)) eqn:Hm.
  { repeat split; try discriminate.
    intros r h' H. inversion H; reflexivity. }
  destruct (opt_schema o) as [s|] eqn:Hs.
  2:{ repeat split; try discriminate.
      - intros r h' H. inversion H; reflexivity.
      - intros _ [? ?]. discriminate. }
  unfold bind, typeof_m. rewrite typeof_is_function.
  destruct (is_function h (opt_methodsFactory o)) eqn:Hf; cbn [negb].
  - split; [intros r h' H; inversion H; reflexivity|].
    split; [discriminate|]. split; [discriminate|]. split; [discriminate|].
    intros F h' H. unfold ret in H. inversion H; subst F h'. clear H.
    cbn [name schema methodsFactory isPrimitive].
    destruct (opt_name o) as [n|]; [|discriminate]. simpl in Hm.
    split; [reflexivity|]. split.
    { simpl. intros ->. discriminate. }
    split; [reflexivity|]. split; [reflexivity|]. split; [exact Hf|].
    unfold is_primitive_schema. rewrite !orb_true_iff, !bool_decide_eq_true.
    destruct (opt_overrideIsPrimitive o) as [[]|]; split; try tauto.
    + intros [[[?|?]|?]|?]; try tauto. discriminate.
    + intros [?|[?|[?|?]]]; try tauto. discriminate.
    + intros [[[?|?]|?]|?]; try tauto. discriminate.
    + intros [?|[?|[?|?]]]; try tauto. discriminate.
  - split; [intros r h' H; inversion H; reflexivity|].
    split; [discriminate|]. split; [discriminate|].
    split; [reflexivity|]. intros F h' H. discriminate.
Qed.

Lemma valueObject_makes (o : options) (h : heap) n s :
  opt_name o = Some n -> n <> "" -> opt_schema o = Some s ->
  is_function h (opt_methodsFactory o) = true ->
  valueObject o h =
    (Ok {| name := n; schema := s; methodsFactory := opt_methodsFactory o;
           overrideIsPrimitive := opt_overrideIsPrimitive o;
           isPrimitive := is_primitive_schema s (opt_overrideIsPrimitive o) |}, h).
Proof.
  intros Hn Hne Hs Hf. unfold valueObject.
  assert (Hm : name_missing (Some n) = false).
  { simpl. destruct (String.eqb_spec n ""); [contradiction|reflexivity]. }
  rewrite Hn, Hm, Hs. unfold bind, typeof_m. rewrite typeof_is_function, Hf.
  reflexivity.
Qed.

(** X13. [valueObject] checks its arguments in the order name, schema, method
    factory, and reports the first that fails; when the name is not
    empty, the schema is there and the method factory is a function it
    returns the factory made of them, and it does so in no other case; it
    never touches the heap. The factory wraps a primitive when the schema
    is a [ZodString], [ZodNumber] or [ZodBoolean], or
    [overrideIsPrimitive] is set. *)
Theorem valueObject_validation (o : options) (h : heap) :
  (forall r h', valueObject o h = (r, h') -> h' = h) /\
  (name_missing (opt_name o) = true ->
   valueObject o h = (Throw (Error "Value object name is required"), h)) /\
  (name_missing (opt_name o) = false -> opt_schema o = None ->
   valueObject o h = (Throw (Error "Value object schema is required"), h)) /\
  (name_missing (opt_name o) = false -> is_Some (opt_schema o) ->
   is_function h (opt_methodsFactory o) = false ->
   valueObject o h = (Throw (Error "Method factory is required"), h)) /\
  (forall n s,
     opt_name o = Some n -> n <> "" -> opt_schema o = Some s ->
     is_function h (opt_methodsFactory o) = true ->
     valueObject o h =
       (Ok {| name := n; schema := s; methodsFactory := opt_methodsFactory o;
              overrideIsPrimitive := opt_overrideIsPrimitive o;
              isPrimitive := is_primitive_schema s (opt_overrideIsPrimitive o) |}, h)) /\
  (forall F h', valueObject o h = (Ok F, h') ->
     opt_name o = Some (name F) /\ name F <> "" /\
     opt_schema o = Some (schema F) /\
     methodsFactory F = opt_methodsFactory o /\
     is_function h (methodsFactory F) = true /\
     (isPrimitive F = true <->
      constructor_name (schema F) = Some "ZodString" \/
      constructor_name (schema F) = Some "ZodNumber" \/
      constructor_name (schema F) = Some "ZodBoolean" \/
      opt_overrideIsPrimitive o = Some true)).
Proof.
  destruct (valueObject_checks o h) as (A & B & C & D & E).
  split; [exact A|]. split; [exact B|]. split; [exact C|]. split; [exact D|].
  split; [|exact E]. intros n s. apply valueObject_makes.
Qed.

Lemma valueObject_validation_witness :
  valueObject Demo.Num_options Demo.heap0 = (Ok Demo.Num, Demo.heap0).
Proof.
  destruct (valueObject_validation Demo.Num_options Demo.heap0)
    as (_ & _ & _ & _ & Hmakes & _).
  apply (Hmakes "Num" Demo.number_schema); [reflexivity|discriminate|reflexivity|reflexivity].
Defined.

(** ** [create] only adds to the heap *)

(** The prototype and its three methods, where [new_prototype] puts
    them. *)
Lemma prototype_at (h1 : heap) e :
  let h2 := h1 ++ [function_object (CValueOf e); function_object (CEquals e);
                   function_object (CToString e);
                   {| props := merge (own_props h1 (env_validatedData e))
                                 (standard_methods (VRef (length h1))
                                    (VRef (length h1 + 1)) (VRef (length h1 + 2)));
                      frozen := false; callable := None |}] in
  h2 !! length h1 = Some (function_object (CValueOf e)) /\
  h2 !! (length h1 + 1) = Some (function_object (CEquals e)) /\
  h2 !! (length h1 + 2) = Some (function_object (CToString e)) /\
  h2 !! (length h1 + 3) =
    Some {| props := merge (own_props h1 (env_validatedData e))
                       (standard_methods (VRef (length h1))
                          (VRef (length h1 + 1)) (VRef (length h1 + 2)));
            frozen := false; callable := None |}.
Proof.
  cbv zeta. repeat split.
  - rewrite lookup_app_r by lia. rewrite Nat.sub_diag. reflexivity.
  - rewrite lookup_app_r by lia.
    replace (length h1 + 1 - length h1) with 1 by lia. reflexivity.
  - rewrite lookup_app_r by lia.
    replace (length h1 + 2 - length h1) with 2 by lia. reflexivity.
  - rewrite lookup_app_r by lia.
    replace (length h1 + 3 - length h1) with 3 by lia. reflexivity.
Qed.

Lemma bind_methods_allocates native JSON_stringify to_String fuel prototype entries :
  forall acc (h : heap) r h',
  Forall (fun kv => get_own h (snd kv) "bind" = None) entries ->
  bind_methods native JSON_stringify to_String (S fuel) entries prototype acc h
    = (r, h') ->
  h `prefix_of` h'.
Proof.
  induction entries as [|[k f] rest IH]; intros acc h r h' Hplain H; simpl in H.
  - inversion H. reflexivity.
  - apply Forall_cons in Hplain as [Hn Hplain]. simpl in Hn.
    unfold bind at 1 in H. rewrite invoke_bind_inherited in H by exact Hn.
    unfold Function_prototype_bind in H. destruct (is_function h f).
    + unfold new_function, alloc in H.
      etrans; [apply prefix_app_r; reflexivity|].
      eapply IH; [|exact H].
      eapply Forall_impl; [exact Hplain|]. intros kv. apply get_own_alloc_function.
    + inversion H. reflexivity.
Qed.

(** X5. When the schema and the method factory leave the objects there
    are alone, and the methods have no [bind] of their own, so does
    [create], whether it returns an instance or throws: every object of
    the heap is what it was, and the heap has only got new objects. *)
Theorem create_only_allocates
  (native : nat -> value -> list value -> M value)
  (JSON_stringify to_String : value -> M string)
  (fuel : nat) (F : factory) (base : heap) (data : value) (h : heap) r h' :
  user_code_allocates native JSON_stringify to_String fuel F base ->
  base `prefix_of` h ->
  create native JSON_stringify to_String fuel F data h = (r, h') ->
  h `prefix_of` h' /\ forall l o, h !! l = Some o -> h' !! l = Some o.
Proof.
  intros U Hb Hc.
  assert (Hbody : forall r0 h0,
             create_body native JSON_stringify to_String fuel F data h = (r0, h0) ->
             h `prefix_of` h0).
  { intros r0 h0 H. unfold create_body in H. unfold bind at 1 in H.
    destruct (parse (schema F) data h) as [[vd|e|] h1] eqn:Hparse;
      pose proof (parse_allocates _ _ _ _ _ _ U _ _ _ _ Hb Hparse) as Hp01;
      try (inversion H; subst; exact Hp01).
    unfold bind at 1 in H. rewrite new_prototype_spec in H.
    destruct (prototype_at h1 (closure_of F vd)) as (Hv2 & Hq2 & Hs2 & Hpr2).
    set (h2 := h1 ++ _) in *.
    assert (Hp12 : h1 `prefix_of` h2) by (apply prefix_app_r; reflexivity).
    unfold bind at 1 in H. rewrite factory_handle_spec in H.
    set (h3 := h2 ++ _) in H.
    assert (Hp23 : h2 `prefix_of` h3) by (apply prefix_app_r; reflexivity).
    assert (Hp03 : h `prefix_of` h3) by (etrans; [exact Hp01|]; etrans; eassumption).
    assert (Hb3 : base `prefix_of` h3) by (etrans; eassumption).
    unfold bind at 1 in H.
    destruct (call native JSON_stringify to_String fuel (methodsFactory F)
                VUndefined [VRef (length h2 + 3)] h3) as [[m|e|] h4] eqn:Hcall;
      pose proof (methodsFactory_allocates _ _ _ _ _ _ U _ _ _ _ Hb3 Hcall) as Hp34;
      try (inversion H; subst; etrans; eassumption).
    destruct (call_Ok_fuel _ _ _ _ _ _ _ _ _ _ Hcall) as [fuel' ->].
    assert (Hplain : Forall (fun kv => get_own h4 (snd kv) "bind" = None)
                            (own_props h4 m)).
    { apply Forall_forall. intros [k f] Hin.
      exact (methods_inherit_bind _ _ _ _ _ _ U _ _ _ _ Hb3 Hcall k f Hin). }
    assert (Hp04 : h `prefix_of` h4) by (etrans; eassumption).
    unfold bind at 1 in H.
    assert (Hent : Object_entries m h4 = (Throw TypeError, h4) \/
                   Object_entries m h4 = (Ok (own_props h4 m), h4))
      by (destruct m; auto).
    destruct Hent as [He|He]; rewrite He in H.
    { inversion H; subst. exact Hp04. }
    unfold bind at 1 in H.
    destruct (bind_methods native JSON_stringify to_String (S fuel')
                (own_props h4 m) (VRef (length h1 + 3)) [] h4)
      as [[bm|e|] h5] eqn:Hbm;
      pose proof (bind_methods_allocates _ _ _ _ _ _ _ _ _ _ Hplain Hbm) as Hp45;
      try (inversion H; subst; etrans; eassumption).
    assert (Hp25 : h2 `prefix_of` h5).
    { etrans; [exact Hp23|]. etrans; eassumption. }
    rewrite (new_instance_spec _ _ _ _ h5 vd (length h1 + 3) _ _ _ _ _ _ _ bm
               (lookup_prefix _ _ _ _ Hp25 Hpr2) (lookup_prefix _ _ _ _ Hp25 Hv2)
               (lookup_prefix _ _ _ _ Hp25 Hq2) (lookup_prefix _ _ _ _ Hp25 Hs2)) in H.
    inversion H; subst. etrans; [exact Hp04|]. etrans; [exact Hp45|].
    apply prefix_app_r. reflexivity. }
  assert (Hp : h `prefix_of` h').
  { unfold create, try_catch in Hc.
    destruct (create_body native JSON_stringify to_String fuel F data h)
      as [[v|e|] h0] eqn:Hbd; pose proof (Hbody _ _ eq_refl) as Hp.
    - inversion Hc; subst. exact Hp.
    - destruct e; unfold throw in Hc; inversion Hc; subst; exact Hp.
    - inversion Hc; subst. exact Hp. }
  split; [exact Hp|]. intros l o. apply lookup_prefix, Hp.
Qed.

Lemma create_only_allocates_witness :
  Demo.pair_heap0 `prefix_of` Demo.any1_heap /\
  length Demo.pair_heap0 < length Demo.any1_heap.
Proof.
  split; [|simpl; lia].
  apply (create_only_allocates Demo.native Demo.JSON_stringify Demo.to_String
           3 Demo.Any Demo.heap0 (VRef 5) Demo.pair_heap0 (Ok Demo.any1) Demo.any1_heap
           (Demo_allocates 2 Demo.Any eq_refl Demo_any_schema_allocates)).
  - apply prefix_app_r. reflexivity.
  - reflexivity.
Defined.

(** ** Custom methods *)





(** ** What an instance carries *)

(** X4. A field of the validated data is a property of the instance, with
    the value the schema returned for it, when it is not named [valueOf],
    [equals] or [toString] and the method factory returned no method of
    its name; this for a factory whose schema and method factory only add
    objects to the heap and whose methods have no [bind] of their own,
    and as long as the heap has only grown. *)
Theorem instance_carries_validated_fields
  (native : nat -> value -> list value -> M value)
  (JSON_stringify to_String : value -> M string)
  (fuel : nat) (F : factory) (base : heap)
  (data : value) (h0 : heap) validatedData ha v h1 (h : heap) :
  user_code_allocates native JSON_stringify to_String fuel F base ->
  base `prefix_of` h0 ->
  parse (schema F) data h0 = (Ok validatedData, ha) -> valid ha validatedData ->
  create native JSON_stringify to_String fuel F data h0 = (Ok v, h1) ->
  h1 `prefix_of` h ->
  exists p h2 tempFactory h3 methods h4,
    new_prototype (closure_of F validatedData) ha = (Ok (VRef p), h2) /\
    factory_handle h2 = (Ok tempFactory, h3) /\
    call native JSON_stringify to_String fuel (methodsFactory F) VUndefined
         [tempFactory] h3 = (Ok methods, h4) /\
    forall k x,
      assoc k (own_props ha validatedData) = Some x ->
      is_standard_name k = false -> k ∉ keys h4 methods ->
      get v k h = (Ok x, h).
Proof.
  intros U Hb Hparse Hvalid Hc Hp.
  destruct (create_shape _ _ _ _ _ _ _ _ _ _ _ _ U Hb Hparse Hvalid Hc)
    as (h2 & t & h3 & m & h4 & bm & L & Hproto & Hhandle & Hcall & _ & _ & _ & -> & I & Hk
        & _).
  apply (instance_at_prefix _ _ _ _ _ _ Hp) in I.
  exists (l_prototype L), h2, t, h3, m, h4.
  split; [exact Hproto|]. split; [exact Hhandle|]. split; [exact Hcall|].
  intros k x Hx Hstd Hnk.
  rewrite (get_instance_standard _ _ _ _ _ k I (proj2 (Hk k) Hnk)).
  unfold is_standard_name in Hstd.
  apply orb_false_iff in Hstd as [Hstd Hs]. apply orb_false_iff in Hstd as [Hv Hq].
  rewrite Hs, Hq, Hv, Hx. reflexivity.
Qed.

Lemma instance_carries_validated_fields_witness :
  get Demo.any1 "a" Demo.any1_heap = (Ok (VNumber 1), Demo.any1_heap).
Proof.
  destruct (instance_carries_validated_fields
              Demo.native Demo.JSON_stringify Demo.to_String
              3 Demo.Any Demo.heap0 (VRef 5) Demo.pair_heap0
              (VRef 5) Demo.pair_heap0 Demo.any1 Demo.any1_heap Demo.any1_heap
              (Demo_allocates 2 Demo.Any eq_refl Demo_any_schema_allocates)
              (prefix_app_r _ _ _ (reflexivity _)) eq_refl ltac:(simpl; lia)
              eq_refl (reflexivity _))
    as (p & h2 & t & h3 & m & h4 & Hproto & Hh & Hcall & Hall).
  vm_compute in Hproto. inversion Hproto; subst p h2.
  vm_compute in Hh. inversion Hh; subst t h3.
  vm_compute in Hcall. inversion Hcall; subst m h4.
  apply Hall; [reflexivity|reflexivity|].
  vm_compute. apply not_elem_of_nil.
Defined.

(** ** Equality across factories, and with one's own [valueOf] *)

(** X12. Two primitive wrappers are compared by what they wrap, whatever
    the names of the factories that made them: [v1.equals(v2)] is [p1 ===
    p2], when the [equals] of [v1] and the [valueOf] of [v2] are the
    standard ones -- the first factory has no custom method named
    [equals], the second none named [valueOf] --, the schemas and method
    factories only add objects to the heap and the methods have no
    [bind] of their own. *)
Theorem primitive_wrappers_equal_across_factories
  (native : nat -> value -> list value -> M value)
  (JSON_stringify to_String : value -> M string)
  (fuel n : nat) (F1 F2 : factory) (base : heap) (d1 d2 : value)
  (h0 : heap) p1 ha v1 h1 p2 hb v2 h2 :
  isPrimitive F1 = true -> isPrimitive F2 = true ->
  user_code_allocates native JSON_stringify to_String fuel F1 base ->
  user_code_allocates native JSON_stringify to_String fuel F2 base ->
  methods_named native JSON_stringify to_String fuel F1 base (fun k => k <> "equals") ->
  methods_named native JSON_stringify to_String fuel F2 base (fun k => k <> "valueOf") ->
  base `prefix_of` h0 ->
  parse (schema F1) d1 h0 = (Ok p1, ha) -> valid ha p1 ->
  create native JSON_stringify to_String fuel F1 d1 h0 = (Ok v1, h1) ->
  parse (schema F2) d2 h1 = (Ok p2, hb) -> valid hb p2 ->
  create native JSON_stringify to_String fuel F2 d2 h1 = (Ok v2, h2) ->
  invoke native JSON_stringify to_String (4 + n) v1 "equals" [v2] h2
    = (Ok (VBool (strict_eq p1 p2)), h2).
Proof.
  intros P1 P2 U1 U2 N1 N2 Hb Hparse1 Hvalid1 Hc1 Hparse2 Hvalid2 Hc2.
  destruct (create_instance_named _ _ _ _ _ _ _ _ _ _ _ _ _ U1 N1 Hb Hparse1 Hvalid1 Hc1)
    as (bm1 & L1 & Hp0a & Hpa1 & -> & I1 & _ & Hn1).
  assert (Hb1 : base `prefix_of` h1) by (etrans; [exact Hb|]; etrans; eassumption).
  destruct (create_instance_named _ _ _ _ _ _ _ _ _ _ _ _ _ U2 N2 Hb1 Hparse2 Hvalid2 Hc2)
    as (bm2 & L2 & Hp1b & Hpb2 & -> & I2 & _ & Hn2).
  assert (Hp12 : h1 `prefix_of` h2) by (etrans; eassumption).
  apply (instance_at_prefix _ _ _ _ _ _ Hp12) in I1.
  apply (equals_primitive_instances _ _ _ _ _ _ _ _ _ _ _ _ _ I2 I1 P2 P1).
  - apply Hn1. intros Hne. apply Hne. reflexivity.
  - apply Hn2. intros Hne. apply Hne. reflexivity.
Qed.

Lemma primitive_wrappers_equal_across_factories_witness :
  Demo.invoke 4 Demo.five "equals" [Demo.count5] Demo.count5_heap
  = (Ok (VBool true), Demo.count5_heap).
Proof.
  apply (primitive_wrappers_equal_across_factories
           Demo.native Demo.JSON_stringify Demo.to_String
           3 0 Demo.Num Demo.Count Demo.heap0 (VNumber 5) (VNumber 5)
           Demo.heap0 (VNumber 5) Demo.heap0 Demo.five Demo.five_heap
           (VNumber 5) Demo.five_heap Demo.count5 Demo.count5_heap
           eq_refl eq_refl
           (Demo_allocates 2 Demo.Num eq_refl Demo_number_schema_allocates)
           (Demo_allocates 2 Demo.Count eq_refl Demo_number_schema_allocates)
           (Demo_empty_methods 2 Demo.Num _ eq_refl)
           (Demo_empty_methods 2 Demo.Count _ eq_refl)
           (reflexivity _) eq_refl I eq_refl eq_refl I eq_refl).
Defined.

(** X10. For a composite value object whose [valueOf] and [equals] are
    the standard ones -- no custom method has these names -- and whose
    validated data is an object that does not have exactly one property,
    [v.valueOf()] is the prototype, an object other than [v]; and
    [v.equals(v.valueOf())] is [true] by the shortcut [this === other],
    without any comparison of fields. This for a factory whose schema and
    method factory only add objects to the heap and whose methods have no
    [bind] of their own, and as long as the heap has only grown. *)
Theorem equals_own_valueOf
  (native : nat -> value -> list value -> M value)
  (JSON_stringify to_String : value -> M string)
  (fuel n : nat) (F : factory) (base : heap) (data : value) (h0 : heap) v h1
  (h : heap) l ha o :
  isPrimitive F = false ->
  user_code_allocates native JSON_stringify to_String fuel F base ->
  methods_named native JSON_stringify to_String fuel F base
    (fun k => k <> "valueOf" /\ k <> "equals") ->
  base `prefix_of` h0 ->
  parse (schema F) data h0 = (Ok (VRef l), ha) -> valid ha (VRef l) ->
  create native JSON_stringify to_String fuel F data h0 = (Ok v, h1) ->
  h1 `prefix_of` h ->
  h !! l = Some o -> length (props o) <> 1 ->
  exists p,
    invoke native JSON_stringify to_String (2 + n) v "valueOf" [] h = (Ok p, h) /\
    p <> v /\
    invoke native JSON_stringify to_String (3 + n) v "equals" [p] h
      = (Ok (VBool true), h).
Proof.
  intros HP U N Hb Hparse Hvalid Hc Hp Hl Hlen.
  destruct (create_instance_named _ _ _ _ _ _ _ _ _ _ _ _ _ U N Hb Hparse Hvalid Hc)
    as (bm & L & _ & _ & -> & I & _ & Hnone).
  apply (instance_at_prefix _ _ _ _ _ _ Hp) in I.
  assert (Hv : assoc "valueOf" bm = None) by (apply Hnone; tauto).
  assert (Hq : assoc "equals" bm = None) by (apply Hnone; tauto).
  destruct (valueOf_otherwise_returns_prototype native JSON_stringify to_String n
              _ _ _ _ _ l o I Hv HP eq_refl Hl Hlen) as [Hval Hne].
  exists (VRef (l_prototype L)). split; [exact Hval|]. split; [congruence|].
  change (3 + n) with (S (S (S n))).
  rewrite (invoke_instance_equals_args _ _ _ _ _ _ _ _ _ _ I Hq). simpl nth.
  unfold equals, strict_eq. rewrite bool_decide_true by reflexivity. reflexivity.
Qed.

Lemma equals_own_valueOf_witness :
  exists p,
    Demo.invoke 2 Demo.any1 "valueOf" [] Demo.any1_heap = (Ok p, Demo.any1_heap) /\
    p <> Demo.any1 /\
    Demo.invoke 3 Demo.any1 "equals" [p] Demo.any1_heap
      = (Ok (VBool true), Demo.any1_heap).
Proof.
  apply (equals_own_valueOf Demo.native Demo.JSON_stringify Demo.to_String
           3 0 Demo.Any Demo.heap0 (VRef 5) Demo.pair_heap0
           Demo.any1 Demo.any1_heap Demo.any1_heap 5 Demo.pair_heap0
           {| props := [("a", VNumber 1); ("b", VNumber 2)];
              frozen := false; callable := None |}
           eq_refl (Demo_allocates 2 Demo.Any eq_refl Demo_any_schema_allocates)
           (Demo_empty_methods 2 Demo.Any _ eq_refl)
           (prefix_app_r _ _ _ (reflexivity _)) eq_refl ltac:(simpl; lia)
           eq_refl (reflexivity _) eq_refl).
  simpl. lia.
Defined.

(** ** [valueOf] reads the validated data when it is called *)



